(** * commit-scheduler: the code mutation engine of [daily_commits.py]

    A shallow embedding of [DynamicCodeModifier] (file discovery, section
    selection, prompt rendering, splice, attempt loop and commit workflow)
    together with the properties its specification states about them.

    Text is a [string] whose characters stand for the code points below 256.
    The collaborators of the engine (the [random] module, the file system,
    the completion service behind [call_openai] and the [git] subprocess) are
    an environment of oracles; every call to one of them is recorded in a
    trace, so that "is never invoked" is a statement about that trace.

    Within one call of [make_dynamic_commit] the tree is read as it was when
    the call began: the only write that goes through is followed by the
    Commit Workflow and the return, and a write that fails is taken to leave
    the file as it was.

    File Discovery is modelled on the trees and configurations on which it
    returns a list: [stat] is taken to succeed on every entry that [rglob]
    yields (the source calls it outside any [try], so a matched entry that
    cannot be stat'ed makes the call raise), and the pattern [f"*{ext}"] is
    read for an extension that holds no glob metacharacter and no separator
    ([plain_extension]). The statements about which files are returned carry
    that restriction; the statements about the loop hold for whatever list
    Discovery hands over. *)

From Stdlib Require Import String Ascii List Arith NArith Lia Bool DecimalString Sorted.
Import ListNotations.
Open Scope string_scope.
Open Scope list_scope.
Open Scope nat_scope.

Set Implicit Arguments.

(** ** Python's [str] operations used by the engine *)

Module Text.

Definition nl : ascii := Ascii.ascii_of_nat 10.

Definition NL : string := String nl EmptyString.

(** [str.isspace] on the code points below 256. *)
Definition is_space (c : ascii) : bool :=
  let n := Ascii.nat_of_ascii c in
  ((9 <=? n) && (n <=? 13)) || ((28 <=? n) && (n <=? 32))
  || (n =? 133) || (n =? 160).

Fixpoint lstrip (s : string) : string :=
  match s with
  | EmptyString => EmptyString
  | String c t => if is_space c then lstrip t else s
  end.

Fixpoint rstrip (s : string) : string :=
  match s with
  | EmptyString => EmptyString
  | String c t =>
      match rstrip t with
      | EmptyString => if is_space c then EmptyString else String c EmptyString
      | r => String c r
      end
  end.

(** [s.strip()] *)
Definition strip (s : string) : string := rstrip (lstrip s).

(** [s.startswith(p)] *)
Definition startswith (p s : string) : bool := String.prefix p s.

(** [p in s] on strings: some suffix of [s] starts with [p]. *)
Fixpoint contains (p s : string) : bool :=
  String.prefix p s ||
  match s with
  | EmptyString => false
  | String _ t => contains p t
  end.

(** [s.endswith(p)] *)
Definition endswith (p s : string) : bool :=
  (String.length p <=? String.length s) &&
  String.eqb (String.substring (String.length s - String.length p) (String.length p) s) p.

(** [s.split('\n')]: never the empty list. *)
Fixpoint split (s : string) : list string :=
  match s with
  | EmptyString => [EmptyString]
  | String c t =>
      if Ascii.eqb c nl then EmptyString :: split t
      else match split t with
           | [] => [String c EmptyString]
           | l :: ls => String c l :: ls
           end
  end.

(** ['\n'.join(ls)] *)
Fixpoint join (ls : list string) : string :=
  match ls with
  | [] => EmptyString
  | l :: rest =>
      match rest with
      | [] => l
      | _ :: _ => l ++ NL ++ join rest
      end
  end.

(** A line holds no line feed. *)
Fixpoint no_nl (s : string) : bool :=
  match s with
  | EmptyString => true
  | String c t => negb (Ascii.eqb c nl) && no_nl t
  end.

(** ASCII part of [str.lower]. *)
Definition lower_char (c : ascii) : ascii :=
  let n := Ascii.nat_of_ascii c in
  if (65 <=? n) && (n <=? 90) then Ascii.ascii_of_nat (n + 32) else c.

Fixpoint lower (s : string) : string :=
  match s with
  | EmptyString => EmptyString
  | String c t => String (lower_char c) (lower t)
  end.

(** The string is empty or begins with a character that is not a space. *)
Definition starts_clean (s : string) : bool :=
  match s with
  | EmptyString => true
  | String c _ => negb (is_space c)
  end.

(** [any(p in s for p in pats)] *)
Definition any_in (pats : list string) (s : string) : bool :=
  existsb (fun p => contains p s) pats.

End Text.

(** ** The environment of the engine *)

Infix "+++" := String.append (right associativity, at level 60).

(** Result of a computation that may raise: Python's [Exception] is kept as
    its message, which is all the engine ever uses of it ([str(e)]). *)
Inductive Outcome (A : Type) : Type :=
| Ok (a : A)
| Raised (msg : string).

Arguments Ok {A} a.
Arguments Raised {A} msg.

(** What [subprocess.run(..., check=True)] does. *)
Inductive ProcResult : Type :=
| Exit0 (stdout : string)
| ExitFail (stderr : string)
| OSFault (msg : string).

(** A directory entry matched by [Path.rglob]: its [str], the [st_size] that
    [stat] reports and what [read_text(encoding='utf-8')] does on it. *)
Record Entry : Type := {
  e_path : string;
  e_size : N;
  e_text : Outcome string
}.

(** Calls that leave the process, in the order they are made. *)
Inductive Event : Type :=
| EvRandom (bound v : nat)
| EvLog (level msg : string)
| EvProvider (prompt : string)
| EvWrite (path text : string) (ok : bool)
| EvGit (repo : string) (cmd : list string).

(** The collaborators.  Each answer may depend on everything that happened
    before it. *)
Record Env : Type := {
  listing : string -> list Entry;
  entropy : list Event -> nat;
  completion : list Event -> string -> option string;
  write_fault : list Event -> string -> option string;
  subprocess : list Event -> string -> list string -> ProcResult
}.

(** The keys of [self.config] the engine reads. *)
Record Config : Type := {
  file_extensions : list string;
  ignore_patterns : list string;
  modification_types : list string
}.

(** The dict returned by [select_random_code_section]. *)
Record CodeSection : Type := {
  file_path : Entry;
  lines : list (nat * string);
  content : string;
  all_lines : list string;
  language : string
}.

(** ** A state-and-exception monad over the trace *)

Definition M (A : Type) : Type := list Event -> Outcome A * list Event.

Definition ret {A} (a : A) : M A := fun t => (Ok a, t).

Definition bind {A B} (c : M A) (k : A -> M B) : M B :=
  fun t =>
    match c t with
    | (Ok a, t') => k a t'
    | (Raised msg, t') => (Raised msg, t')
    end.

Definition raise {A} (msg : string) : M A := fun t => (Raised msg, t).

(** [try: c  except Exception as e: h(str(e))] *)
Definition catch {A} (c : M A) (h : string -> M A) : M A :=
  fun t =>
    match c t with
    | (Ok a, t') => (Ok a, t')
    | (Raised msg, t') => h msg t'
    end.

Definition emit (e : Event) : M unit := fun t => (Ok tt, t ++ [e]).

Notation "x <- c ;; k" := (bind c (fun x => k))
  (at level 61, c at next level, right associativity).
Notation "c ;;; k" := (bind c (fun _ => k))
  (at level 61, right associativity).

(** Control flow of a loop body: [continue] (or falling off its end) against
    [return r]. *)
Inductive Step (R : Type) : Type :=
| Continue
| Return (r : R).

Arguments Continue {R}.
Arguments Return {R} r.

(** [for _ in range(n): body] followed by [after]. *)
Fixpoint for_range {R} (n : nat) (body : M (Step R)) (after : M R) : M R :=
  match n with
  | 0 => after
  | S k =>
      s <- body ;;
      match s with
      | Continue => for_range k body after
      | Return r => ret r
      end
  end.

(** ** Small helpers of the Python runtime *)

(** [str(n)] for a non-negative [int]. *)
Definition str_nat (n : nat) : string := NilZero.string_of_uint (Nat.to_uint n).

(** [s.rfind(c)] *)
Fixpoint rfind (c : ascii) (s : string) : option nat :=
  match s with
  | EmptyString => None
  | String d t =>
      match rfind c t with
      | Some i => Some (S i)
      | None => if Ascii.eqb d c then Some 0 else None
      end
  end.

(** [Path.name]: what follows the last separator. *)
Definition basename (p : string) : string :=
  match rfind "/"%char p with
  | Some i => String.substring (S i) (String.length p - S i) p
  | None => p
  end.

(** [Path.suffix] *)
Definition suffix (p : string) : string :=
  let name := basename p in
  match rfind "."%char name with
  | Some i =>
      if (0 <? i) && (i <? String.length name - 1)
      then String.substring i (String.length name - i) name
      else EmptyString
  | None => EmptyString
  end.

(** [d.get(key, default)] on a dict literal. *)
Fixpoint dict_get (key : string) (d : list (string * string)) (default : string) : string :=
  match d with
  | [] => default
  | (k, v) :: rest => if String.eqb k key then v else dict_get key rest default
  end.

(** [enumerate(ls)] *)
Fixpoint enumerate_from {A} (i : nat) (ls : list A) : list (nat * A) :=
  match ls with
  | [] => []
  | x :: rest => (i, x) :: enumerate_from (S i) rest
  end.

Definition enumerate {A} (ls : list A) : list (nat * A) := enumerate_from 0 ls.

(** [ls[a:b]] for [0 <= a]. *)
Definition slice {A} (a b : nat) (ls : list A) : list A := firstn (b - a) (skipn a ls).

Definition is_empty {A} (ls : list A) : bool :=
  match ls with [] => true | _ :: _ => false end.

(** ** The engine *)

Section Engine.

Variable env : Env.
Variable config : Config.

(** [random._randbelow(n)] for [0 < n]. *)
Definition randbelow (n : nat) : M nat :=
  fun t => let v := entropy env t mod n in (Ok v, t ++ [EvRandom n v]).

(** [random.randint(a, b)] *)
Definition randint (a b : nat) : M nat :=
  if b <? a then raise "empty range for randrange()"
  else v <- randbelow (b - a + 1) ;; ret (a + v).

(** [random.choice(seq)] *)
Definition choice {A} (seq : list A) : M A :=
  match seq with
  | [] => raise "Cannot choose from an empty sequence"
  | x :: _ => i <- randbelow (length seq) ;; ret (nth i seq x)
  end.

Definition logger (level msg : string) : M unit := emit (EvLog level msg).

(** [file_path.read_text(encoding='utf-8')] *)
Definition read_text (f : Entry) : M string :=
  match e_text f with
  | Ok s => ret s
  | Raised msg => raise msg
  end.

(** [file_path.write_text(text, encoding='utf-8')] *)
Definition write_text (f : Entry) (text : string) : M unit :=
  fun t =>
    match write_fault env t (e_path f) with
    | Some msg => (Raised msg, t ++ [EvWrite (e_path f) text false])
    | None => (Ok tt, t ++ [EvWrite (e_path f) text true])
    end.

(** [subprocess.run(['git'] + command, cwd=repo_path, ...)] inside
    [run_git_command]. *)
Definition run_git_command (repo_path : string) (command : list string)
  : M (bool * string) :=
  fun t =>
    let t' := t ++ [EvGit repo_path ("git" :: command)] in
    match subprocess env t repo_path ("git" :: command) with
    | Exit0 out => (Ok (true, Text.strip out), t')
    | ExitFail err => (Ok (false, Text.strip err), t')
    | OSFault msg => (Raised msg, t')
    end.

(** *** File Discovery *)

(** The characters that [pathlib] does not read literally in a pattern:
    the wildcards of [fnmatch] and the separator that would split the
    pattern into several components. *)
Definition glob_char (c : ascii) : bool :=
  Ascii.eqb c "*" || Ascii.eqb c "?" || Ascii.eqb c "[" || Ascii.eqb c "/".

(** An extension that the pattern [f"*{ext}"] takes literally. *)
Fixpoint plain_extension (ext : string) : bool :=
  match ext with
  | EmptyString => true
  | String c rest => negb (glob_char c) && plain_extension rest
  end.

(** [repo.rglob(f"*{ext}")] for a [plain_extension], on POSIX paths: the
    leading star matches any run of characters of the name, a leading dot
    included, and the rest of the pattern is literal and case-sensitive, so
    the entries matched are those whose name ends with [ext]. An [ext] with
    a metacharacter is outside this model: [".c*"] also matches [main.cpp]. *)
Definition rglob (repo_path ext : string) : list Entry :=
  filter (fun f => Text.endswith ext (basename (e_path f))) (listing env repo_path).

Definition system_skips : list string :=
  ["venv"; "site-packages"; ".git"; "node_modules"].

(** The body of the inner loop: [true] when the file is appended. *)
Definition keep_file (f : Entry) : bool :=
  let file_str := e_path f in
  if Text.any_in (ignore_patterns config) file_str then false
  else if Text.any_in system_skips file_str then false
  else if (e_size f <? 50)%N || (50000 <? e_size f)%N then false
  else true.

(** The list that [find_code_files] returns, extension by extension in
    the order of the allowlist. The [stat] of line 144 is the [e_size] of the
    entry; a tree in which it raises, and with it the whole call, is not
    among those described here. *)
Definition find_code_files (repo_path : string) : list Entry :=
  flat_map (fun ext => filter keep_file (rglob repo_path ext))
           (file_extensions config).

(** *** Section Selector *)

Definition is_meaningful (line : string) : bool :=
  let stripped := Text.strip line in
  negb (String.eqb stripped EmptyString)
  && negb (Text.startswith "//" stripped)
  && negb (Text.startswith "#" stripped)
  && negb (Text.startswith "/*" stripped)
  && negb (Text.startswith "*" stripped)
  && (10 <? String.length stripped).

Definition meaningful_lines (ls : list string) : list (nat * string) :=
  filter (fun p => is_meaningful (snd p)) (enumerate ls).

Definition language_map : list (string * string) :=
  [(".ts", "typescript"); (".tsx", "typescript");
   (".js", "javascript"); (".jsx", "javascript");
   (".py", "python"); (".java", "java"); (".go", "go"); (".rs", "rust")].

Definition detect_language (f : Entry) : string :=
  let ext := Text.lower (suffix (e_path f)) in
  dict_get ext language_map "unknown".

Definition select_random_code_section (f : Entry) : M (option CodeSection) :=
  catch
    (text <- read_text f ;;
     let ls := Text.split text in
     let meaningful := meaningful_lines ls in
     if length meaningful <? 3 then ret None
     else
       section_size <- randint 2 (Nat.min 3 (length meaningful)) ;;
       start_idx <- randint 0 (length meaningful - section_size) ;;
       let selected_lines := slice start_idx (start_idx + section_size) meaningful in
       ret (Some {| file_path := f;
                    lines := selected_lines;
                    content := text;
                    all_lines := ls;
                    language := detect_language f |}))
    (fun e =>
       logger "ERROR" ("Error reading file " +++ e_path f +++ ": " +++ e) ;;;
       ret None).

(** *** Prompt Builder *)

Definition prompts (lang code_text : string) : list (string * string) :=
  [("improve_performance",
    "Improve the performance of this " +++ lang +++ " code. Only return the improved code, no explanations:"
      +++ Text.NL +++ Text.NL +++ code_text);
   ("add_error_handling",
    "Add proper error handling to this " +++ lang +++ " code. Only return the improved code, no explanations:"
      +++ Text.NL +++ Text.NL +++ code_text);
   ("improve_readability",
    "Make this " +++ lang +++ " code more readable and clean. Only return the improved code, no explanations:"
      +++ Text.NL +++ Text.NL +++ code_text);
   ("optimize_code",
    "Optimize this " +++ lang +++ " code for better efficiency. Only return the improved code, no explanations:"
      +++ Text.NL +++ Text.NL +++ code_text)].

Definition get_improvement_prompt (code_section : CodeSection)
           (modification_type : string) : string :=
  let lang := language code_section in
  let code_lines := map snd (lines code_section) in
  let code_text := Text.join code_lines in
  let d := prompts lang code_text in
  dict_get modification_type d (dict_get "improve_readability" d EmptyString).


(** *** Mutation Applier *)

(** [selected_lines[0][0]] and [selected_lines[-1][0]]; an empty list
    raises [IndexError]. *)
Definition bounds (selected_lines : list (nat * string)) : M (nat * nat) :=
  match selected_lines with
  | [] => raise "list index out of range"
  | first :: _ => ret (fst first, fst (last selected_lines first))
  end.

(** [all_lines[:start_line] + new_lines + all_lines[end_line + 1:]] *)
Definition splice (all : list string) (start_line end_line : nat)
           (new_lines : list string) : list string :=
  firstn start_line all ++ new_lines ++ skipn (end_line + 1) all.

Definition apply_code_modification (code_section : CodeSection)
           (improved_code : string) : M bool :=
  catch
    (let f := file_path code_section in
     let all := all_lines code_section in
     let selected_lines := lines code_section in
     be <- bounds selected_lines ;;
     let start_line := fst be in
     let end_line := snd be in
     let new_lines := Text.split improved_code in
     let modified_lines := splice all start_line end_line new_lines in
     let modified_content := Text.join modified_lines in
     write_text f modified_content ;;;
     logger "INFO" ("Modified " +++ e_path f +++ " (lines " +++ str_nat start_line
                      +++ "-" +++ str_nat end_line +++ ")") ;;;
     ret true)
    (fun e =>
       logger "ERROR" ("Error applying modification: " +++ e) ;;;
       ret false).

(** *** Commit message *)

Definition messages : list (string * string) :=
  [("improve_performance", "perf: optimize code performance");
   ("add_error_handling", "fix: improve error handling");
   ("improve_readability", "refactor: improve code readability");
   ("add_documentation", "docs: add code comments");
   ("optimize_code", "perf: optimize implementation");
   ("add_type_safety", "feat: enhance type safety");
   ("refactor_logic", "refactor: simplify logic")].

Definition generate_commit_message (modification_type : string) (f : Entry) : string :=
  dict_get modification_type messages "chore: improve code quality".

(** *** Commit Workflow *)

Definition commit_and_push (repo_path commit_message : string) : M (bool * string) :=
  catch
    (r1 <- run_git_command repo_path ["add"; "."] ;;
     if negb (fst r1) then ret (false, "Failed to stage files: " +++ snd r1)
     else
       r2 <- run_git_command repo_path ["diff"; "--cached"; "--name-only"] ;;
       if negb (fst r2) || String.eqb (Text.strip (snd r2)) EmptyString
       then ret (false, "No changes to commit")
       else
         r3 <- run_git_command repo_path ["commit"; "-m"; commit_message] ;;
         if negb (fst r3) then ret (false, "Failed to commit: " +++ snd r3)
         else
           r4 <- run_git_command repo_path ["push"] ;;
           if negb (fst r4) then ret (false, "Failed to push: " +++ snd r4)
           else
             logger "INFO" ("Successfully committed and pushed: " +++ commit_message) ;;;
             ret (true, commit_message))
    (fun e => ret (false, "Error during commit process: " +++ e)).

(** *** Attempt Loop *)

Definition generated_markers : list string :=
  ["fixes"; "features"; "performance"; "security"].

(** The filter that builds [existing_files]. *)
Definition eligible (f : Entry) : bool :=
  if Text.any_in generated_markers (e_path f) then false
  else (200 <? e_size f)%N.

(** [self.call_openai(prompt)]: the provider, seen from the loop. *)
Definition call_openai (prompt : string) : M (option string) :=
  fun t => (Ok (completion env t prompt), t ++ [EvProvider prompt]).

(** One iteration of [for attempt in range(5)]. *)
Definition attempt (repo_path : string) (existing_files : list Entry)
  : M (Step (bool * string)) :=
  random_file <- choice existing_files ;;
  logger "INFO" ("Attempting to modify existing file: " +++ e_path random_file) ;;;
  code_section <- select_random_code_section random_file ;;
  match code_section with
  | None => ret Continue
  | Some cs =>
      modification_type <- choice (modification_types config) ;;
      let prompt := get_improvement_prompt cs modification_type in
      improved_code <- call_openai prompt ;;
      match improved_code with
      | None => ret Continue
      | Some improved =>
          if String.eqb improved EmptyString then ret Continue
          else
            let original_code := Text.join (map snd (lines cs)) in
            if String.eqb (Text.strip improved) (Text.strip original_code)
            then ret Continue
            else
              applied <- apply_code_modification cs improved ;;
              if applied
              then
                let commit_message := generate_commit_message modification_type random_file in
                r <- commit_and_push repo_path commit_message ;;
                ret (Return r)
              else ret Continue
      end
  end.

Definition make_dynamic_commit (repo_path : string) : M (bool * string) :=
  catch
    (let code_files := find_code_files repo_path in
     if is_empty code_files then ret (false, "No suitable code files found")
     else
       let existing_files := filter eligible code_files in
       if is_empty existing_files
       then ret (false, "No existing source files found to modify")
       else
         for_range 5 (attempt repo_path existing_files)
           (ret (false, "Could not generate suitable modifications after 5 attempts")))
    (fun e => ret (false, "Error in dynamic commit: " +++ e)).

End Engine.

(** ** Properties stated about the engine *)

(** The frame of a splice: [written] agrees with [all] before [start_line]
    and, shifted, after [end_line]; in between it holds [new_lines]. *)
Definition outside_preserved (all : list string) (start_line end_line : nat)
           (new_lines written : list string) : Prop :=
  (forall i, i < start_line -> nth_error written i = nth_error all i)
  /\ (forall k, k < length new_lines ->
            nth_error written (start_line + k) = nth_error new_lines k)
  /\ (forall j, end_line < j ->
            nth_error written (start_line + length new_lines + (j - S end_line))
            = nth_error all j)
  /\ length written = start_line + length new_lines + (length all - S end_line).

(** The four commands of the Commit Workflow, in the order of the code. *)
Definition git_steps (commit_message : string) : list (list string) :=
  [["git"; "add"; "."];
   ["git"; "diff"; "--cached"; "--name-only"];
   ["git"; "commit"; "-m"; commit_message];
   ["git"; "push"]].

(** The trace once the first [k] commands have been run from [t]. *)
Fixpoint trace_after (repo_path commit_message : string) (t : list Event) (k : nat)
  : list Event :=
  match k with
  | 0 => t
  | S j => trace_after repo_path commit_message t j
           ++ [EvGit repo_path (nth j (git_steps commit_message) [])]
  end.

(** What the subprocess answers to command [k], run after the ones before it. *)
Definition answer (env : Env) (repo_path commit_message : string) (t : list Event)
           (k : nat) : ProcResult :=
  subprocess env (trace_after repo_path commit_message t k) repo_path
             (nth k (git_steps commit_message) []).

(** A step succeeds when git exits with 0 and, for the staged-name query
    (step 1), also lists a name. *)
Definition step_ok (k : nat) (a : ProcResult) : bool :=
  match a with
  | Exit0 out => if k =? 1 then negb (String.eqb (Text.strip out) EmptyString) else true
  | ExitFail _ => false
  | OSFault _ => false
  end.

(** Index of the first step that does not succeed, if any. *)
Definition first_failure (env : Env) (repo_path commit_message : string)
           (t : list Event) : option nat :=
  let ok k := step_ok k (answer env repo_path commit_message t k) in
  if negb (ok 0) then Some 0
  else if negb (ok 1) then Some 1
  else if negb (ok 2) then Some 2
  else if negb (ok 3) then Some 3
  else None.

(** *** Reading a trace *)

Definition count (p : Event -> bool) (t : list Event) : nat := length (filter p t).

(** The log line that opens each attempt of the loop. *)
Definition is_mark (e : Event) : bool :=
  match e with
  | EvLog level msg =>
      String.eqb level "INFO" && String.prefix "Attempting to modify existing file: " msg
  | _ => false
  end.

(** A [write_text] that went through. *)
Definition is_applied (e : Event) : bool :=
  match e with
  | EvWrite _ _ ok => ok
  | _ => false
  end.

Definition is_write (e : Event) : bool :=
  match e with
  | EvWrite _ _ _ => true
  | _ => false
  end.

Definition is_git (e : Event) : bool :=
  match e with
  | EvGit _ _ => true
  | _ => false
  end.

Definition is_provider (e : Event) : bool :=
  match e with
  | EvProvider _ => true
  | _ => false
  end.

(** Draws and log lines other than the attempt mark. *)
Definition noise (e : Event) : bool :=
  match e with
  | EvRandom _ _ => true
  | EvLog _ _ => negb (is_mark e)
  | _ => false
  end.

Definition git_calls (t : list Event) : nat := count is_git t.

(** The trace after [n] attempts in a row that all ended in [continue];
    [None] when one of them returned or raised. *)
Fixpoint after_attempts (env : Env) (config : Config) (repo_path : string)
         (existing_files : list Entry) (n : nat) (t : list Event)
  : option (list Event) :=
  match n with
  | 0 => Some t
  | S k =>
      match attempt env config repo_path existing_files t with
      | (Ok Continue, t') => after_attempts env config repo_path existing_files k t'
      | _ => None
      end
  end.

(** The loop of [make_dynamic_commit] with the [return] that follows it. *)
Definition attempt_loop (env : Env) (config : Config) (repo_path : string)
           (existing_files : list Entry) : M (bool * string) :=
  for_range 5 (attempt env config repo_path existing_files)
    (ret (false, "Could not generate suitable modifications after 5 attempts")).

(** ** Sample environments *)

Definition text_entry (path : string) (size : N) (text : string) : Entry :=
  {| e_path := path; e_size := size; e_text := Ok text |}.

(** Nothing fails: draws are 0, writes and git commands succeed. *)
Definition calm_env (files : list Entry) (answer : option string) : Env :=
  {| listing := fun _ => files;
     entropy := fun _ => 0;
     completion := fun _ _ => answer;
     write_fault := fun _ _ => None;
     subprocess := fun _ _ _ => Exit0 "main.py" |}.

(** Git answers from a script, one entry per call. *)
Definition scripted_env (files : list Entry) (answer : option string)
           (script : list ProcResult) : Env :=
  {| listing := fun _ => files;
     entropy := fun _ => 0;
     completion := fun _ _ => answer;
     write_fault := fun _ _ => None;
     subprocess := fun t _ _ => nth (git_calls t) script (OSFault "No such file or directory: 'git'") |}.

Definition default_config : Config :=
  {| file_extensions := [".ts"; ".js"; ".tsx"; ".jsx"; ".py"; ".java"; ".go"; ".rs"];
     ignore_patterns := ["node_modules"; ".git"; "dist"; "build"; "__pycache__"];
     modification_types :=
       ["improve_performance"; "add_error_handling"; "improve_readability";
        "add_documentation"; "optimize_code"; "add_type_safety"; "refactor_logic"] |}.

Definition sample_text : string :=
  "import os" +++ Text.NL +++
  "total = compute(1)" +++ Text.NL +++
  "# a comment line here" +++ Text.NL +++
  "result = total + offset" +++ Text.NL +++
  "print(result, total)" +++ Text.NL +++
  "done".

Definition sample_file : Entry := text_entry "repo/main.py" 300 sample_text.

Definition sample_section : CodeSection :=
  {| file_path := sample_file;
     lines := [(1, "total = compute(1)"); (3, "result = total + offset")];
     content := sample_text;
     all_lines := Text.split sample_text;
     language := "python" |}.

(** A provider that hands the selected lines back, padded with blanks. *)
Definition noop_answer : string :=
  "  total = compute(1)" +++ Text.NL +++ "result = total + offset" +++ Text.NL.

Definition noop_env : Env := calm_env [sample_file] (Some noop_answer).

(** The traces of the first attempt under [noop_env]: after the file is
    drawn, after the section is selected, after the type is drawn. *)
Definition noop_t1 : list Event := [EvRandom 1 0].

Definition noop_t2 : list Event :=
  [EvRandom 1 0;
   EvLog "INFO" "Attempting to modify existing file: repo/main.py";
   EvRandom 2 0; EvRandom 2 0].

Definition noop_t3 : list Event := noop_t2 ++ [EvRandom 7 0].

(** A Python file of exactly fifty bytes. *)
Definition tiny_text : string :=
  "def step(n):" +++ Text.NL +++
  "    return n + 1" +++ Text.NL +++
  "print(step(41) + 10)".

Definition tiny_file : Entry :=
  text_entry "repo/tiny.py" (N.of_nat (String.length tiny_text)) tiny_text.

(** A Python file whose declared size is the byte length of its text. *)
Definition long_text : string :=
  "import os" +++ Text.NL +++
  "import sys" +++ Text.NL +++
  Text.NL +++
  "def total(values):" +++ Text.NL +++
  "    result = 0" +++ Text.NL +++
  "    for value in values:" +++ Text.NL +++
  "        result = result + value" +++ Text.NL +++
  "    return result" +++ Text.NL +++
  Text.NL +++
  "def mean(values):" +++ Text.NL +++
  "    if len(values) == 0:" +++ Text.NL +++
  "        return 0" +++ Text.NL +++
  "    return total(values) / len(values)" +++ Text.NL +++
  Text.NL +++
  "print(mean([1, 2, 3, 4]))" +++ Text.NL.

Definition long_file : Entry :=
  text_entry "repo/stats.py" (N.of_nat (String.length long_text)) long_text.

(** The same text under a name that is nothing but the extension. *)
Definition hidden_file : Entry :=
  text_entry "repo/.py" (N.of_nat (String.length long_text)) long_text.

(** The section that the draws 0, 0 select in [long_file]. *)
Definition long_section : CodeSection :=
  {| file_path := long_file;
     lines := [(3, "def total(values):"); (5, "    for value in values:")];
     content := long_text;
     all_lines := Text.split long_text;
     language := "python" |}.

(** An environment whose fifth draw, the one of the modification type in a
    first attempt, is 1; every other draw is 0 and nothing fails. *)
Definition second_type_env : Env :=
  {| listing := fun _ => [long_file];
     entropy := fun t => if length t =? 4 then 1 else 0;
     completion := fun _ _ =>
       Some ("def total(values):" +++ Text.NL +++ "    result = 0" +++ Text.NL +++
             "    for value in list(values):");
     write_fault := fun _ _ => None;
     subprocess := fun _ _ _ => Exit0 "stats.py" |}.

(** ** Further sample data *)

Definition two_files_env : Env := calm_env [long_file; tiny_file] None.

Definition py_js_config : Config :=
  {| file_extensions := [".py"; ".js"];
     ignore_patterns := ["node_modules"];
     modification_types := ["improve_readability"] |}.

(** Order of two enumerated lines by their index in the file. *)
Definition by_index (p q : nat * string) : Prop := fst p < fst q.

Definition is_random (e : Event) : bool :=
  match e with
  | EvRandom _ _ => true
  | _ => false
  end.

Definition no_types_config : Config :=
  {| file_extensions := [".py"];
     ignore_patterns := [];
     modification_types := [] |}.

(** ** Run Orchestrator *)

(** One value of the dict returned by [run_dynamic_commits]: the keys
    [message] and [error] are each present or absent. *)
Record RunResult : Type := {
  success : bool;
  message : option string;
  error : option string;
  timestamp : string
}.

(** [d[k] = v] on a dict kept in insertion order. *)
Fixpoint dict_set {V} (k : string) (v : V) (d : list (string * V)) : list (string * V) :=
  match d with
  | [] => [(k, v)]
  | (k', v') :: rest =>
      if String.eqb k' k then (k', v) :: rest else (k', v') :: dict_set k v rest
  end.

(** [sum(1 for r in results.values() if r.get("success"))] *)
Definition count_successful (results : list (string * RunResult)) : nat :=
  length (filter (fun p => success (snd p)) results).

Section Orchestrator.

Variable env : Env.
Variable config : Config.

(** [datetime.now().isoformat()], read off the clock of the host. *)
Variable now : list Event -> string.

Definition stamp : M string := fun t => (Ok (now t), t).

(** The body of the loop over the repositories. The symbols that open the
    two log lines are written as their UTF-8 bytes. *)
Definition run_repository (repo_path : string) (results : list (string * RunResult))
  : M (list (string * RunResult)) :=
  catch
    (r <- make_dynamic_commit env config repo_path ;;
     ts <- stamp ;;
     let results' :=
       dict_set repo_path
                {| success := fst r; message := Some (snd r); error := None;
                   timestamp := ts |} results in
     (if fst r
      then logger "INFO" ("✅ Dynamic commit made to " +++ repo_path +++ ": " +++ snd r)
      else logger "ERROR" ("❌ Failed to commit to " +++ repo_path +++ ": " +++ snd r)) ;;;
     ret results')
    (fun e =>
       logger "ERROR" ("Error processing " +++ repo_path +++ ": " +++ e) ;;;
       ts <- stamp ;;
       ret (dict_set repo_path
                     {| success := false; message := None; error := Some e;
                        timestamp := ts |} results)).

Fixpoint for_each_repository (repositories : list string)
         (results : list (string * RunResult)) : M (list (string * RunResult)) :=
  match repositories with
  | [] => ret results
  | repo_path :: rest =>
      results' <- run_repository repo_path results ;;
      for_each_repository rest results'
  end.

(** [run_dynamic_commits], given [self.config.get("repositories", [])]. *)
Definition run_dynamic_commits (repositories : list string)
  : M (list (string * RunResult)) :=
  logger "INFO" "Starting dynamic code modifier" ;;;
  if is_empty repositories
  then logger "WARNING" "No repositories configured" ;;; ret []
  else
    results <- for_each_repository repositories [] ;;
    let successful := count_successful results in
    let failed := length results - successful in
    logger "INFO" ("Dynamic commit summary: " +++ str_nat successful +++ " successful, "
                     +++ str_nat failed +++ " failed") ;;;
    ret results.

End Orchestrator.

(** A result as the [try] branch of the orchestrator builds it. *)
Definition plain_result (r : RunResult) : Prop :=
  error r = None /\ exists m, message r = Some m.

(** ** The scheduler's report *)

(** [result.get(key, default)] for a key that holds text. *)
Definition get_or (value : option string) (default : string) : string :=
  match value with
  | Some s => s
  | None => default
  end.

(** One line of the loop over [results.items()] in [run_commits] of
    [scheduler.py]; [repo.split('/')[-1]] is what follows the last slash. *)
Definition detail_line (entry : string * RunResult) : Event :=
  let repo_name := basename (fst entry) in
  let result := snd entry in
  if success result
  then EvLog "INFO" ("  ✅ " +++ repo_name +++ ": " +++ get_or (message result) "Success")
  else EvLog "ERROR" ("  ❌ " +++ repo_name +++ ": " +++ get_or (error result) "Failed").

(** What [run_commits] logs once it holds the results: the summary and one
    line per repository. *)
Definition report (results : list (string * RunResult)) : M unit :=
  let successful := count_successful results in
  let failed := length results - successful in
  logger "INFO" ("✅ Summary: " +++ str_nat successful +++ " successful commits, "
                   +++ str_nat failed +++ " failed") ;;;
  fun t => (Ok tt, t ++ map detail_line results).

(** A clock that stands still. *)
Definition frozen_clock (t : list Event) : string := "2026-01-01T00:00:00".

(** The entry of a repository without any candidate file. *)
Definition empty_repo_entry : string * RunResult :=
  ("work/proj",
   {| success := false;
      message := Some "No suitable code files found";
      error := None;
      timestamp := "2026-01-01T00:00:00" |}).

Definition empty_repo_results : list (string * RunResult) := [empty_repo_entry].


(** ** Cleaning the provider's answer *)

(** The class [\w] of Python's [re] on the code points below 256. *)
Definition is_word (c : ascii) : bool :=
  let n := Ascii.nat_of_ascii c in
  ((48 <=? n) && (n <=? 57)) || ((65 <=? n) && (n <=? 90)) || (n =? 95)
  || ((97 <=? n) && (n <=? 122))
  || (n =? 170) || (n =? 178) || (n =? 179) || (n =? 181) || (n =? 185) || (n =? 186)
  || ((188 <=? n) && (n <=? 190)) || ((192 <=? n) && (n <=? 214))
  || ((216 <=? n) && (n <=? 246)) || (248 <=? n).

Definition fence : string := "```".

(** What follows [p] when [s] starts with it. *)
Fixpoint after_prefix (p s : string) : option string :=
  match p with
  | EmptyString => Some s
  | String a p' =>
      match s with
      | EmptyString => None
      | String b s' => if Ascii.eqb a b then after_prefix p' s' else None
      end
  end.

Fixpoint drop_word (s : string) : string :=
  match s with
  | EmptyString => EmptyString
  | String c t => if is_word c then drop_word t else s
  end.

Definition drop_newline (s : string) : string :=
  match s with
  | EmptyString => EmptyString
  | String c t => if Ascii.eqb c Text.nl then t else s
  end.

(** [re.sub(r'^```\w*\n?', '', s)]: an opening fence, its tag and one
    newline, at the very start only. *)
Definition strip_open_fence (s : string) : string :=
  match after_prefix fence s with
  | Some rest => drop_newline (drop_word rest)
  | None => s
  end.

(** [re.sub(r'\n?```$', '', s)]: the leftmost place from which the rest of
    the text is a closing fence, with the newline before it if any; [$] also
    matches before a newline that ends the text, which then stays. *)
Fixpoint strip_close_fence (s : string) : string :=
  if String.eqb s (Text.NL +++ fence) || String.eqb s fence then EmptyString
  else if String.eqb s (Text.NL +++ fence +++ Text.NL) || String.eqb s (fence +++ Text.NL)
       then Text.NL
       else match s with
            | EmptyString => EmptyString
            | String c t => String c (strip_close_fence t)
            end.

(** [call_openai] with the completion request itself as the oracle: [api]
    gives [response.choices[0].message.content], or raises. *)
Definition call_openai_via (api : list Event -> string -> Outcome (option string))
           (prompt : string) : M (option string) :=
  catch
    (content <- (fun t => (api t prompt, t ++ [EvProvider prompt])) ;;
     match content with
     | None => logger "ERROR" "OpenAI response content was empty" ;;; ret None
     | Some text =>
         if String.eqb text EmptyString
         then logger "ERROR" "OpenAI response content was empty" ;;; ret None
         else
           let improved_code := Text.strip text in
           let improved_code := strip_open_fence improved_code in
           let improved_code := strip_close_fence improved_code in
           ret (Some improved_code)
     end)
    (fun e => logger "ERROR" ("OpenAI API error: " +++ e) ;;; ret None).

(** An answer wrapped in a fenced block, with blanks around it. *)
Definition fenced (pre tag body post : string) : string :=
  pre +++ fence +++ tag +++ Text.NL +++ body +++ Text.NL +++ fence +++ post.

Definition all_space (s : string) : bool :=
  forallb Text.is_space (list_ascii_of_string s).

Definition all_word (s : string) : bool :=
  forallb is_word (list_ascii_of_string s).

(** A completion service that always answers [content]. *)
Definition fixed_api (content : option string) (t : list Event) (prompt : string)
  : Outcome (option string) := Ok content.

(** A provider whose answer is the empty string. *)
Definition empty_answer_env : Env := calm_env [sample_file] (Some EmptyString).

(** ** Facts about the string operations *)

Module TextFacts.
Import Text.

Lemma split_nonempty (s : string) : split s <> [].
Proof.
  induction s as [|c t IH]; simpl; [discriminate|].
  destruct (Ascii.eqb c nl); [discriminate|].
  destruct (split t); discriminate.
Qed.

Lemma split_no_nl (s : string) : Forall (fun l => no_nl l = true) (split s).
Proof.
  induction s as [|c t IH]; simpl.
  - constructor; [reflexivity | constructor].
  - destruct (Ascii.eqb c nl) eqn:E.
    + constructor; [reflexivity | exact IH].
    + destruct (split t) as [|l ls].
      * constructor; [simpl; rewrite E; reflexivity | constructor].
      * inversion IH; subst. constructor; [|assumption].
        simpl. rewrite E. simpl. assumption.
Qed.

Lemma split_line (l : string) : no_nl l = true -> split l = [l].
Proof.
  induction l as [|c t IH]; simpl; [reflexivity|].
  intros H. apply andb_prop in H as [Hc Ht].
  apply negb_true_iff in Hc. rewrite Hc, (IH Ht). reflexivity.
Qed.

Lemma split_line_nl (l rest : string) :
  no_nl l = true -> split (l +++ String nl rest) = l :: split rest.
Proof.
  induction l as [|c t IH]; simpl; intros H.
  - reflexivity.
  - apply andb_prop in H as [Hc Ht].
    apply negb_true_iff in Hc. rewrite Hc.
    rewrite (IH Ht). reflexivity.
Qed.

(** Reading back what [join] wrote gives the same lines. *)
Lemma split_join (ls : list string) :
  ls <> [] -> Forall (fun l => no_nl l = true) ls -> split (join ls) = ls.
Proof.
  induction ls as [|l rest IH]; intros Hne Hall; [congruence|].
  inversion Hall as [|? ? Hl Hrest]; subst.
  destruct rest as [|l' rest'].
  - simpl. apply split_line; assumption.
  - change (join (l :: l' :: rest')) with (l +++ String nl (join (l' :: rest'))).
    rewrite split_line_nl by assumption.
    rewrite IH; [reflexivity | discriminate | assumption].
Qed.

Lemma lstrip_starts_clean (s : string) : starts_clean (lstrip s) = true.
Proof.
  induction s as [|c t IH]; simpl; [reflexivity|].
  destruct (is_space c) eqn:E; [exact IH|].
  simpl. rewrite E. reflexivity.
Qed.

Lemma lstrip_clean (s : string) : starts_clean s = true -> lstrip s = s.
Proof.
  destruct s as [|c t]; simpl; [reflexivity|].
  intros H. apply negb_true_iff in H. rewrite H. reflexivity.
Qed.

Lemma rstrip_starts_clean (s : string) :
  starts_clean s = true -> starts_clean (rstrip s) = true.
Proof.
  destruct s as [|c t]; simpl; [reflexivity|].
  intros H. destruct (rstrip t).
  - apply negb_true_iff in H. rewrite H. simpl. rewrite H. reflexivity.
  - simpl. exact H.
Qed.

Lemma rstrip_idempotent (s : string) : rstrip (rstrip s) = rstrip s.
Proof.
  induction s as [|c t IH]; simpl; [reflexivity|].
  destruct (rstrip t) as [|d r] eqn:E.
  - destruct (is_space c) eqn:Ec; simpl; [reflexivity|].
    rewrite Ec. reflexivity.
  - simpl. simpl in IH. rewrite IH. reflexivity.
Qed.

(** Trimming twice is trimming once. *)
Lemma strip_idempotent (s : string) : strip (strip s) = strip s.
Proof.
  unfold strip.
  rewrite (lstrip_clean (rstrip (lstrip s))).
  - apply rstrip_idempotent.
  - apply rstrip_starts_clean, lstrip_starts_clean.
Qed.

End TextFacts.

(** ** Mutation Applier *)

Section ApplierFacts.

Variable env : Env.

Lemma splice_before (all new : list string) (s e i : nat) :
  s <= length all -> i < s ->
  nth_error (splice all s e new) i = nth_error all i.
Proof.
  intros Hs Hi. unfold splice.
  rewrite nth_error_app1 by (rewrite length_firstn; lia).
  rewrite nth_error_firstn.
  apply Nat.ltb_lt in Hi. rewrite Hi. reflexivity.
Qed.

Lemma splice_middle (all new : list string) (s e k : nat) :
  s <= length all -> k < length new ->
  nth_error (splice all s e new) (s + k) = nth_error new k.
Proof.
  intros Hs Hk. unfold splice.
  rewrite nth_error_app2 by (rewrite length_firstn; lia).
  rewrite length_firstn, Nat.min_l by assumption.
  replace (s + k - s) with k by lia.
  apply nth_error_app1; assumption.
Qed.

Lemma splice_after (all new : list string) (s e j : nat) :
  s <= length all -> e < j ->
  nth_error (splice all s e new) (s + length new + (j - S e)) = nth_error all j.
Proof.
  intros Hs Hj. unfold splice.
  rewrite nth_error_app2 by (rewrite length_firstn; lia).
  rewrite length_firstn, Nat.min_l by assumption.
  rewrite nth_error_app2 by lia.
  replace (s + length new + (j - S e) - s - length new) with (j - S e) by lia.
  rewrite nth_error_skipn. f_equal. lia.
Qed.

Lemma splice_length (all new : list string) (s e : nat) :
  s <= length all ->
  length (splice all s e new) = s + length new + (length all - S e).
Proof.
  intros Hs. unfold splice.
  rewrite !length_app, length_firstn, length_skipn, Nat.min_l by assumption. lia.
Qed.

Lemma Forall_firstn_skipn (P : string -> Prop) (n : nat) (l : list string) :
  Forall P l -> Forall P (firstn n l) /\ Forall P (skipn n l).
Proof.
  intros H. rewrite <- (firstn_skipn n l) in H.
  apply Forall_app in H. exact H.
Qed.

Lemma splice_no_nl (all new : list string) (s e : nat) :
  Forall (fun l => Text.no_nl l = true) all ->
  Forall (fun l => Text.no_nl l = true) new ->
  Forall (fun l => Text.no_nl l = true) (splice all s e new).
Proof.
  intros Ha Hn. unfold splice.
  apply Forall_app; split; [apply Forall_firstn_skipn; assumption|].
  apply Forall_app; split; [assumption | apply Forall_firstn_skipn; assumption].
Qed.

Lemma splice_nonempty (all : list string) (s e : nat) (improved : string) :
  splice all s e (Text.split improved) <> [].
Proof.
  unfold splice. intros H.
  apply app_eq_nil in H as [_ H]. apply app_eq_nil in H as [H _].
  exact (TextFacts.split_nonempty improved H).
Qed.

(** What the Applier hands to [write_text], and what it returns. *)
Lemma apply_code_modification_run (cs : CodeSection) (improved : string)
      (t : list Event) (first : nat * string) (rest : list (nat * string)) :
  lines cs = first :: rest ->
  let path := e_path (file_path cs) in
  let text := Text.join (splice (all_lines cs) (fst first) (fst (last rest first))
                                (Text.split improved)) in
  exists ok msg,
    apply_code_modification env cs improved t
    = (Ok ok, t ++ [EvWrite path text ok] ++ [EvLog (if ok then "INFO" else "ERROR") msg])
    /\ is_mark (EvLog (if ok then "INFO" else "ERROR") msg) = false.
Proof.
  intros Hl path text.
  unfold apply_code_modification, catch, bind, bounds, write_text, logger, emit, ret.
  rewrite Hl.
  replace (last (first :: rest) first) with (last rest first)
    by (destruct rest; reflexivity).
  cbn [fst snd].
  destruct (write_fault env t (e_path (file_path cs))) as [m|].
  - exists false. eexists. rewrite <- app_assoc. split; reflexivity.
  - exists true. eexists. rewrite <- app_assoc. split; reflexivity.
Qed.

End ApplierFacts.

(** C2. For a section whose first and last selected indices are [start] and
    [end] within the file, and for every replacement text, the Applier hands
    [write_text] a content whose lines before [start] and after [end] are the
    original lines in their order, the closed range [start, end] being
    replaced by the lines of the replacement. *)
Theorem apply_code_modification_frame (env : Env) (cs : CodeSection)
        (improved : string) (t : list Event)
        (first : nat * string) (rest : list (nat * string)) :
  lines cs = first :: rest ->
  all_lines cs = Text.split (content cs) ->
  fst first <= fst (last rest first) < length (all_lines cs) ->
  exists text ok msg,
    apply_code_modification env cs improved t
    = (Ok ok, t ++ [EvWrite (e_path (file_path cs)) text ok]
                ++ [EvLog (if ok then "INFO" else "ERROR") msg])
    /\ outside_preserved (all_lines cs) (fst first) (fst (last rest first))
                         (Text.split improved) (Text.split text).
Proof.
  intros Hl Hall [Hse He].
  destruct (apply_code_modification_run env cs improved t Hl) as (ok & msg & Hrun & _).
  eexists; exists ok, msg. split; [exact Hrun|].
  assert (Hs : fst first <= length (all_lines cs)) by lia.
  rewrite TextFacts.split_join.
  - repeat split.
    + intros i Hi. apply splice_before; assumption.
    + intros k Hk. apply splice_middle; assumption.
    + intros j Hj. apply splice_after; assumption.
    + apply splice_length; assumption.
  - apply splice_nonempty.
  - apply splice_no_nl; [rewrite Hall|]; apply TextFacts.split_no_nl.
Qed.

Lemma apply_code_modification_frame_witness :
  exists text ok msg,
    apply_code_modification (calm_env [sample_file] None) sample_section "x = 1" []
    = (Ok ok, [] ++ [EvWrite "repo/main.py" text ok]
                 ++ [EvLog (if ok then "INFO" else "ERROR") msg])
    /\ outside_preserved (all_lines sample_section) 1 3
                         (Text.split "x = 1") (Text.split text).
Proof.
  apply (@apply_code_modification_frame (calm_env [sample_file] None) sample_section
           "x = 1" [] (1, "total = compute(1)") [(3, "result = total + offset")]).
  - reflexivity.
  - reflexivity.
  - simpl; lia.
Defined.

(** ** Section Selector *)

Lemma enumerate_from_In {A} (ls : list A) (k i : nat) (x : A) :
  In (i, x) (enumerate_from k ls) -> k <= i /\ nth_error ls (i - k) = Some x.
Proof.
  revert k. induction ls as [|y rest IH]; intros k H; simpl in H; [contradiction|].
  destruct H as [H|H].
  - inversion H; subst. rewrite Nat.sub_diag. split; [lia | reflexivity].
  - apply IH in H as [Hle Hn]. split; [lia|].
    replace (i - k) with (S (i - S k)) by lia. exact Hn.
Qed.

(** A meaningful line carries its zero-based position in the file. *)
Lemma meaningful_lines_index (ls : list string) (i : nat) (line : string) :
  In (i, line) (meaningful_lines ls) -> nth_error ls i = Some line.
Proof.
  unfold meaningful_lines, enumerate. intros H.
  apply filter_In in H as [H _].
  apply enumerate_from_In in H as [_ H].
  rewrite Nat.sub_0_r in H. exact H.
Qed.

Lemma In_slice {A} (a b : nat) (l : list A) (x : A) : In x (slice a b l) -> In x l.
Proof.
  unfold slice. intros H.
  rewrite <- (firstn_skipn a l). apply in_or_app. right.
  rewrite <- (firstn_skipn (b - a) (skipn a l)). apply in_or_app. left. exact H.
Qed.

Lemma randint_run (env : Env) (a b : nat) (t : list Event) :
  a <= b ->
  randint env a b t
  = (Ok (a + entropy env t mod (b - a + 1)),
     t ++ [EvRandom (b - a + 1) (entropy env t mod (b - a + 1))]).
Proof.
  intros H. unfold randint.
  destruct (b <? a) eqn:E; [apply Nat.ltb_lt in E; lia|].
  reflexivity.
Qed.

(** C3. On a readable file the Selector returns no section when fewer than
    three lines are meaningful; with three or more it returns a section of
    two or three consecutive entries of the meaningful-line list, taken at an
    offset that leaves room for them, each entry carrying the zero-based
    index of its line in the file, which is therefore within the file. *)
Theorem select_random_code_section_spec (env : Env) (f : Entry) (text : string)
        (t : list Event) :
  e_text f = Ok text ->
  let ls := Text.split text in
  let meaningful := meaningful_lines ls in
  (length meaningful < 3 ->
   select_random_code_section env f t = (Ok None, t))
  /\ (3 <= length meaningful ->
      exists cs size offset t',
        select_random_code_section env f t = (Ok (Some cs), t')
        /\ (size = 2 \/ size = 3)
        /\ offset + size <= length meaningful
        /\ lines cs = firstn size (skipn offset meaningful)
        /\ length (lines cs) = size
        /\ all_lines cs = ls
        /\ file_path cs = f
        /\ forall i line, In (i, line) (lines cs) ->
                          nth_error (all_lines cs) i = Some line
                          /\ i < length (all_lines cs)).
Proof.
  intros Hread ls meaningful. split.
  - intros Hlt.
    unfold select_random_code_section, catch, bind, read_text.
    rewrite Hread. cbn [ret].
    fold ls. fold meaningful.
    apply Nat.ltb_lt in Hlt. rewrite Hlt. reflexivity.
  - intros Hge.
    set (n := length meaningful) in *.
    set (v1 := entropy env t mod 2).
    set (t1 := t ++ [EvRandom 2 v1]).
    set (v2 := entropy env t1 mod (n - (2 + v1) + 1)).
    assert (Hv1 : v1 < 2) by (apply Nat.mod_upper_bound; lia).
    assert (Hv2 : v2 < n - (2 + v1) + 1) by (apply Nat.mod_upper_bound; lia).
    exists {| file_path := f;
              lines := slice v2 (v2 + (2 + v1)) meaningful;
              content := text;
              all_lines := ls;
              language := detect_language f |}.
    exists (2 + v1), v2, (t1 ++ [EvRandom (n - (2 + v1) + 1) v2]).
    assert (Hslice : slice v2 (v2 + (2 + v1)) meaningful
                     = firstn (2 + v1) (skipn v2 meaningful)).
    { unfold slice. f_equal. lia. }
    split; [|split; [|split; [|split; [|split; [|split; [|split]]]]]].
    + unfold select_random_code_section, catch, bind, read_text.
      rewrite Hread. cbn [ret].
      fold ls. fold meaningful. fold n.
      destruct (n <? 3) eqn:E; [apply Nat.ltb_lt in E; lia|].
      rewrite Nat.min_l by lia.
      rewrite randint_run by lia.
      change (3 - 2 + 1) with 2. fold v1. fold t1.
      rewrite randint_run by lia.
      rewrite !Nat.sub_0_r, Nat.add_0_l. fold v2. reflexivity.
    + lia.
    + fold n. lia.
    + exact Hslice.
    + cbn [lines]. rewrite Hslice, length_firstn, length_skipn. fold n. lia.
    + reflexivity.
    + reflexivity.
    + cbn [lines all_lines]. intros i line Hin.
      apply In_slice in Hin. apply meaningful_lines_index in Hin.
      split; [exact Hin|]. apply nth_error_Some. congruence.
Qed.

Lemma select_random_code_section_spec_witness :
  (length (meaningful_lines (Text.split sample_text)) < 3 ->
   select_random_code_section (calm_env [sample_file] None) sample_file []
   = (Ok None, []))
  /\ (3 <= length (meaningful_lines (Text.split sample_text)) ->
      exists cs size offset t',
        select_random_code_section (calm_env [sample_file] None) sample_file []
        = (Ok (Some cs), t')
        /\ (size = 2 \/ size = 3)
        /\ offset + size <= length (meaningful_lines (Text.split sample_text))
        /\ lines cs = firstn size (skipn offset (meaningful_lines (Text.split sample_text)))
        /\ length (lines cs) = size
        /\ all_lines cs = Text.split sample_text
        /\ file_path cs = sample_file
        /\ forall i line, In (i, line) (lines cs) ->
                          nth_error (all_lines cs) i = Some line
                          /\ i < length (all_lines cs)).
Proof.
  exact (@select_random_code_section_spec (calm_env [sample_file] None)
           sample_file sample_text [] eq_refl).
Defined.

(** ** File Discovery *)

Lemma any_in_false (pats : list string) (s p : string) :
  Text.any_in pats s = false -> In p pats -> Text.contains p s = false.
Proof.
  unfold Text.any_in. intros Hany Hin.
  destruct (Text.contains p s) eqn:E; [|reflexivity].
  assert (existsb (fun q => Text.contains q s) pats = true)
    by (apply existsb_exists; exists p; split; assumption).
  congruence.
Qed.

Lemma keep_file_true (config : Config) (f : Entry) :
  keep_file config f = true ->
  Text.any_in (ignore_patterns config) (e_path f) = false
  /\ Text.any_in system_skips (e_path f) = false
  /\ (50 <= e_size f <= 50000)%N.
Proof.
  unfold keep_file. intros H.
  destruct (Text.any_in (ignore_patterns config) (e_path f)); [discriminate|].
  destruct (Text.any_in system_skips (e_path f)); [discriminate|].
  destruct (e_size f <? 50)%N eqn:E1; [discriminate|].
  destruct (50000 <? e_size f)%N eqn:E2; [discriminate|].
  apply N.ltb_ge in E1. apply N.ltb_ge in E2. auto.
Qed.

(** *** Names and suffixes *)

Lemma rfind_app (c : ascii) (a b : string) :
  rfind c (a +++ b)
  = match rfind c b with
    | Some i => Some (String.length a + i)
    | None => rfind c a
    end.
Proof.
  induction a as [|d a IH]; simpl.
  - destruct (rfind c b); reflexivity.
  - rewrite IH. destruct (rfind c b); reflexivity.
Qed.

Lemma length_append (a b : string) :
  String.length (a +++ b) = String.length a + String.length b.
Proof. induction a as [|d a IH]; simpl; [reflexivity | rewrite IH; reflexivity]. Qed.

Lemma substring_all (b : string) : String.substring 0 (String.length b) b = b.
Proof. induction b as [|d b IH]; simpl; [reflexivity | rewrite IH; reflexivity]. Qed.

Lemma substring_tail (a b : string) :
  String.substring (String.length a) (String.length b) (a +++ b) = b.
Proof. induction a as [|d a IH]; simpl; [apply substring_all | exact IH]. Qed.

Lemma substring_split (s : string) :
  forall n m, n + m = String.length s ->
              s = String.substring 0 n s +++ String.substring n m s.
Proof.
  induction s as [|c s IH]; intros n m H; simpl in H.
  - assert (n = 0) by lia. assert (m = 0) by lia. subst. reflexivity.
  - destruct n as [|n]; simpl.
    + simpl in H. subst m. rewrite substring_all. reflexivity.
    + rewrite <- (IH n m) by lia. reflexivity.
Qed.

Lemma endswith_split (p s : string) :
  Text.endswith p s = true -> exists stem, s = stem +++ p.
Proof.
  unfold Text.endswith. intros H. apply andb_prop in H as [Hlen Heq].
  apply Nat.leb_le in Hlen. apply String.eqb_eq in Heq.
  exists (String.substring 0 (String.length s - String.length p) s).
  assert (Hsum : String.length s - String.length p + String.length p = String.length s)
    by lia.
  pose proof (substring_split s _ _ Hsum) as Hs.
  rewrite Heq in Hs. exact Hs.
Qed.

(** [Path.suffix] of a name made of a non-empty stem and an extension that
    is a dot followed by dot-free text. *)
Lemma suffix_of_name (p stem ext : string) :
  basename p = stem +++ ext ->
  stem <> EmptyString ->
  rfind "."%char ext = Some 0 ->
  2 <= String.length ext ->
  suffix p = ext.
Proof.
  intros Hname Hstem Hdot Hlen.
  unfold suffix. rewrite Hname.
  rewrite rfind_app, Hdot, Nat.add_0_r, length_append.
  assert (Hs : 0 < String.length stem)
    by (destruct stem; [congruence | simpl; lia]).
  replace ((0 <? String.length stem)
           && (String.length stem <? String.length stem + String.length ext - 1))
    with true
    by (symmetry; apply andb_true_iff; split; apply Nat.ltb_lt; lia).
  replace (String.length stem + String.length ext - String.length stem)
    with (String.length ext) by lia.
  apply substring_tail.
Qed.

(** C1, as the code has it. For an allowlist of extensions that the glob
    pattern takes literally, every file returned by Discovery has a name
    ending with an extension of the allowlist; that extension is the file's
    [Path.suffix] when it is a dot followed by dot-free text and the name is
    more than the extension. No configured ignore pattern (and no fixed
    system exclusion) occurs in the path, and the size is between 50 and
    50,000 bytes, both bounds included. *)
Theorem find_code_files_sound (env : Env) (config : Config) (repo_path : string)
        (f : Entry) :
  forallb plain_extension (file_extensions config) = true ->
  In f (find_code_files env config repo_path) ->
  (exists ext, In ext (file_extensions config)
               /\ plain_extension ext = true
               /\ Text.endswith ext (basename (e_path f)) = true
               /\ (rfind "."%char ext = Some 0 ->
                   2 <= String.length ext ->
                   basename (e_path f) <> ext ->
                   suffix (e_path f) = ext))
  /\ (forall p, In p (ignore_patterns config) -> Text.contains p (e_path f) = false)
  /\ (forall p, In p system_skips -> Text.contains p (e_path f) = false)
  /\ (50 <= e_size f <= 50000)%N.
Proof.
  unfold find_code_files. intros Hplain H.
  apply in_flat_map in H as (ext & Hext & H).
  apply filter_In in H as [Hglob Hkeep].
  apply filter_In in Hglob as [_ Hend].
  apply keep_file_true in Hkeep as (Hign & Hsys & Hsize).
  split.
  { exists ext. split; [exact Hext|].
    split; [rewrite forallb_forall in Hplain; apply Hplain; exact Hext|].
    split; [exact Hend|].
    intros Hdot Hlen Hname.
    apply endswith_split in Hend as [stem Hstem].
    apply (@suffix_of_name _ _ _ Hstem); [|exact Hdot|exact Hlen].
    intros ->. apply Hname. exact Hstem. }
  split; [intros p Hp; exact (any_in_false _ _ _ Hign Hp)|].
  split; [intros p Hp; exact (any_in_false _ _ _ Hsys Hp)|].
  exact Hsize.
Qed.

Lemma find_code_files_sound_witness :
  forallb plain_extension (file_extensions default_config) = true
  /\ In long_file (find_code_files (calm_env [long_file] None) default_config "repo")
  /\ (exists ext, In ext (file_extensions default_config)
                  /\ plain_extension ext = true
                  /\ Text.endswith ext (basename (e_path long_file)) = true
                  /\ (rfind "."%char ext = Some 0 ->
                      2 <= String.length ext ->
                      basename (e_path long_file) <> ext ->
                      suffix (e_path long_file) = ext))
  /\ (forall p, In p (ignore_patterns default_config) ->
                Text.contains p (e_path long_file) = false)
  /\ (forall p, In p system_skips -> Text.contains p (e_path long_file) = false)
  /\ (50 <= e_size long_file <= 50000)%N.
Proof.
  assert (Hplain : forallb plain_extension (file_extensions default_config) = true)
    by reflexivity.
  assert (H : In long_file
                 (find_code_files (calm_env [long_file] None) default_config "repo"))
    by (vm_compute; left; reflexivity).
  split; [exact Hplain|]. split; [exact H|].
  exact (@find_code_files_sound (calm_env [long_file] None) default_config
           "repo" long_file Hplain H).
Defined.

(** Two files that Discovery returns under the default configuration: one
    of exactly fifty bytes, so its size is not strictly between the bounds,
    and one named [.py], which [*.py] matches although its [Path.suffix] is
    empty and so is no member of the allowlist. *)
Lemma find_code_files_returns_boundary_and_dotfile :
  find_code_files (calm_env [tiny_file; hidden_file] None) default_config "repo"
  = [tiny_file; hidden_file]
  /\ ~ (50 < e_size tiny_file < 50000)%N
  /\ suffix (e_path hidden_file) = ""
  /\ ~ In (suffix (e_path hidden_file)) (file_extensions default_config).
Proof.
  split; [vm_compute; reflexivity|].
  split; [vm_compute; intros [H _]; discriminate H|].
  split; [reflexivity|].
  vm_compute. intros H.
  repeat (destruct H as [H|H]; [discriminate H|]). exact H.
Qed.

(** ** Prompt Builder *)

Lemma dict_get_cons (key k v : string) (d : list (string * string)) (default : string) :
  dict_get key ((k, v) :: d) default
  = if String.eqb k key then v else dict_get key d default.
Proof. reflexivity. Qed.

Ltac skip_key H :=
  rewrite dict_get_cons;
  match goal with
  | |- context [String.eqb ?k ?m] =>
      let E := fresh "E" in
      destruct (String.eqb k m) eqn:E;
      [apply String.eqb_eq in E; exfalso; apply H; subst; simpl; tauto|]
  end.

(** C9. The prompt is a function of the section and the modification type
    alone. Its code block is the newline join of the selected lines' text in
    their order, and every type outside the four mapped ones, among them
    add_documentation, add_type_safety and refactor_logic, gets the
    improve_readability template with the section's language tag and code
    block. *)
Theorem get_improvement_prompt_fallback (cs : CodeSection) (modification_type : string) :
  ~ In modification_type
       ["improve_performance"; "add_error_handling"; "improve_readability"; "optimize_code"] ->
  get_improvement_prompt cs modification_type
  = "Make this " +++ language cs
      +++ " code more readable and clean. Only return the improved code, no explanations:"
      +++ Text.NL +++ Text.NL +++ Text.join (map snd (lines cs))
  /\ get_improvement_prompt cs modification_type
     = get_improvement_prompt cs "improve_readability"
  /\ get_improvement_prompt cs "add_documentation"
     = get_improvement_prompt cs "improve_readability"
  /\ get_improvement_prompt cs "add_type_safety"
     = get_improvement_prompt cs "improve_readability"
  /\ get_improvement_prompt cs "refactor_logic"
     = get_improvement_prompt cs "improve_readability".
Proof.
  intros H.
  assert (Hfall : get_improvement_prompt cs modification_type
                  = get_improvement_prompt cs "improve_readability").
  { unfold get_improvement_prompt, prompts.
    do 4 skip_key H. reflexivity. }
  split; [rewrite Hfall; reflexivity|].
  split; [exact Hfall|].
  repeat split; reflexivity.
Qed.

Lemma get_improvement_prompt_fallback_witness :
  get_improvement_prompt sample_section "add_documentation"
  = "Make this " +++ language sample_section
      +++ " code more readable and clean. Only return the improved code, no explanations:"
      +++ Text.NL +++ Text.NL +++ Text.join (map snd (lines sample_section))
  /\ get_improvement_prompt sample_section "add_documentation"
     = get_improvement_prompt sample_section "improve_readability"
  /\ get_improvement_prompt sample_section "add_documentation"
     = get_improvement_prompt sample_section "improve_readability"
  /\ get_improvement_prompt sample_section "add_type_safety"
     = get_improvement_prompt sample_section "improve_readability"
  /\ get_improvement_prompt sample_section "refactor_logic"
     = get_improvement_prompt sample_section "improve_readability".
Proof.
  apply (@get_improvement_prompt_fallback sample_section "add_documentation").
  simpl. intros [H|[H|[H|[H|[]]]]]; discriminate H.
Defined.

(** ** Commit Workflow *)

(** Unfolds the workflow down to the answers of the subprocess. *)
Ltac run_workflow :=
  unfold commit_and_push, catch, bind, run_git_command, logger, emit, ret;
  cbn [fst snd negb].

(** C7. When staging succeeds and the name-only diff of the index lists
    nothing, the workflow returns (False, "No changes to commit") having run
    only the stage and the query commands: neither commit nor push. *)
Theorem commit_and_push_nothing_staged (env : Env) (repo_path commit_message : string)
        (t : list Event) (staged_out diff_out : string) :
  answer env repo_path commit_message t 0 = Exit0 staged_out ->
  answer env repo_path commit_message t 1 = Exit0 diff_out ->
  Text.strip diff_out = EmptyString ->
  commit_and_push env repo_path commit_message t
  = (Ok (false, "No changes to commit"),
     (t ++ [EvGit repo_path ["git"; "add"; "."]])
       ++ [EvGit repo_path ["git"; "diff"; "--cached"; "--name-only"]]).
Proof.
  unfold answer. cbn [trace_after nth git_steps]. intros H0 H1 Hempty.
  run_workflow. rewrite H0. cbn [fst snd negb].
  rewrite H1. cbn [fst snd negb orb].
  rewrite TextFacts.strip_idempotent, Hempty. reflexivity.
Qed.

Lemma commit_and_push_nothing_staged_witness :
  commit_and_push (scripted_env [sample_file] None [Exit0 ""; Exit0 " "])
                  "repo" "refactor: improve code readability" []
  = (Ok (false, "No changes to commit"),
     ([] ++ [EvGit "repo" ["git"; "add"; "."]])
       ++ [EvGit "repo" ["git"; "diff"; "--cached"; "--name-only"]]).
Proof.
  apply (@commit_and_push_nothing_staged
           (scripted_env [sample_file] None [Exit0 ""; Exit0 " "])
           "repo" "refactor: improve code readability" [] "" " ");
    reflexivity.
Defined.

(** The workflow, step by step, against the answers of git. *)
Lemma commit_and_push_run (env : Env) (repo_path commit_message : string)
        (t : list Event) :
  match first_failure env repo_path commit_message t with
  | Some k =>
      exists diagnostic,
        commit_and_push env repo_path commit_message t
        = (Ok (false, diagnostic), trace_after repo_path commit_message t (S k))
  | None =>
      commit_and_push env repo_path commit_message t
      = (Ok (true, commit_message),
         trace_after repo_path commit_message t 4
           ++ [EvLog "INFO" ("Successfully committed and pushed: " +++ commit_message)])
  end.
Proof.
  unfold first_failure, answer, step_ok. cbn [trace_after nth git_steps Nat.eqb].
  run_workflow.
  destruct (subprocess env t repo_path ["git"; "add"; "."]) as [o0|e0|m0];
    cbn [fst snd negb]; try (eexists; reflexivity).
  destruct (subprocess env _ repo_path ["git"; "diff"; "--cached"; "--name-only"])
    as [o1|e1|m1]; cbn [fst snd negb orb]; try (eexists; reflexivity).
  rewrite TextFacts.strip_idempotent.
  destruct (String.eqb (Text.strip o1) EmptyString) eqn:E1; cbn [negb];
    try (eexists; reflexivity).
  destruct (subprocess env _ repo_path ["git"; "commit"; "-m"; commit_message])
    as [o2|e2|m2]; cbn [fst snd negb]; try (eexists; reflexivity).
  destruct (subprocess env _ repo_path ["git"; "push"])
    as [o3|e3|m3]; cbn [fst snd negb]; try (eexists; reflexivity).
Qed.


(** C8. The workflow runs stage, staged-name query, commit and push in this
    order and stops at the first step that does not succeed, returning
    (False, diagnostic) with no later command run; when all four succeed it
    returns (True, m) for the message m it was given. *)
Theorem commit_and_push_sequential (env : Env) (repo_path commit_message : string)
        (t : list Event) :
  match first_failure env repo_path commit_message t with
  | Some k =>
      exists diagnostic,
        commit_and_push env repo_path commit_message t
        = (Ok (false, diagnostic), trace_after repo_path commit_message t (S k))
  | None =>
      commit_and_push env repo_path commit_message t
      = (Ok (true, commit_message),
         trace_after repo_path commit_message t 4
           ++ [EvLog "INFO" ("Successfully committed and pushed: " +++ commit_message)])
  end.
Proof. exact (commit_and_push_run env repo_path commit_message t). Qed.

(** The scenario of the specification: every step succeeds. *)
Example commit_and_push_all_succeed :
  fst (commit_and_push
         (scripted_env [sample_file] None
                       [Exit0 ""; Exit0 "main.py"; Exit0 "[main 1a2b3c4] refactor"; Exit0 ""])
         "repo" "refactor: improve code readability" [])
  = Ok (true, "refactor: improve code readability").
Proof. reflexivity. Qed.

(** C10. The workflow also answers (False, "No changes to commit") when the
    staged-name query itself fails, whatever git printed; a failing stage,
    commit or push instead returns a message that carries git's own
    diagnostic. *)
Theorem commit_and_push_query_failure (env : Env) (repo_path commit_message : string)
        (t : list Event) :
  (forall out err,
      answer env repo_path commit_message t 0 = Exit0 out ->
      answer env repo_path commit_message t 1 = ExitFail err ->
      commit_and_push env repo_path commit_message t
      = (Ok (false, "No changes to commit"), trace_after repo_path commit_message t 2))
  /\ (forall err,
         answer env repo_path commit_message t 0 = ExitFail err ->
         commit_and_push env repo_path commit_message t
         = (Ok (false, "Failed to stage files: " +++ Text.strip err),
            trace_after repo_path commit_message t 1))
  /\ (forall out names err,
         answer env repo_path commit_message t 0 = Exit0 out ->
         answer env repo_path commit_message t 1 = Exit0 names ->
         Text.strip names <> EmptyString ->
         answer env repo_path commit_message t 2 = ExitFail err ->
         commit_and_push env repo_path commit_message t
         = (Ok (false, "Failed to commit: " +++ Text.strip err),
            trace_after repo_path commit_message t 3))
  /\ (forall out names out' err,
         answer env repo_path commit_message t 0 = Exit0 out ->
         answer env repo_path commit_message t 1 = Exit0 names ->
         Text.strip names <> EmptyString ->
         answer env repo_path commit_message t 2 = Exit0 out' ->
         answer env repo_path commit_message t 3 = ExitFail err ->
         commit_and_push env repo_path commit_message t
         = (Ok (false, "Failed to push: " +++ Text.strip err),
            trace_after repo_path commit_message t 4)).
Proof.
  unfold answer. cbn [trace_after nth git_steps].
  repeat split.
  - intros out err H0 H1. run_workflow.
    rewrite H0. cbn [fst snd negb]. rewrite H1. reflexivity.
  - intros err H0. run_workflow. rewrite H0. reflexivity.
  - intros out names err H0 H1 Hne H2. run_workflow.
    rewrite H0. cbn [fst snd negb]. rewrite H1. cbn [fst snd negb orb].
    rewrite TextFacts.strip_idempotent.
    apply String.eqb_neq in Hne. rewrite Hne.
    rewrite H2. reflexivity.
  - intros out names out' err H0 H1 Hne H2 H3. run_workflow.
    rewrite H0. cbn [fst snd negb]. rewrite H1. cbn [fst snd negb orb].
    rewrite TextFacts.strip_idempotent.
    apply String.eqb_neq in Hne. rewrite Hne.
    rewrite H2. cbn [fst snd negb]. rewrite H3. reflexivity.
Qed.

Lemma commit_and_push_query_failure_witness :
  commit_and_push
    (scripted_env [sample_file] None [Exit0 ""; ExitFail "fatal: not a git repository"])
    "repo" "docs: add code comments" []
  = (Ok (false, "No changes to commit"),
     trace_after "repo" "docs: add code comments" [] 2).
Proof.
  apply (proj1 (@commit_and_push_query_failure
                  (scripted_env [sample_file] None
                                [Exit0 ""; ExitFail "fatal: not a git repository"])
                  "repo" "docs: add code comments" []))
    with (out := "") (err := "fatal: not a git repository");
    reflexivity.
Defined.

(** ** Attempt Loop *)

Lemma count_app (p : Event -> bool) (a b : list Event) :
  count p (a ++ b) = count p a + count p b.
Proof. unfold count. rewrite filter_app, length_app. reflexivity. Qed.

Lemma count_noise (p : Event -> bool) (added : list Event) :
  (forall e, noise e = true -> p e = false) ->
  forallb noise added = true -> count p added = 0.
Proof.
  intros Hp. induction added as [|e rest IH]; intros H; [reflexivity|].
  simpl in H. apply andb_prop in H as [He Hrest].
  unfold count in *. simpl. rewrite (Hp e He). apply IH. exact Hrest.
Qed.

Lemma noise_not_mark (e : Event) : noise e = true -> is_mark e = false.
Proof.
  destruct e; simpl; try reflexivity.
  intros H. apply negb_true_iff in H. exact H.
Qed.

Lemma noise_not_write (e : Event) : noise e = true -> is_write e = false.
Proof. destruct e; simpl; intros H; congruence. Qed.

Lemma noise_not_applied (e : Event) : noise e = true -> is_applied e = false.
Proof. destruct e; simpl; intros H; congruence. Qed.

Lemma noise_not_git (e : Event) : noise e = true -> is_git e = false.
Proof. destruct e; simpl; intros H; congruence. Qed.

Section LoopFacts.

Variable env : Env.
Variable config : Config.

Lemma choice_run {A} (seq : list A) (x : A) (rest : list A) (t : list Event) :
  seq = x :: rest ->
  choice env seq t
  = (Ok (nth (entropy env t mod length seq) seq x),
     t ++ [EvRandom (length seq) (entropy env t mod length seq)]).
Proof. intros H. subst. reflexivity. Qed.

Lemma choice_In {A} (seq : list A) (x : A) (rest : list A) (t : list Event) :
  seq = x :: rest -> In (nth (entropy env t mod length seq) seq x) seq.
Proof.
  intros H. apply nth_In. apply Nat.mod_upper_bound. subst. discriminate.
Qed.

(** The Selector never raises and leaves only draws and an error line. *)
Lemma select_random_code_section_trace (f : Entry) (t : list Event) :
  exists o added,
    select_random_code_section env f t = (Ok o, t ++ added)
    /\ forallb noise added = true.
Proof.
  unfold select_random_code_section, catch, bind, read_text, logger, emit, ret, raise.
  destruct (e_text f) as [text|msg].
  - destruct (length (meaningful_lines (Text.split text)) <? 3).
    + exists None, []. rewrite app_nil_r. split; reflexivity.
    + unfold randint at 1.
      destruct (Nat.min 3 (length (meaningful_lines (Text.split text))) <? 2).
      * eexists; eexists. split; [reflexivity | reflexivity].
      * unfold bind, randbelow, ret, raise. unfold randint.
        match goal with
        | |- context [if ?c then _ else _] => destruct c
        end.
        -- cbv [raise].
           eexists; eexists. rewrite <- app_assoc. split; reflexivity.
        -- cbv [bind randbelow ret].
           eexists; eexists. rewrite <- app_assoc. split; reflexivity.
  - eexists; eexists. split; reflexivity.
Qed.

(** The Applier never raises; it writes at most once and the write went
    through exactly when it returns [True]. *)
Lemma apply_code_modification_trace (cs : CodeSection) (improved : string)
      (t : list Event) :
  exists ok added,
    apply_code_modification env cs improved t = (Ok ok, t ++ added)
    /\ count is_mark added = 0
    /\ count is_git added = 0
    /\ count is_provider added = 0
    /\ count is_applied added = (if ok then 1 else 0).
Proof.
  destruct (lines cs) as [|first rest] eqn:Hl.
  - exists false. eexists.
    unfold apply_code_modification, catch, bind, bounds, logger, emit, ret, raise.
    rewrite Hl. split; [reflexivity|]. repeat split; reflexivity.
  - destruct (apply_code_modification_run env cs improved t Hl)
      as (ok & msg & Hrun & Hmark).
    exists ok. eexists. split; [exact Hrun|].
    unfold count. cbn [app filter is_git is_provider is_applied is_mark].
    fold (is_mark (EvLog (if ok then "INFO" else "ERROR") msg)). rewrite Hmark.
    destruct ok; repeat split; reflexivity.
Qed.

Lemma trace_after_shape (repo_path commit_message : string) (t : list Event) (k : nat) :
  exists added,
    trace_after repo_path commit_message t k = t ++ added
    /\ forallb is_git added = true.
Proof.
  induction k as [|k (added & Heq & Hgit)]; simpl.
  - exists []. rewrite app_nil_r. split; reflexivity.
  - exists (added ++ [EvGit repo_path (nth k (git_steps commit_message) [])]).
    rewrite Heq, <- app_assoc. split; [reflexivity|].
    rewrite forallb_app, Hgit. reflexivity.
Qed.

Lemma count_git_only (p : Event -> bool) (added : list Event) :
  (forall repo cmd, p (EvGit repo cmd) = false) ->
  forallb is_git added = true -> count p added = 0.
Proof.
  intros Hp. induction added as [|e rest IH]; intros H; [reflexivity|].
  simpl in H. apply andb_prop in H as [He Hrest].
  destruct e; try discriminate He.
  unfold count in *. simpl. rewrite Hp. apply IH. exact Hrest.
Qed.

(** The workflow never raises and touches neither the provider nor a file. *)
Lemma commit_and_push_trace (repo_path commit_message : string) (t : list Event) :
  exists r added,
    commit_and_push env repo_path commit_message t = (Ok r, t ++ added)
    /\ count is_mark added = 0
    /\ count is_applied added = 0
    /\ count is_provider added = 0.
Proof.
  pose proof (commit_and_push_run env repo_path commit_message t) as H.
  destruct (first_failure env repo_path commit_message t) as [k|].
  - destruct H as [diagnostic H]. rewrite H.
    destruct (trace_after_shape repo_path commit_message t (S k)) as (added & Heq & Hgit).
    exists (false, diagnostic), added. rewrite Heq.
    split; [reflexivity|].
    repeat split; apply count_git_only; auto.
  - rewrite H.
    destruct (trace_after_shape repo_path commit_message t 4) as (added & Heq & Hgit).
    eexists. eexists. rewrite Heq, <- app_assoc.
    split; [reflexivity|].
    rewrite !count_app.
    repeat split; (rewrite count_git_only; [reflexivity | auto | exact Hgit]).
Qed.

Lemma mark_counts_once (f : Entry) :
  count is_mark [EvLog "INFO" ("Attempting to modify existing file: " +++ e_path f)] = 1.
Proof.
  unfold count. cbn [filter is_mark String.eqb].
  assert (H : String.prefix "Attempting to modify existing file: "
                ("Attempting to modify existing file: " +++ e_path f) = true).
  { cbn. destruct (e_path f); reflexivity. }
  cbn in H |- *. rewrite H. reflexivity.
Qed.

Ltac tally :=
  rewrite ?count_app;
  repeat match goal with
         | H : count _ _ = _ |- _ => rewrite H
         end;
  rewrite ?mark_counts_once;
  reflexivity.

(** What one attempt can do: go on to the next one, raise, or apply a
    modification and return what the Commit Workflow returns for the message
    of the modification type it drew. *)
Lemma attempt_cases (repo_path : string) (existing_files : list Entry)
      (x : Entry) (rest : list Entry) (t : list Event) :
  existing_files = x :: rest ->
  exists added,
    count is_mark added = 1
    /\ ((attempt env config repo_path existing_files t = (Ok Continue, t ++ added)
         /\ count is_applied added = 0 /\ count is_git added = 0)
        \/ (exists msg,
               attempt env config repo_path existing_files t = (Raised msg, t ++ added)
               /\ count is_applied added = 0 /\ count is_git added = 0)
        \/ (exists f cs mt improved ta tb r,
               In f existing_files
               /\ In mt (modification_types config)
               /\ apply_code_modification env cs improved ta = (Ok true, tb)
               /\ commit_and_push env repo_path (generate_commit_message mt f) tb
                  = (Ok r, t ++ added)
               /\ attempt env config repo_path existing_files t
                  = (Ok (Return r), t ++ added)
               /\ count is_applied added = 1)).
Proof.
  intros Hex.
  remember (attempt env config repo_path existing_files t) as res eqn:Hres.
  unfold attempt in Hres. unfold bind at 1 in Hres.
  rewrite (choice_run t Hex) in Hres.
  pose proof (choice_In t Hex) as Hin.
  set (f := nth (entropy env t mod length existing_files) existing_files x) in *.
  set (e1 := EvRandom (length existing_files) (entropy env t mod length existing_files))
    in *.
  assert (M1 : count is_mark [e1] = 0) by reflexivity.
  assert (A1 : count is_applied [e1] = 0) by reflexivity.
  assert (G1 : count is_git [e1] = 0) by reflexivity.
  unfold bind at 1 in Hres. unfold logger at 1 in Hres. unfold emit in Hres.
  set (e2 := EvLog "INFO" ("Attempting to modify existing file: " +++ e_path f)) in *.
  assert (M2 : count is_mark [e2] = 1) by apply mark_counts_once.
  assert (A2 : count is_applied [e2] = 0) by reflexivity.
  assert (G2 : count is_git [e2] = 0) by reflexivity.
  unfold bind at 1 in Hres.
  destruct (select_random_code_section_trace f ((t ++ [e1]) ++ [e2]))
    as (o & sel & Hsel & Hnoise).
  rewrite Hsel in Hres.
  assert (M3 : count is_mark sel = 0)
    by (apply count_noise; [exact noise_not_mark | exact Hnoise]).
  assert (A3 : count is_applied sel = 0)
    by (apply count_noise; [exact noise_not_applied | exact Hnoise]).
  assert (G3 : count is_git sel = 0)
    by (apply count_noise; [exact noise_not_git | exact Hnoise]).
  set (t3 := ((t ++ [e1]) ++ [e2]) ++ sel) in *.
  assert (Ht3 : t3 = t ++ [e1] ++ [e2] ++ sel)
    by (unfold t3; rewrite <- !app_assoc; reflexivity).
  destruct o as [cs|].
  2:{ exists ([e1] ++ [e2] ++ sel). split; [tally|].
      left. rewrite Hres, <- Ht3. split; [reflexivity|]. split; tally. }
  unfold bind at 1 in Hres.
  destruct (modification_types config) as [|mt0 mts] eqn:Hmts.
  { exists ([e1] ++ [e2] ++ sel). split; [tally|].
    right; left. eexists. rewrite Hres, <- Ht3.
    split; [reflexivity|]. split; tally. }
  rewrite (@choice_run _ (mt0 :: mts) mt0 mts t3 eq_refl) in Hres.
  pose proof (@choice_In _ (mt0 :: mts) mt0 mts t3 eq_refl) as Hmt.
  set (mt := nth (entropy env t3 mod length (mt0 :: mts)) (mt0 :: mts) mt0) in *.
  set (e4 := EvRandom (length (mt0 :: mts)) (entropy env t3 mod length (mt0 :: mts)))
    in *.
  assert (M4 : count is_mark [e4] = 0) by reflexivity.
  assert (A4 : count is_applied [e4] = 0) by reflexivity.
  assert (G4 : count is_git [e4] = 0) by reflexivity.
  unfold bind at 1 in Hres. unfold call_openai in Hres.
  set (prompt := get_improvement_prompt cs mt) in *.
  set (e5 := EvProvider prompt) in *.
  assert (M5 : count is_mark [e5] = 0) by reflexivity.
  assert (A5 : count is_applied [e5] = 0) by reflexivity.
  assert (G5 : count is_git [e5] = 0) by reflexivity.
  set (t5 := (t3 ++ [e4]) ++ [e5]) in *.
  assert (Ht5 : t5 = t ++ [e1] ++ [e2] ++ sel ++ [e4] ++ [e5])
    by (unfold t5; rewrite Ht3, <- !app_assoc; reflexivity).
  assert (Hskip : res = (Ok Continue, t5) ->
            exists added,
              count is_mark added = 1
              /\ ((res = (Ok Continue, t ++ added)
                   /\ count is_applied added = 0 /\ count is_git added = 0)
                  \/ (exists msg,
                         res = (Raised msg, t ++ added)
                         /\ count is_applied added = 0 /\ count is_git added = 0)
                  \/ (exists f cs mt improved ta tb r,
                         In f existing_files
                         /\ In mt (mt0 :: mts)
                         /\ apply_code_modification env cs improved ta = (Ok true, tb)
                         /\ commit_and_push env repo_path (generate_commit_message mt f) tb
                            = (Ok r, t ++ added)
                         /\ res = (Ok (Return r), t ++ added)
                         /\ count is_applied added = 1))).
  { intros Hc. exists ([e1] ++ [e2] ++ sel ++ [e4] ++ [e5]). split; [tally|].
    left. rewrite Hc, Ht5. split; [reflexivity|]. split; tally. }
  destruct (completion env (t3 ++ [e4]) prompt) as [improved|];
    [|apply Hskip; exact Hres].
  destruct (String.eqb improved EmptyString); [apply Hskip; exact Hres|].
  destruct (String.eqb (Text.strip improved)
                       (Text.strip (Text.join (map snd (lines cs)))));
    [apply Hskip; exact Hres|].
  clear Hskip.
  unfold bind at 1 in Hres.
  destruct (apply_code_modification_trace cs improved t5)
    as (ok & app & Happ & M6 & G6 & _ & A6).
  rewrite Happ in Hres.
  destruct ok.
  - unfold bind at 1 in Hres.
    destruct (commit_and_push_trace repo_path (generate_commit_message mt f) (t5 ++ app))
      as (r & com & Hcom & M7 & A7 & _).
    rewrite Hcom in Hres. cbn [ret] in Hres.
    assert (Htr : (t5 ++ app) ++ com
                  = t ++ [e1] ++ [e2] ++ sel ++ [e4] ++ [e5] ++ app ++ com)
      by (rewrite Ht5, <- !app_assoc; reflexivity).
    exists ([e1] ++ [e2] ++ sel ++ [e4] ++ [e5] ++ app ++ com). split; [tally|].
    right; right.
    exists f, cs, mt, improved, t5, (t5 ++ app), r.
    rewrite <- Htr.
    split; [exact Hin|]. split; [exact Hmt|]. split; [exact Happ|].
    split; [exact Hcom|]. split; [exact Hres|]. tally.
  - cbn [ret] in Hres.
    assert (Htr : t5 ++ app = t ++ [e1] ++ [e2] ++ sel ++ [e4] ++ [e5] ++ app)
      by (rewrite Ht5, <- !app_assoc; reflexivity).
    exists ([e1] ++ [e2] ++ sel ++ [e4] ++ [e5] ++ app). split; [tally|].
    left. rewrite <- Htr. split; [exact Hres|]. split; tally.
Qed.

Lemma for_range_continue {R} (body : M (Step R)) (after : M R) (n : nat)
      (t t' : list Event) :
  body t = (Ok Continue, t') ->
  for_range (S n) body after t = for_range n body after t'.
Proof. intros H. cbn [for_range]. unfold bind. rewrite H. reflexivity. Qed.

Lemma for_range_return {R} (body : M (Step R)) (after : M R) (n : nat)
      (t t' : list Event) (r : R) :
  body t = (Ok (Return r), t') ->
  for_range (S n) body after t = (Ok r, t').
Proof. intros H. cbn [for_range]. unfold bind. rewrite H. reflexivity. Qed.

Lemma for_range_raise {R} (body : M (Step R)) (after : M R) (n : nat)
      (t t' : list Event) (msg : string) :
  body t = (Raised msg, t') ->
  for_range (S n) body after t = (Raised msg, t').
Proof. intros H. cbn [for_range]. unfold bind. rewrite H. reflexivity. Qed.

(** The loop as a whole: some attempts go on to the next one, then the loop
    runs out, or an attempt raises, or an attempt applies and commits. *)
Lemma for_range_attempts (repo_path : string) (existing_files : list Entry)
      (x : Entry) (rest : list Entry) (after : M (bool * string)) (n : nat) :
  existing_files = x :: rest ->
  forall t,
  exists k added,
    k <= n
    /\ after_attempts env config repo_path existing_files k t = Some (t ++ added)
    /\ count is_mark added = k
    /\ count is_applied added = 0
    /\ count is_git added = 0
    /\ ((k = n
         /\ for_range n (attempt env config repo_path existing_files) after t
            = after (t ++ added))
        \/ (k < n
            /\ exists msg more,
                for_range n (attempt env config repo_path existing_files) after t
                = (Raised msg, (t ++ added) ++ more)
                /\ count is_mark more = 1
                /\ count is_applied more = 0
                /\ count is_git more = 0)
        \/ (k < n
            /\ exists f cs mt improved ta tb r more,
                In f existing_files
                /\ In mt (modification_types config)
                /\ apply_code_modification env cs improved ta = (Ok true, tb)
                /\ commit_and_push env repo_path (generate_commit_message mt f) tb
                   = (Ok r, (t ++ added) ++ more)
                /\ attempt env config repo_path existing_files (t ++ added)
                   = (Ok (Return r), (t ++ added) ++ more)
                /\ for_range n (attempt env config repo_path existing_files) after t
                   = (Ok r, (t ++ added) ++ more)
                /\ count is_mark more = 1
                /\ count is_applied more = 1)).
Proof.
  intros Hex. induction n as [|n IH]; intros t.
  - exists 0, []. rewrite app_nil_r.
    repeat split; try reflexivity. left. split; reflexivity.
  - destruct (attempt_cases repo_path t Hex) as (a1 & M1 & Hcase).
    destruct Hcase as [(Hgo & A1 & G1) | [(msg & Hr & A1 & G1) | Hret]].
    + destruct (IH (t ++ a1)) as (k & a2 & Hk & Hafter & M2 & A2 & G2 & Hrest).
      exists (S k), (a1 ++ a2).
      rewrite app_assoc.
      split; [lia|].
      split; [cbn [after_attempts]; rewrite Hgo; exact Hafter|].
      split; [rewrite count_app; lia|].
      split; [rewrite count_app; lia|].
      split; [rewrite count_app; lia|].
      rewrite (@for_range_continue _ _ after n _ _ Hgo).
      destruct Hrest as [(Hkn & Hfor) | [(Hkn & Hfor) | (Hkn & Hfor)]].
      * left. split; [lia | exact Hfor].
      * right; left. split; [lia | exact Hfor].
      * right; right. split; [lia | exact Hfor].
    + exists 0, []. rewrite app_nil_r.
      split; [lia|]. repeat (split; [reflexivity|]).
      right; left. split; [lia|].
      exists msg, a1. rewrite (@for_range_raise _ _ after n _ _ _ Hr). auto.
    + destruct Hret as (f & cs & mt & improved & ta & tb & r & Hf & Hmt & Happ & Hcom & Hatt & A1).
      exists 0, []. rewrite app_nil_r.
      split; [lia|]. repeat (split; [reflexivity|]).
      right; right. split; [lia|].
      exists f, cs, mt, improved, ta, tb, r, a1.
      rewrite (@for_range_return _ _ after n _ _ _ Hatt).
      repeat split; assumption.
Qed.

End LoopFacts.

Lemma make_dynamic_commit_loop (env : Env) (config : Config) (repo_path : string)
      (x : Entry) (rest : list Entry) (t : list Event) :
  filter eligible (find_code_files env config repo_path) = x :: rest ->
  make_dynamic_commit env config repo_path t
  = catch (attempt_loop env config repo_path (x :: rest))
          (fun e => ret (false, "Error in dynamic commit: " +++ e)) t.
Proof.
  intros H. unfold make_dynamic_commit, attempt_loop, catch.
  destruct (find_code_files env config repo_path) as [|y ys]; [discriminate H|].
  cbn [is_empty]. rewrite H. reflexivity.
Qed.

Lemma choice_member (env : Env) {A} (seq : list A) (v : A) (t t1 : list Event) :
  choice env seq t = (Ok v, t1) -> In v seq.
Proof.
  intros H. destruct seq as [|x rest]; [discriminate H|].
  rewrite (@choice_run env A (x :: rest) x rest t eq_refl) in H.
  replace v with (nth (entropy env t mod length (x :: rest)) (x :: rest) x)
    by congruence.
  apply nth_In. apply Nat.mod_upper_bound. discriminate.
Qed.

(** An attempt that returns has gone through every stage: the file drawn,
    its section, the type drawn, the provider's answer to the prompt of that
    section and type, an apply that went through, and the Commit Workflow
    run with the message of that same type. *)
Lemma attempt_return_stages (env : Env) (config : Config) (repo_path : string)
      (existing_files : list Entry) (t t' : list Event) (r : bool * string) :
  attempt env config repo_path existing_files t = (Ok (Return r), t') ->
  exists f cs mt improved t1 t2 t3 tb,
    choice env existing_files t = (Ok f, t1)
    /\ select_random_code_section env f
         (t1 ++ [EvLog "INFO" ("Attempting to modify existing file: " +++ e_path f)])
       = (Ok (Some cs), t2)
    /\ choice env (modification_types config) t2 = (Ok mt, t3)
    /\ completion env t3 (get_improvement_prompt cs mt) = Some improved
    /\ apply_code_modification env cs improved
         (t3 ++ [EvProvider (get_improvement_prompt cs mt)])
       = (Ok true, tb)
    /\ commit_and_push env repo_path (generate_commit_message mt f) tb = (Ok r, t').
Proof.
  intros H. unfold attempt in H. unfold bind at 1 in H.
  destruct (choice env existing_files t) as [[f|m] t1] eqn:Hfile; [|discriminate H].
  unfold bind at 1 in H. unfold logger at 1 in H. unfold emit in H.
  unfold bind at 1 in H.
  destruct (select_random_code_section env f
              (t1 ++ [EvLog "INFO" ("Attempting to modify existing file: " +++ e_path f)]))
    as [[[cs|]|m] t2] eqn:Hsel; try discriminate H.
  unfold bind at 1 in H.
  destruct (choice env (modification_types config) t2) as [[mt|m] t3] eqn:Htype;
    [|discriminate H].
  unfold bind at 1 in H. unfold call_openai in H.
  destruct (completion env t3 (get_improvement_prompt cs mt)) as [improved|] eqn:Hanswer;
    [|discriminate H].
  destruct (String.eqb improved EmptyString); [discriminate H|].
  destruct (String.eqb (Text.strip improved)
                       (Text.strip (Text.join (map snd (lines cs)))));
    [discriminate H|].
  unfold bind at 1 in H.
  destruct (apply_code_modification env cs improved
              (t3 ++ [EvProvider (get_improvement_prompt cs mt)]))
    as [[[|]|m] tb] eqn:Happ; try discriminate H.
  unfold bind at 1 in H.
  destruct (commit_and_push env repo_path (generate_commit_message mt f) tb)
    as [[r'|m] tc] eqn:Hcom; [|discriminate H].
  cbn [ret] in H. inversion H; subst.
  exists f, cs, mt, improved, t1, t2, t3, tb.
  repeat split; assumption.
Qed.

(** C4. With a non-empty eligible set the loop performs at most five
    attempts: [k] of them go on to the next one, without a write that went
    through and without a git command. The first attempt whose Applier call
    succeeds has drawn a file and a modification type and asked the provider
    with the prompt of that type; it is followed at once by the Commit
    Workflow, run with the commit message of that same type, and the outcome
    of the workflow is returned with no further attempt. When five attempts
    pass without a successful apply the result is
    (False, "Could not generate suitable modifications after 5 attempts"). *)
Theorem make_dynamic_commit_attempts (env : Env) (config : Config) (repo_path : string)
        (x : Entry) (rest : list Entry) (t : list Event) :
  filter eligible (find_code_files env config repo_path) = x :: rest ->
  exists k added,
    k <= 5
    /\ after_attempts env config repo_path (x :: rest) k t = Some (t ++ added)
    /\ count is_mark added = k
    /\ count is_applied added = 0
    /\ count is_git added = 0
    /\ ((k = 5
         /\ make_dynamic_commit env config repo_path t
            = (Ok (false, "Could not generate suitable modifications after 5 attempts"),
               t ++ added))
        \/ (k < 5
            /\ exists msg more,
                make_dynamic_commit env config repo_path t
                = (Ok (false, "Error in dynamic commit: " +++ msg), (t ++ added) ++ more)
                /\ count is_mark more = 1
                /\ count is_applied more = 0
                /\ count is_git more = 0)
        \/ (k < 5
            /\ exists f cs mt improved t1 t2 t3 tb r more,
                In f (x :: rest)
                /\ In mt (modification_types config)
                /\ choice env (x :: rest) (t ++ added) = (Ok f, t1)
                /\ select_random_code_section env f
                     (t1 ++ [EvLog "INFO"
                               ("Attempting to modify existing file: " +++ e_path f)])
                   = (Ok (Some cs), t2)
                /\ choice env (modification_types config) t2 = (Ok mt, t3)
                /\ completion env t3 (get_improvement_prompt cs mt) = Some improved
                /\ apply_code_modification env cs improved
                     (t3 ++ [EvProvider (get_improvement_prompt cs mt)])
                   = (Ok true, tb)
                /\ commit_and_push env repo_path (generate_commit_message mt f) tb
                   = (Ok r, (t ++ added) ++ more)
                /\ make_dynamic_commit env config repo_path t
                   = (Ok r, (t ++ added) ++ more)
                /\ count is_mark more = 1
                /\ count is_applied more = 1)).
Proof.
  intros H. rewrite (make_dynamic_commit_loop env config repo_path t H).
  unfold catch, attempt_loop.
  destruct (@for_range_attempts env config repo_path (x :: rest) x rest
              (ret (false, "Could not generate suitable modifications after 5 attempts"))
              5 eq_refl t)
    as (k & added & Hk & Hafter & HM & HA & HG & Hcase).
  exists k, added.
  repeat (split; [assumption|]).
  destruct Hcase as [(Hk5 & Hfor) | [(Hlt & msg & more & Hfor & M & A & G)
                                    | (Hlt & f0 & cs0 & mt0 & improved0 & ta & tb0 & r & more
                                       & _ & _ & _ & _ & Hatt & Hfor & M & A)]].
  - left. split; [exact Hk5|]. rewrite Hfor. reflexivity.
  - right; left. split; [exact Hlt|]. exists msg, more. rewrite Hfor. auto.
  - right; right. split; [exact Hlt|].
    destruct (attempt_return_stages _ _ _ _ _ Hatt)
      as (f & cs & mt & improved & t1 & t2 & t3 & tb
          & Hfile & Hsel & Htype & Hanswer & Happ & Hcom).
    exists f, cs, mt, improved, t1, t2, t3, tb, r, more. rewrite Hfor.
    split; [exact (choice_member _ _ _ Hfile)|].
    split; [exact (choice_member _ _ _ Htype)|].
    repeat (split; [assumption|]). split; [reflexivity|]. split; assumption.
Qed.

Lemma make_dynamic_commit_attempts_witness :
  exists k added,
    k <= 5
    /\ after_attempts (calm_env [long_file] None) default_config "repo"
                      [long_file] k [] = Some ([] ++ added)
    /\ count is_mark added = k
    /\ count is_applied added = 0
    /\ count is_git added = 0
    /\ ((k = 5
         /\ make_dynamic_commit (calm_env [long_file] None) default_config "repo" []
            = (Ok (false, "Could not generate suitable modifications after 5 attempts"),
               [] ++ added))
        \/ (k < 5
            /\ exists msg more,
                make_dynamic_commit (calm_env [long_file] None) default_config "repo" []
                = (Ok (false, "Error in dynamic commit: " +++ msg), ([] ++ added) ++ more)
                /\ count is_mark more = 1
                /\ count is_applied more = 0
                /\ count is_git more = 0)
        \/ (k < 5
            /\ exists f cs mt improved t1 t2 t3 tb r more,
                In f [long_file]
                /\ In mt (modification_types default_config)
                /\ choice (calm_env [long_file] None) [long_file] ([] ++ added)
                   = (Ok f, t1)
                /\ select_random_code_section (calm_env [long_file] None) f
                     (t1 ++ [EvLog "INFO"
                               ("Attempting to modify existing file: " +++ e_path f)])
                   = (Ok (Some cs), t2)
                /\ choice (calm_env [long_file] None)
                          (modification_types default_config) t2 = (Ok mt, t3)
                /\ completion (calm_env [long_file] None) t3
                              (get_improvement_prompt cs mt) = Some improved
                /\ apply_code_modification (calm_env [long_file] None) cs improved
                     (t3 ++ [EvProvider (get_improvement_prompt cs mt)])
                   = (Ok true, tb)
                /\ commit_and_push (calm_env [long_file] None) "repo"
                                   (generate_commit_message mt f) tb
                   = (Ok r, ([] ++ added) ++ more)
                /\ make_dynamic_commit (calm_env [long_file] None) default_config "repo" []
                   = (Ok r, ([] ++ added) ++ more)
                /\ count is_mark more = 1
                /\ count is_applied more = 1)).
Proof.
  apply (@make_dynamic_commit_attempts (calm_env [long_file] None) default_config
           "repo" long_file [] []).
  vm_compute. reflexivity.
Defined.

(** With a provider that never answers, five attempts pass, each opened by
    its log line, and the loop runs out. *)
Example make_dynamic_commit_exhausted :
  filter eligible (find_code_files (calm_env [long_file] None) default_config "repo")
  = [long_file]
  /\ fst (make_dynamic_commit (calm_env [long_file] None) default_config "repo" [])
     = Ok (false, "Could not generate suitable modifications after 5 attempts")
  /\ count is_mark
       (snd (make_dynamic_commit (calm_env [long_file] None) default_config "repo" []))
     = 5
  /\ count is_provider
       (snd (make_dynamic_commit (calm_env [long_file] None) default_config "repo" []))
     = 5
  /\ count is_write
       (snd (make_dynamic_commit (calm_env [long_file] None) default_config "repo" []))
     = 0.
Proof. vm_compute. repeat split. Qed.

(** A first attempt whose draw of the type is 1: the prompt and the commit
    message are both those of the second configured type. *)
Example make_dynamic_commit_second_type :
  nth 1 (modification_types default_config) "" = "add_error_handling"
  /\ make_dynamic_commit second_type_env default_config "repo" []
     = (Ok (true, "fix: improve error handling"),
        [EvRandom 1 0;
         EvLog "INFO" "Attempting to modify existing file: repo/stats.py";
         EvRandom 2 0; EvRandom 7 0; EvRandom 7 1;
         EvProvider (get_improvement_prompt long_section "add_error_handling");
         EvWrite "repo/stats.py"
                 (Text.join (["import os"; "import sys"; "";
                              "def total(values):"; "    result = 0";
                              "    for value in list(values):"]
                             ++ skipn 6 (Text.split long_text))) true;
         EvLog "INFO" "Modified repo/stats.py (lines 3-5)";
         EvGit "repo" ["git"; "add"; "."];
         EvGit "repo" ["git"; "diff"; "--cached"; "--name-only"];
         EvGit "repo" ["git"; "commit"; "-m"; "fix: improve error handling"];
         EvGit "repo" ["git"; "push"];
         EvLog "INFO" "Successfully committed and pushed: fix: improve error handling"]).
Proof. split; vm_compute; reflexivity. Qed.

(** ** Eligibility *)

Lemma eligible_spec (f : Entry) :
  eligible f = true
  <-> Text.any_in generated_markers (e_path f) = false /\ (200 < e_size f)%N.
Proof.
  unfold eligible.
  destruct (Text.any_in generated_markers (e_path f)).
  - split; [discriminate | intros [H _]; discriminate H].
  - rewrite N.ltb_lt. tauto.
Qed.

Lemma any_in_true (pats : list string) (s : string) :
  Text.any_in pats s = true -> exists p, In p pats /\ Text.contains p s = true.
Proof. unfold Text.any_in. intros H. apply existsb_exists in H. exact H. Qed.

Lemma any_in_none (pats : list string) (s : string) :
  Text.any_in pats s = false <-> forall p, In p pats -> Text.contains p s = false.
Proof.
  split; [intros H p; apply any_in_false; exact H|].
  intros H. destruct (Text.any_in pats s) eqn:E; [|reflexivity].
  apply any_in_true in E as (p & Hp & Hc). rewrite (H p Hp) in Hc. discriminate Hc.
Qed.

(** C5, as the code has it. A file is eligible exactly when none of the
    markers fixes, features, performance, security occurs in its path and its
    size is above 200 bytes. When Discovery returns candidates but none is
    eligible, [make_dynamic_commit] returns
    (False, "No existing source files found to modify"); when Discovery
    returns nothing it returns (False, "No suitable code files found"). With
    an empty eligible set the trace is left as it was: the provider is not
    invoked. *)
Theorem make_dynamic_commit_no_eligible (env : Env) (config : Config)
        (repo_path : string) (t : list Event) :
  (forall f,
      eligible f = true
      <-> (forall marker,
              In marker ["fixes"; "features"; "performance"; "security"] ->
              Text.contains marker (e_path f) = false)
          /\ (200 < e_size f)%N)
  /\ (find_code_files env config repo_path <> [] ->
      filter eligible (find_code_files env config repo_path) = [] ->
      make_dynamic_commit env config repo_path t
      = (Ok (false, "No existing source files found to modify"), t))
  /\ (find_code_files env config repo_path = [] ->
      make_dynamic_commit env config repo_path t
      = (Ok (false, "No suitable code files found"), t))
  /\ (filter eligible (find_code_files env config repo_path) = [] ->
      snd (make_dynamic_commit env config repo_path t) = t
      /\ count is_provider (snd (make_dynamic_commit env config repo_path t))
         = count is_provider t).
Proof.
  split.
  { intros f. rewrite eligible_spec, any_in_none. reflexivity. }
  unfold make_dynamic_commit, catch.
  destruct (find_code_files env config repo_path) as [|y ys] eqn:Hfind.
  - cbn [is_empty ret].
    split; [intros H; congruence|]. split; [reflexivity|].
    intros _. split; reflexivity.
  - cbn [is_empty].
    split; [intros _ Hnone; rewrite Hnone; reflexivity|].
    split; [discriminate|].
    intros Hnone. rewrite Hnone. split; reflexivity.
Qed.

Lemma make_dynamic_commit_no_eligible_witness :
  (find_code_files (calm_env [tiny_file] None) default_config "repo" <> []
   /\ filter eligible (find_code_files (calm_env [tiny_file] None) default_config "repo")
      = [])
  /\ (forall f,
         eligible f = true
         <-> (forall marker,
                 In marker ["fixes"; "features"; "performance"; "security"] ->
                 Text.contains marker (e_path f) = false)
             /\ (200 < e_size f)%N)
  /\ (find_code_files (calm_env [tiny_file] None) default_config "repo" <> [] ->
      filter eligible (find_code_files (calm_env [tiny_file] None) default_config "repo")
      = [] ->
      make_dynamic_commit (calm_env [tiny_file] None) default_config "repo" []
      = (Ok (false, "No existing source files found to modify"), []))
  /\ (find_code_files (calm_env [tiny_file] None) default_config "repo" = [] ->
      make_dynamic_commit (calm_env [tiny_file] None) default_config "repo" []
      = (Ok (false, "No suitable code files found"), []))
  /\ (filter eligible (find_code_files (calm_env [tiny_file] None) default_config "repo")
      = [] ->
      snd (make_dynamic_commit (calm_env [tiny_file] None) default_config "repo" []) = []
      /\ count is_provider
           (snd (make_dynamic_commit (calm_env [tiny_file] None) default_config "repo" []))
         = count is_provider []).
Proof.
  split.
  - split; [vm_compute; discriminate | vm_compute; reflexivity].
  - exact (@make_dynamic_commit_no_eligible (calm_env [tiny_file] None) default_config
             "repo" []).
Defined.

(** A file of 258 bytes is eligible; files of 50 and of 150 bytes are not,
    and neither is the file of 258 bytes below a [features] directory. *)
Example eligible_samples :
  eligible long_file = true
  /\ eligible tiny_file = false
  /\ eligible (text_entry "repo/short.py"
                          (N.of_nat (String.length (tiny_text +++ tiny_text +++ tiny_text)))
                          (tiny_text +++ tiny_text +++ tiny_text)) = false
  /\ eligible (text_entry "repo/features/stats.py"
                          (N.of_nat (String.length long_text)) long_text) = false.
Proof. vm_compute. repeat split. Qed.

(** In a repository without any candidate the eligible set is empty, and the
    message is the one of the earlier guard. *)
Lemma make_dynamic_commit_empty_repository :
  filter eligible (find_code_files (calm_env [] None) default_config "repo") = []
  /\ make_dynamic_commit (calm_env [] None) default_config "repo" []
     = (Ok (false, "No suitable code files found"), [])
  /\ make_dynamic_commit (calm_env [] None) default_config "repo" []
     <> (Ok (false, "No existing source files found to modify"), []).
Proof.
  split; [reflexivity|]. split; [reflexivity|].
  vm_compute. discriminate.
Qed.

(** ** No-op rejection *)

Lemma choice_trace (env : Env) {A} (seq : list A) (v : A) (t t1 : list Event) :
  choice env seq t = (Ok v, t1) ->
  exists e, t1 = t ++ [e] /\ noise e = true.
Proof.
  destruct seq as [|x rest]; cbn [choice raise]; [discriminate|].
  unfold bind, randbelow, ret. intros H. inversion H; subst.
  eexists. split; reflexivity.
Qed.

(** C6. In an attempt where a file and a section were selected and a
    modification type drawn, if the text returned by the provider equals,
    after trimming, the trimmed newline join of the selected lines, then the
    attempt ends in [continue] right after the provider call: nothing is
    written, no git command is run, and the loop goes on with the attempts
    that remain. *)
Theorem attempt_rejects_noop (env : Env) (config : Config) (repo_path : string)
        (existing_files : list Entry) (t t1 t2 t3 : list Event)
        (f : Entry) (cs : CodeSection) (mt improved : string) :
  choice env existing_files t = (Ok f, t1) ->
  select_random_code_section env f
    (t1 ++ [EvLog "INFO" ("Attempting to modify existing file: " +++ e_path f)])
  = (Ok (Some cs), t2) ->
  choice env (modification_types config) t2 = (Ok mt, t3) ->
  completion env t3 (get_improvement_prompt cs mt) = Some improved ->
  Text.strip improved = Text.strip (Text.join (map snd (lines cs))) ->
  attempt env config repo_path existing_files t
  = (Ok Continue, t3 ++ [EvProvider (get_improvement_prompt cs mt)])
  /\ (forall n after,
         for_range (S n) (attempt env config repo_path existing_files) after t
         = for_range n (attempt env config repo_path existing_files) after
                     (t3 ++ [EvProvider (get_improvement_prompt cs mt)]))
  /\ exists added,
      t3 ++ [EvProvider (get_improvement_prompt cs mt)] = t ++ added
      /\ count is_write added = 0
      /\ count is_git added = 0.
Proof.
  intros Hfile Hsel Htype Hanswer Hsame.
  assert (Hrun : attempt env config repo_path existing_files t
                 = (Ok Continue, t3 ++ [EvProvider (get_improvement_prompt cs mt)])).
  { unfold attempt. unfold bind at 1. rewrite Hfile.
    unfold bind at 1. unfold logger, emit.
    unfold bind at 1. rewrite Hsel.
    unfold bind at 1. rewrite Htype.
    unfold bind at 1. unfold call_openai. rewrite Hanswer.
    destruct (String.eqb improved EmptyString); [reflexivity|].
    rewrite Hsame, String.eqb_refl. reflexivity. }
  split; [exact Hrun|].
  split; [intros n after; apply for_range_continue; exact Hrun|].
  destruct (choice_trace _ _ _ Hfile) as (e1 & -> & N1).
  destruct (select_random_code_section_trace env f
              ((t ++ [e1]) ++
               [EvLog "INFO" ("Attempting to modify existing file: " +++ e_path f)]))
    as (o & sel & Hsel' & Nsel).
  rewrite Hsel in Hsel'. inversion Hsel' as [[Ho Ht2]]. clear Hsel'.
  destruct (choice_trace _ _ _ Htype) as (e4 & -> & N4).
  exists ([e1] ++ [EvLog "INFO" ("Attempting to modify existing file: " +++ e_path f)]
            ++ sel ++ [e4] ++ [EvProvider (get_improvement_prompt cs mt)]).
  split; [rewrite Ht2, <- !app_assoc; reflexivity|].
  assert (W1 : count is_write [e1] = 0)
    by (apply count_noise; [exact noise_not_write | simpl; rewrite N1; reflexivity]).
  assert (G1 : count is_git [e1] = 0)
    by (apply count_noise; [exact noise_not_git | simpl; rewrite N1; reflexivity]).
  assert (W3 : count is_write sel = 0)
    by (apply count_noise; [exact noise_not_write | exact Nsel]).
  assert (G3 : count is_git sel = 0)
    by (apply count_noise; [exact noise_not_git | exact Nsel]).
  assert (W4 : count is_write [e4] = 0)
    by (apply count_noise; [exact noise_not_write | simpl; rewrite N4; reflexivity]).
  assert (G4 : count is_git [e4] = 0)
    by (apply count_noise; [exact noise_not_git | simpl; rewrite N4; reflexivity]).
  split; rewrite !count_app, ?W1, ?G1, ?W3, ?G3, ?W4, ?G4; reflexivity.
Qed.

Lemma attempt_rejects_noop_witness :
  attempt noop_env default_config "repo" [sample_file] []
  = (Ok Continue,
     noop_t3 ++ [EvProvider (get_improvement_prompt sample_section "improve_performance")])
  /\ (forall n after,
         for_range (S n) (attempt noop_env default_config "repo" [sample_file]) after []
         = for_range n (attempt noop_env default_config "repo" [sample_file]) after
                     (noop_t3 ++ [EvProvider (get_improvement_prompt sample_section
                                                                     "improve_performance")]))
  /\ exists added,
      noop_t3 ++ [EvProvider (get_improvement_prompt sample_section "improve_performance")]
      = [] ++ added
      /\ count is_write added = 0
      /\ count is_git added = 0.
Proof.
  apply (@attempt_rejects_noop noop_env default_config "repo" [sample_file]
           [] noop_t1 noop_t2 noop_t3 sample_file sample_section
           "improve_performance" noop_answer);
    vm_compute; reflexivity.
Defined.

(** The scenario of the specification: five no-op answers in a row exhaust
    the loop without a write or a git command. *)
Example make_dynamic_commit_all_noop :
  fst (make_dynamic_commit noop_env default_config "repo" [])
  = Ok (false, "Could not generate suitable modifications after 5 attempts")
  /\ count is_write (snd (make_dynamic_commit noop_env default_config "repo" [])) = 0
  /\ count is_provider (snd (make_dynamic_commit noop_env default_config "repo" [])) = 5.
Proof. vm_compute. repeat split. Qed.

(** ** Concrete runs *)

Example strip_sample : Text.strip ("  a b " +++ Text.NL) = "a b".
Proof. reflexivity. Qed.

Example split_sample :
  Text.split ("a" +++ Text.NL +++ Text.NL +++ "b") = ["a"; ""; "b"].
Proof. reflexivity. Qed.

Example split_empty : Text.split "" = [""].
Proof. reflexivity. Qed.

Example suffix_samples :
  suffix "repo/.hidden" = "" /\ suffix "a/b.tar.GZ" = ".GZ" /\ suffix "x." = "".
Proof. repeat split. Qed.

Example meaningful_lines_sample :
  meaningful_lines (Text.split sample_text)
  = [(1, "total = compute(1)"); (3, "result = total + offset");
     (4, "print(result, total)")].
Proof. reflexivity. Qed.

Example detect_language_sample : detect_language sample_file = "python".
Proof. reflexivity. Qed.

(** Discovery drops a hook below [.git], a name in upper case and a file one
    byte too large; it keeps a file of exactly 50,000 bytes. *)
Example find_code_files_sample :
  map e_path
      (find_code_files
         (calm_env [text_entry "repo/.git/hooks/x.py" 300 sample_text;
                    text_entry "repo/src/a.PY" 300 sample_text;
                    text_entry "repo/b.py" 50001 sample_text;
                    text_entry "repo/c.py" 50000 sample_text] None)
         default_config "repo")
  = ["repo/c.py"].
Proof. vm_compute. reflexivity. Qed.

(** A run that commits: lines 1 to 3 of the file, the comment between the
    two selected lines included, give way to the single line of the answer. *)
Example make_dynamic_commit_sample :
  make_dynamic_commit (calm_env [sample_file] (Some "x = 1")) default_config "repo" []
  = (Ok (true, "perf: optimize code performance"),
     [EvRandom 1 0;
      EvLog "INFO" "Attempting to modify existing file: repo/main.py";
      EvRandom 2 0; EvRandom 2 0; EvRandom 7 0;
      EvProvider (get_improvement_prompt sample_section "improve_performance");
      EvWrite "repo/main.py"
              (Text.join ["import os"; "x = 1"; "print(result, total)"; "done"]) true;
      EvLog "INFO" "Modified repo/main.py (lines 1-3)";
      EvGit "repo" ["git"; "add"; "."];
      EvGit "repo" ["git"; "diff"; "--cached"; "--name-only"];
      EvGit "repo" ["git"; "commit"; "-m"; "perf: optimize code performance"];
      EvGit "repo" ["git"; "push"];
      EvLog "INFO" "Successfully committed and pushed: perf: optimize code performance"]).
Proof. vm_compute. reflexivity. Qed.

(** * Further properties of the engine *)

(** ** File Discovery: no file twice *)

Lemma NoDup_flat_map_disjoint {A B} (g : A -> list B) (l : list A) :
  NoDup l ->
  (forall a, In a l -> NoDup (g a)) ->
  (forall a a' b, In a l -> In a' l -> In b (g a) -> In b (g a') -> a = a') ->
  NoDup (flat_map g l).
Proof.
  induction l as [|a rest IH]; intros Hnd Hg Hdis; [constructor|].
  inversion Hnd as [|? ? Hnotin Hrest]; subst.
  cbn [flat_map]. apply NoDup_app.
  - apply Hg. left. reflexivity.
  - apply IH; [assumption | intros; apply Hg; right; assumption |].
    intros x x' b Hx Hx'. apply Hdis; right; assumption.
  - intros b Hb Hb'. apply in_flat_map in Hb' as (a' & Ha' & Hb').
    assert (a = a')
      by (apply (Hdis a a' b);
          [left; reflexivity | right; assumption | assumption | assumption]).
    subst. contradiction.
Qed.

(** X2. For extensions that the glob pattern takes literally: when the
    listing of the tree has no repeated entry, the extension list has no
    repeated extension and no name in the tree ends with two different listed
    extensions, Discovery returns every file once. *)
Theorem find_code_files_NoDup (env : Env) (config : Config) (repo_path : string) :
  forallb plain_extension (file_extensions config) = true ->
  NoDup (listing env repo_path) ->
  NoDup (file_extensions config) ->
  (forall f e1 e2,
      In f (listing env repo_path) ->
      In e1 (file_extensions config) -> In e2 (file_extensions config) ->
      Text.endswith e1 (basename (e_path f)) = true ->
      Text.endswith e2 (basename (e_path f)) = true ->
      e1 = e2) ->
  NoDup (find_code_files env config repo_path).
Proof.
  intros _ Hl He Hdis. unfold find_code_files.
  apply NoDup_flat_map_disjoint.
  - exact He.
  - intros ext _. apply NoDup_filter. unfold rglob. apply NoDup_filter. exact Hl.
  - intros e1 e2 f H1 H2 Hf1 Hf2.
    apply filter_In in Hf1 as [Hf1 _]. apply filter_In in Hf2 as [Hf2 _].
    unfold rglob in Hf1, Hf2.
    apply filter_In in Hf1 as [Hin Hend1]. apply filter_In in Hf2 as [_ Hend2].
    exact (Hdis f e1 e2 Hin H1 H2 Hend1 Hend2).
Qed.

Lemma find_code_files_NoDup_witness :
  NoDup (find_code_files two_files_env py_js_config "repo").
Proof.
  apply (@find_code_files_NoDup two_files_env py_js_config "repo").
  - reflexivity.
  - simpl. constructor.
    + intros [H|[]]. vm_compute in H. discriminate H.
    + constructor; [intros [] | constructor].
  - simpl. constructor.
    + intros [H|[]]. discriminate H.
    + constructor; [intros [] | constructor].
  - intros f e1 e2 Hf H1 H2 E1 E2. simpl in Hf, H1, H2.
    destruct Hf as [<-|[<-|[]]]; destruct H1 as [<-|[<-|[]]];
      destruct H2 as [<-|[<-|[]]]; try reflexivity;
      vm_compute in E1, E2; discriminate.
Defined.

(** With the overlapping extensions [.py] and [py] the same file comes back
    twice. *)
Example find_code_files_twice :
  find_code_files (calm_env [long_file] None)
                  {| file_extensions := [".py"; "py"];
                     ignore_patterns := [];
                     modification_types := [] |} "repo"
  = [long_file; long_file].
Proof. vm_compute. reflexivity. Qed.

(** X3. A file the Attempt Loop may pick is a candidate of Discovery that
    carries none of the generated-artifact markers; its size is above 200 and
    at most 50,000 bytes. *)
Theorem eligible_files_bounds (env : Env) (config : Config) (repo_path : string)
        (f : Entry) :
  In f (filter eligible (find_code_files env config repo_path)) ->
  In f (listing env repo_path)
  /\ Text.any_in generated_markers (e_path f) = false
  /\ Text.any_in (ignore_patterns config) (e_path f) = false
  /\ Text.any_in system_skips (e_path f) = false
  /\ (200 < e_size f <= 50000)%N.
Proof.
  intros H. apply filter_In in H as [Hfound Hel].
  apply eligible_spec in Hel as [Hmark Hsize].
  unfold find_code_files, rglob in Hfound.
  apply in_flat_map in Hfound as (ext & _ & Hfound).
  apply filter_In in Hfound as [Hglob Hkeep].
  apply filter_In in Hglob as [Hin _].
  apply keep_file_true in Hkeep as (Hign & Hsys & _ & Hhi).
  repeat split; assumption.
Qed.

Lemma eligible_files_bounds_witness :
  In sample_file (listing (calm_env [sample_file] None) "repo")
  /\ Text.any_in generated_markers (e_path sample_file) = false
  /\ Text.any_in (ignore_patterns default_config) (e_path sample_file) = false
  /\ Text.any_in system_skips (e_path sample_file) = false
  /\ (200 < e_size sample_file <= 50000)%N.
Proof.
  apply (@eligible_files_bounds (calm_env [sample_file] None) default_config "repo"
           sample_file).
  vm_compute. left. reflexivity.
Defined.

(** ** What the Selector hands to the Applier *)

Lemma select_random_code_section_none (env : Env) (f : Entry) (text : string)
      (t : list Event) :
  e_text f = Ok text ->
  length (meaningful_lines (Text.split text)) < 3 ->
  select_random_code_section env f t = (Ok None, t).
Proof.
  intros Hread Hlt.
  unfold select_random_code_section, catch, bind, read_text.
  rewrite Hread. cbn [ret].
  apply Nat.ltb_lt in Hlt. rewrite Hlt. reflexivity.
Qed.

Lemma select_random_code_section_some (env : Env) (f : Entry) (text : string)
      (t : list Event) :
  e_text f = Ok text ->
  3 <= length (meaningful_lines (Text.split text)) ->
  exists v1 v2,
    v1 < 2
    /\ v2 + (2 + v1) <= length (meaningful_lines (Text.split text))
    /\ select_random_code_section env f t
       = (Ok (Some {| file_path := f;
                      lines := slice v2 (v2 + (2 + v1))
                                     (meaningful_lines (Text.split text));
                      content := text;
                      all_lines := Text.split text;
                      language := detect_language f |}),
          (t ++ [EvRandom 2 v1])
            ++ [EvRandom (length (meaningful_lines (Text.split text)) - (2 + v1) + 1) v2]).
Proof.
  intros Hread Hge.
  set (meaningful := meaningful_lines (Text.split text)) in *.
  set (n := length meaningful) in *.
  set (v1 := entropy env t mod 2).
  set (t1 := t ++ [EvRandom 2 v1]).
  set (v2 := entropy env t1 mod (n - (2 + v1) + 1)).
  assert (Hv1 : v1 < 2) by (apply Nat.mod_upper_bound; lia).
  assert (Hv2 : v2 < n - (2 + v1) + 1) by (apply Nat.mod_upper_bound; lia).
  exists v1, v2. split; [exact Hv1|]. split; [lia|].
  unfold select_random_code_section, catch, bind, read_text.
  rewrite Hread. cbn [ret].
  fold meaningful. fold n.
  destruct (n <? 3) eqn:E; [apply Nat.ltb_lt in E; lia|].
  rewrite Nat.min_l by lia.
  rewrite randint_run by lia.
  change (3 - 2 + 1) with 2. fold v1. fold t1.
  rewrite randint_run by lia.
  rewrite !Nat.sub_0_r, Nat.add_0_l. fold v2. reflexivity.
Qed.

Lemma select_random_code_section_unreadable (env : Env) (f : Entry) (msg : string)
      (t : list Event) :
  e_text f = Raised msg ->
  select_random_code_section env f t
  = (Ok None, t ++ [EvLog "ERROR" ("Error reading file " +++ e_path f +++ ": " +++ msg)]).
Proof.
  intros Hread.
  unfold select_random_code_section, catch, bind, read_text.
  rewrite Hread. reflexivity.
Qed.

(** A section comes only from a readable file with three meaningful lines. *)
Lemma select_random_code_section_inv (env : Env) (f : Entry) (cs : CodeSection)
      (t t' : list Event) :
  select_random_code_section env f t = (Ok (Some cs), t') ->
  exists text v1 v2,
    e_text f = Ok text
    /\ v1 < 2
    /\ v2 + (2 + v1) <= length (meaningful_lines (Text.split text))
    /\ cs = {| file_path := f;
               lines := slice v2 (v2 + (2 + v1)) (meaningful_lines (Text.split text));
               content := text;
               all_lines := Text.split text;
               language := detect_language f |}
    /\ t' = (t ++ [EvRandom 2 v1])
              ++ [EvRandom (length (meaningful_lines (Text.split text)) - (2 + v1) + 1) v2].
Proof.
  intros H.
  destruct (e_text f) as [text|msg] eqn:Hread.
  - destruct (Nat.lt_ge_cases (length (meaningful_lines (Text.split text))) 3) as [Hlt|Hge].
    + rewrite (select_random_code_section_none env f t Hread Hlt) in H. discriminate H.
    + destruct (select_random_code_section_some env f t Hread Hge)
        as (v1 & v2 & Hv1 & Hv2 & Hrun).
      rewrite Hrun in H. inversion H; subst.
      exists text, v1, v2. repeat split; assumption.
  - rewrite (select_random_code_section_unreadable env f t Hread) in H. discriminate H.
Qed.

Lemma enumerate_from_sorted {A} (ls : list A) (k : nat) :
  StronglySorted (fun p q : nat * A => fst p < fst q) (enumerate_from k ls).
Proof.
  revert k. induction ls as [|x rest IH]; intros k; simpl; constructor.
  - apply IH.
  - apply Forall_forall. intros [i y] Hin.
    apply enumerate_from_In in Hin as [Hle _]. simpl. lia.
Qed.

Lemma StronglySorted_filter {A} (R : A -> A -> Prop) (p : A -> bool) (l : list A) :
  StronglySorted R l -> StronglySorted R (filter p l).
Proof.
  induction 1 as [|a l Hs IH Hall]; simpl; [constructor|].
  destruct (p a); [|exact IH].
  constructor; [exact IH|].
  apply Forall_forall. intros x Hx. apply filter_In in Hx as [Hx _].
  rewrite Forall_forall in Hall. apply Hall. exact Hx.
Qed.

Lemma StronglySorted_skipn {A} (R : A -> A -> Prop) (n : nat) (l : list A) :
  StronglySorted R l -> StronglySorted R (skipn n l).
Proof.
  revert l. induction n as [|n IH]; intros l H; [exact H|].
  destruct l as [|a l]; [constructor|].
  simpl. apply IH. inversion H; assumption.
Qed.

Lemma StronglySorted_firstn {A} (R : A -> A -> Prop) (n : nat) (l : list A) :
  StronglySorted R l -> StronglySorted R (firstn n l).
Proof.
  revert l. induction n as [|n IH]; intros l H; [constructor|].
  destruct l as [|a l]; [constructor|].
  inversion H as [|? ? Hs Hall]; subst.
  simpl. constructor; [apply IH; exact Hs|].
  apply Forall_forall. intros x Hx.
  rewrite Forall_forall in Hall. apply Hall.
  rewrite <- (firstn_skipn n l). apply in_or_app. left. exact Hx.
Qed.

Lemma meaningful_lines_sorted (ls : list string) :
  StronglySorted by_index (meaningful_lines ls).
Proof.
  unfold meaningful_lines, enumerate.
  apply StronglySorted_filter. apply enumerate_from_sorted.
Qed.

Lemma last_cons {A} (b d : A) (rest : list A) : last (b :: rest) d = last rest b.
Proof.
  revert b d. induction rest as [|c rest IH]; intros b d; [reflexivity|].
  change (last (b :: c :: rest) d) with (last (c :: rest) d).
  rewrite (IH c d). symmetry. apply IH.
Qed.

Lemma sorted_span (first : nat * string) (rest : list (nat * string)) :
  StronglySorted by_index (first :: rest) ->
  fst first + length rest <= fst (last rest first).
Proof.
  revert first. induction rest as [|b rest IH]; intros first H.
  - simpl. lia.
  - inversion H as [|? ? Hs Hall]; subst.
    inversion Hall as [|? ? Hab _]; subst. unfold by_index in Hab.
    specialize (IH b Hs).
    rewrite last_cons. simpl. lia.
Qed.

Lemma last_In {A} (first : A) (rest : list A) : In (last rest first) (first :: rest).
Proof.
  revert first. induction rest as [|b rest IH]; intros first; [left; reflexivity|].
  right. rewrite last_cons. apply IH.
Qed.

Lemma slice_facts (v size : nat) (meaningful : list (nat * string)) (ls : list string) :
  meaningful = meaningful_lines ls ->
  2 <= size -> v + size <= length meaningful ->
  Forall (fun p => is_meaningful (snd p) = true) (slice v (v + size) meaningful)
  /\ StronglySorted by_index (slice v (v + size) meaningful)
  /\ length (slice v (v + size) meaningful) = size
  /\ exists first rest,
      slice v (v + size) meaningful = first :: rest
      /\ fst first <= fst (last rest first) < length ls
      /\ length (first :: rest) <= fst (last rest first) - fst first + 1.
Proof.
  intros Hm Hsize Hfit.
  assert (Hin : forall p, In p (slice v (v + size) meaningful) -> In p meaningful)
    by (intros p; apply In_slice).
  assert (Hsorted : StronglySorted by_index (slice v (v + size) meaningful)).
  { unfold slice. apply StronglySorted_firstn, StronglySorted_skipn.
    rewrite Hm. apply meaningful_lines_sorted. }
  assert (Hlen : length (slice v (v + size) meaningful) = size).
  { unfold slice. rewrite length_firstn, length_skipn. lia. }
  split.
  { apply Forall_forall. intros p Hp. apply Hin in Hp. rewrite Hm in Hp.
    unfold meaningful_lines in Hp. apply filter_In in Hp as [_ Hp]. exact Hp. }
  split; [exact Hsorted|]. split; [exact Hlen|].
  destruct (slice v (v + size) meaningful) as [|first rest] eqn:Hs;
    [simpl in Hlen; lia|].
  exists first, rest. split; [reflexivity|].
  pose proof (sorted_span Hsorted) as Hspan.
  assert (Hlast : In (last rest first) meaningful)
    by (apply Hin; apply last_In).
  rewrite Hm in Hlast. destruct (last rest first) as [i line] eqn:El.
  apply meaningful_lines_index in Hlast.
  assert (i < length ls) by (apply nth_error_Some; congruence).
  simpl in *. lia.
Qed.

(** X4. Every section the Selector returns is fit for the Applier: it holds
    the text and the lines of the file it was read from; its selected lines
    all pass the triviality filter and come in strictly increasing index
    order, so the first index is at most the last, which lies inside the
    file; and the index range spans at least as many file lines as were
    selected. *)
Theorem select_random_code_section_wellformed (env : Env) (f : Entry)
        (cs : CodeSection) (t t' : list Event) :
  select_random_code_section env f t = (Ok (Some cs), t') ->
  file_path cs = f
  /\ e_text f = Ok (content cs)
  /\ all_lines cs = Text.split (content cs)
  /\ language cs = detect_language f
  /\ Forall (fun p => is_meaningful (snd p) = true) (lines cs)
  /\ StronglySorted by_index (lines cs)
  /\ exists first rest,
      lines cs = first :: rest
      /\ fst first <= fst (last rest first) < length (all_lines cs)
      /\ length (lines cs) <= fst (last rest first) - fst first + 1.
Proof.
  intros H.
  apply select_random_code_section_inv in H
    as (text & v1 & v2 & Hread & Hv1 & Hv2 & -> & _).
  cbn [file_path content all_lines language lines].
  repeat (split; [first [reflexivity | exact Hread]|]).
  destruct (@slice_facts v2 (2 + v1) (meaningful_lines (Text.split text))
              (Text.split text) eq_refl) as (Hall & Hsorted & _ & first & rest & Hs & Hb & Hspan);
    [lia | exact Hv2 |].
  split; [exact Hall|]. split; [exact Hsorted|].
  exists first, rest. rewrite Hs. auto.
Qed.

Lemma select_random_code_section_wellformed_witness :
  file_path sample_section = sample_file
  /\ e_text sample_file = Ok (content sample_section)
  /\ all_lines sample_section = Text.split (content sample_section)
  /\ language sample_section = detect_language sample_file
  /\ Forall (fun p => is_meaningful (snd p) = true) (lines sample_section)
  /\ StronglySorted by_index (lines sample_section)
  /\ exists first rest,
      lines sample_section = first :: rest
      /\ fst first <= fst (last rest first) < length (all_lines sample_section)
      /\ length (lines sample_section) <= fst (last rest first) - fst first + 1.
Proof.
  apply (@select_random_code_section_wellformed noop_env sample_file sample_section
           (noop_t1 ++ [EvLog "INFO" "Attempting to modify existing file: repo/main.py"])
           noop_t2).
  vm_compute. reflexivity.
Defined.

(** ** The Applier, case by case *)

Lemma apply_code_modification_write (env : Env) (cs : CodeSection) (improved : string)
      (t : list Event) (first : nat * string) (rest : list (nat * string)) :
  lines cs = first :: rest ->
  apply_code_modification env cs improved t
  = match write_fault env t (e_path (file_path cs)) with
    | Some m =>
        (Ok false,
         (t ++ [EvWrite (e_path (file_path cs))
                        (Text.join (splice (all_lines cs) (fst first)
                                           (fst (last rest first)) (Text.split improved)))
                        false])
           ++ [EvLog "ERROR" ("Error applying modification: " +++ m)])
    | None =>
        (Ok true,
         (t ++ [EvWrite (e_path (file_path cs))
                        (Text.join (splice (all_lines cs) (fst first)
                                           (fst (last rest first)) (Text.split improved)))
                        true])
           ++ [EvLog "INFO" ("Modified " +++ e_path (file_path cs) +++ " (lines "
                               +++ str_nat (fst first) +++ "-"
                               +++ str_nat (fst (last rest first)) +++ ")")])
    end.
Proof.
  intros Hl.
  unfold apply_code_modification, catch, bind, bounds, write_text, logger, emit, ret.
  rewrite Hl. rewrite last_cons. cbn [fst snd].
  destruct (write_fault env t (e_path (file_path cs))); reflexivity.
Qed.

Lemma apply_code_modification_no_lines (env : Env) (cs : CodeSection)
      (improved : string) (t : list Event) :
  lines cs = [] ->
  apply_code_modification env cs improved t
  = (Ok false, t ++ [EvLog "ERROR" "Error applying modification: list index out of range"]).
Proof.
  intros Hl.
  unfold apply_code_modification, catch, bind, bounds, logger, emit, ret, raise.
  rewrite Hl. reflexivity.
Qed.

(** X7. The Applier never raises. It returns [True] exactly when the section
    has selected lines and [write_text] went through; it calls [write_text]
    once when the section has selected lines and not at all otherwise, and it
    touches neither the provider nor git. *)
Theorem apply_code_modification_outcome (env : Env) (cs : CodeSection)
        (improved : string) (t : list Event) :
  exists ok added,
    apply_code_modification env cs improved t = (Ok ok, t ++ added)
    /\ (ok = true
        <-> lines cs <> [] /\ write_fault env t (e_path (file_path cs)) = None)
    /\ count is_write added = (if is_empty (lines cs) then 0 else 1)
    /\ count is_applied added = (if ok then 1 else 0)
    /\ count is_git added = 0
    /\ count is_provider added = 0.
Proof.
  destruct (lines cs) as [|first rest] eqn:Hl.
  - rewrite (apply_code_modification_no_lines env cs improved t Hl).
    eexists. eexists. split; [reflexivity|].
    split; [split; [discriminate | intros [H _]; congruence]|].
    repeat split; reflexivity.
  - rewrite (apply_code_modification_write env cs improved t Hl).
    destruct (write_fault env t (e_path (file_path cs))) as [m|].
    + eexists. eexists. rewrite <- app_assoc. split; [reflexivity|].
      split; [split; [discriminate | intros [_ H]; discriminate H]|].
      repeat split; reflexivity.
    + eexists. eexists. rewrite <- app_assoc. split; [reflexivity|].
      split; [split; [intros _; split; [discriminate | reflexivity] | reflexivity]|].
      repeat split; reflexivity.
Qed.

(** The frame of the splice, for any section with bounds inside the file. *)
Lemma splice_frame (all : list string) (s e : nat) (improved : string) :
  Forall (fun l => Text.no_nl l = true) all ->
  s <= e < length all ->
  outside_preserved all s e (Text.split improved)
                    (Text.split (Text.join (splice all s e (Text.split improved)))).
Proof.
  intros Hall [Hse He].
  assert (Hs : s <= length all) by lia.
  rewrite TextFacts.split_join.
  - repeat split.
    + intros i Hi. apply splice_before; assumption.
    + intros k Hk. apply splice_middle; assumption.
    + intros j Hj. apply splice_after; assumption.
    + apply splice_length; assumption.
  - apply splice_nonempty.
  - apply splice_no_nl; [exact Hall | apply TextFacts.split_no_nl].
Qed.

(** X5. Selector and Applier compose without further conditions: whatever
    section the Selector returned and whatever the replacement text, the
    content the Applier hands to [write_text] keeps every line of the file
    before the first selected index and after the last one, and the write is
    reported as successful exactly when [write_text] did not fail. *)
Theorem select_then_apply_frame (env : Env) (f : Entry) (cs : CodeSection)
        (t t' ta : list Event) (improved : string) :
  select_random_code_section env f t = (Ok (Some cs), t') ->
  exists first rest text ok msg,
    lines cs = first :: rest
    /\ apply_code_modification env cs improved ta
       = (Ok ok, (ta ++ [EvWrite (e_path f) text ok])
                   ++ [EvLog (if ok then "INFO" else "ERROR") msg])
    /\ (ok = true <-> write_fault env ta (e_path f) = None)
    /\ outside_preserved (Text.split (content cs)) (fst first) (fst (last rest first))
                         (Text.split improved) (Text.split text).
Proof.
  intros H.
  apply select_random_code_section_inv in H
    as (text & v1 & v2 & Hread & Hv1 & Hv2 & Hcs & _).
  destruct (@slice_facts v2 (2 + v1) (meaningful_lines (Text.split text))
              (Text.split text) eq_refl) as (_ & _ & _ & first & rest & Hs & Hb & _);
    [lia | exact Hv2 |].
  assert (Hl : lines cs = first :: rest) by (rewrite Hcs; exact Hs).
  assert (Hf : file_path cs = f) by (rewrite Hcs; reflexivity).
  assert (Ha : all_lines cs = Text.split text) by (rewrite Hcs; reflexivity).
  assert (Hc : content cs = text) by (rewrite Hcs; reflexivity).
  exists first, rest. eexists.
  rewrite (apply_code_modification_write env cs improved ta Hl).
  rewrite Hf, Ha, Hc.
  destruct (write_fault env ta (e_path f)) as [m|].
  - exists false. eexists. split; [exact Hl|]. split; [reflexivity|].
    split; [split; discriminate|].
    apply splice_frame; [apply TextFacts.split_no_nl | exact Hb].
  - exists true. eexists. split; [exact Hl|]. split; [reflexivity|].
    split; [split; reflexivity|].
    apply splice_frame; [apply TextFacts.split_no_nl | exact Hb].
Qed.

Lemma select_then_apply_frame_witness :
  exists first rest text ok msg,
    lines sample_section = first :: rest
    /\ apply_code_modification noop_env sample_section "x = 1" []
       = (Ok ok, ([] ++ [EvWrite (e_path sample_file) text ok])
                   ++ [EvLog (if ok then "INFO" else "ERROR") msg])
    /\ (ok = true <-> write_fault noop_env [] (e_path sample_file) = None)
    /\ outside_preserved (Text.split (content sample_section)) (fst first)
                         (fst (last rest first))
                         (Text.split "x = 1") (Text.split text).
Proof.
  apply (@select_then_apply_frame noop_env sample_file sample_section
           (noop_t1 ++ [EvLog "INFO" "Attempting to modify existing file: repo/main.py"])
           noop_t2 [] "x = 1").
  vm_compute. reflexivity.
Defined.

(** ** Writing the original range back *)

Lemma join_cons_line (c : ascii) (l : string) (ls : list string) :
  Text.join (String c l :: ls) = String c (Text.join (l :: ls)).
Proof. destruct ls; reflexivity. Qed.

(** Joining what [split] produced gives the text back. *)
Lemma join_split (s : string) : Text.join (Text.split s) = s.
Proof.
  induction s as [|c t IH]; [reflexivity|].
  cbn [Text.split].
  destruct (Ascii.eqb c Text.nl) eqn:E.
  - apply Ascii.eqb_eq in E. subst c.
    destruct (Text.split t) as [|l ls] eqn:Hs;
      [exfalso; exact (TextFacts.split_nonempty t Hs)|].
    change (Text.join (EmptyString :: l :: ls))
      with (String Text.nl (Text.join (l :: ls))).
    rewrite IH. reflexivity.
  - destruct (Text.split t) as [|l ls] eqn:Hs;
      [exfalso; exact (TextFacts.split_nonempty t Hs)|].
    rewrite join_cons_line, IH. reflexivity.
Qed.

Lemma splice_same_range (all : list string) (s e : nat) :
  s <= e < length all ->
  splice all s e (slice s (S e) all) = all.
Proof.
  intros [Hse He]. unfold splice, slice.
  replace (skipn (e + 1) all) with (skipn (S e - s) (skipn s all))
    by (rewrite skipn_skipn; f_equal; lia).
  rewrite (firstn_skipn (S e - s) (skipn s all)).
  apply firstn_skipn.
Qed.

(** X6. Handing the Applier the very text of the index range it replaces
    (the file's lines from the first to the last selected index, joined by
    newlines) makes it write the file's content back unchanged. *)
Theorem apply_original_range_rewrites_content (env : Env) (f : Entry)
        (cs : CodeSection) (t t' ta : list Event) :
  select_random_code_section env f t = (Ok (Some cs), t') ->
  exists first rest ok msg,
    lines cs = first :: rest
    /\ apply_code_modification env cs
         (Text.join (slice (fst first) (S (fst (last rest first))) (all_lines cs))) ta
       = (Ok ok, (ta ++ [EvWrite (e_path f) (content cs) ok])
                   ++ [EvLog (if ok then "INFO" else "ERROR") msg]).
Proof.
  intros H.
  apply select_random_code_section_inv in H
    as (text & v1 & v2 & Hread & Hv1 & Hv2 & Hcs & _).
  destruct (@slice_facts v2 (2 + v1) (meaningful_lines (Text.split text))
              (Text.split text) eq_refl) as (_ & _ & _ & first & rest & Hs & Hb & _);
    [lia | exact Hv2 |].
  assert (Hl : lines cs = first :: rest) by (rewrite Hcs; exact Hs).
  assert (Hf : file_path cs = f) by (rewrite Hcs; reflexivity).
  assert (Ha : all_lines cs = Text.split text) by (rewrite Hcs; reflexivity).
  assert (Hc : content cs = text) by (rewrite Hcs; reflexivity).
  exists first, rest.
  rewrite (apply_code_modification_write env cs _ ta Hl).
  rewrite Hf, Ha, Hc.
  set (s := fst first) in *. set (e := fst (last rest first)) in *.
  assert (Hmid : Text.split (Text.join (slice s (S e) (Text.split text)))
                 = slice s (S e) (Text.split text)).
  { apply TextFacts.split_join.
    - intros Hnil. apply (f_equal (@length string)) in Hnil.
      unfold slice in Hnil. rewrite length_firstn, length_skipn in Hnil.
      cbn [length] in Hnil. lia.
    - unfold slice.
      apply Forall_firstn_skipn. apply Forall_firstn_skipn.
      apply TextFacts.split_no_nl. }
  rewrite Hmid, splice_same_range by exact Hb.
  rewrite join_split.
  destruct (write_fault env ta (e_path f)) as [m|].
  - exists false. eexists. split; [exact Hl | reflexivity].
  - exists true. eexists. split; [exact Hl | reflexivity].
Qed.

Lemma apply_original_range_rewrites_content_witness :
  exists first rest ok msg,
    lines sample_section = first :: rest
    /\ apply_code_modification noop_env sample_section
         (Text.join (slice (fst first) (S (fst (last rest first)))
                           (all_lines sample_section))) []
       = (Ok ok, ([] ++ [EvWrite (e_path sample_file) (content sample_section) ok])
                   ++ [EvLog (if ok then "INFO" else "ERROR") msg]).
Proof.
  apply (@apply_original_range_rewrites_content noop_env sample_file sample_section
           (noop_t1 ++ [EvLog "INFO" "Attempting to modify existing file: repo/main.py"])
           noop_t2 []).
  vm_compute. reflexivity.
Defined.

(** X8. The Selector never raises and never writes, calls the provider or
    runs git. It draws exactly two random numbers when it returns a section
    and none when it returns nothing; on a file that cannot be read it
    returns nothing and logs one error line carrying the reason. *)
Theorem select_random_code_section_effects (env : Env) (f : Entry) (t : list Event) :
  exists o added,
    select_random_code_section env f t = (Ok o, t ++ added)
    /\ count is_random added = match o with Some _ => 2 | None => 0 end
    /\ count is_write added = 0
    /\ count is_git added = 0
    /\ count is_provider added = 0
    /\ forall msg,
        e_text f = Raised msg ->
        o = None
        /\ added = [EvLog "ERROR" ("Error reading file " +++ e_path f +++ ": " +++ msg)].
Proof.
  destruct (e_text f) as [text|msg] eqn:Hread.
  - destruct (Nat.lt_ge_cases (length (meaningful_lines (Text.split text))) 3) as [Hlt|Hge].
    + rewrite (select_random_code_section_none env f t Hread Hlt).
      exists None, []. rewrite app_nil_r.
      do 5 (split; [reflexivity|]). intros m Hm. discriminate Hm.
    + destruct (select_random_code_section_some env f t Hread Hge)
        as (v1 & v2 & _ & _ & Hrun).
      rewrite Hrun. eexists. eexists. rewrite <- app_assoc.
      do 5 (split; [reflexivity|]). intros m Hm. discriminate Hm.
  - rewrite (select_random_code_section_unreadable env f t Hread).
    eexists. eexists.
    do 5 (split; [reflexivity|]). intros m Hm. inversion Hm; subst.
    split; reflexivity.
Qed.

(** ** The git runner *)

(** X9. [run_git_command] logs exactly one git invocation, prefixed with
    [git]; the flag it returns tells whether git exited with 0, and the text
    it returns is already trimmed: trimming it again changes nothing. *)
Theorem run_git_command_trimmed (env : Env) (repo_path : string)
        (command : list string) (t t' : list Event) (ok : bool) (out : string) :
  run_git_command env repo_path command t = (Ok (ok, out), t') ->
  t' = t ++ [EvGit repo_path ("git" :: command)]
  /\ Text.strip out = out
  /\ (ok = true <-> exists stdout,
                      subprocess env t repo_path ("git" :: command) = Exit0 stdout).
Proof.
  unfold run_git_command.
  destruct (subprocess env t repo_path ("git" :: command)) as [o|e|m];
    intros H; inversion H; subst.
  - split; [reflexivity|]. split; [apply TextFacts.strip_idempotent|].
    split; [intros _; exists o; reflexivity | reflexivity].
  - split; [reflexivity|]. split; [apply TextFacts.strip_idempotent|].
    split; [discriminate | intros [s Hs]; discriminate Hs].
Qed.

Lemma run_git_command_trimmed_witness :
  [EvGit "repo" ["git"; "push"]] = [] ++ [EvGit "repo" ("git" :: ["push"])]
  /\ Text.strip "main.py" = "main.py"
  /\ (true = true <-> exists stdout,
                        subprocess (calm_env [] None) [] "repo" ("git" :: ["push"])
                        = Exit0 stdout).
Proof.
  apply (@run_git_command_trimmed (calm_env [] None) "repo" ["push"] []
           [EvGit "repo" ["git"; "push"]] true "main.py").
  reflexivity.
Defined.

(** X10. When git cannot be run at all at some step (any exception of
    [subprocess.run] other than a non-zero exit) while the steps before it
    succeeded, the workflow does not raise: it returns
    (False, "Error during commit process: " + the exception text) and runs no
    later command. *)
Theorem commit_and_push_os_fault (env : Env) (repo_path commit_message : string)
        (t : list Event) (k : nat) (msg : string) :
  k < 4 ->
  (forall j, j < k -> step_ok j (answer env repo_path commit_message t j) = true) ->
  answer env repo_path commit_message t k = OSFault msg ->
  commit_and_push env repo_path commit_message t
  = (Ok (false, "Error during commit process: " +++ msg),
     trace_after repo_path commit_message t (S k)).
Proof.
  intros Hk Hbefore Hfault.
  assert (H0 : 0 < k -> step_ok 0 (answer env repo_path commit_message t 0) = true)
    by (intros; apply Hbefore; assumption).
  assert (H1 : 1 < k -> step_ok 1 (answer env repo_path commit_message t 1) = true)
    by (intros; apply Hbefore; assumption).
  assert (H2 : 2 < k -> step_ok 2 (answer env repo_path commit_message t 2) = true)
    by (intros; apply Hbefore; assumption).
  clear Hbefore. revert H0 H1 H2 Hfault.
  unfold answer, step_ok. cbn [trace_after nth git_steps Nat.eqb].
  run_workflow.
  destruct k as [|[|[|[|k]]]]; [| | | |lia]; cbn [trace_after nth git_steps];
    intros H0 H1 H2 Hfault.
  - rewrite Hfault. reflexivity.
  - specialize (H0 ltac:(lia)).
    destruct (subprocess env t repo_path ["git"; "add"; "."]); try discriminate H0.
    cbn [fst snd negb]. rewrite Hfault. reflexivity.
  - specialize (H0 ltac:(lia)). specialize (H1 ltac:(lia)).
    destruct (subprocess env t repo_path ["git"; "add"; "."]); try discriminate H0.
    cbn [fst snd negb].
    destruct (subprocess env _ repo_path ["git"; "diff"; "--cached"; "--name-only"])
      as [o1| |]; try discriminate H1.
    cbn [fst snd negb orb]. rewrite TextFacts.strip_idempotent.
    apply negb_true_iff in H1. rewrite H1.
    rewrite Hfault. reflexivity.
  - specialize (H0 ltac:(lia)). specialize (H1 ltac:(lia)). specialize (H2 ltac:(lia)).
    destruct (subprocess env t repo_path ["git"; "add"; "."]); try discriminate H0.
    cbn [fst snd negb].
    destruct (subprocess env _ repo_path ["git"; "diff"; "--cached"; "--name-only"])
      as [o1| |]; try discriminate H1.
    cbn [fst snd negb orb]. rewrite TextFacts.strip_idempotent.
    apply negb_true_iff in H1. rewrite H1.
    destruct (subprocess env _ repo_path ["git"; "commit"; "-m"; commit_message]);
      try discriminate H2.
    cbn [fst snd negb]. rewrite Hfault. reflexivity.
Qed.

Lemma commit_and_push_os_fault_witness :
  commit_and_push
    (scripted_env [] None [Exit0 ""; Exit0 "main.py"; OSFault "No such file or directory: 'git'"])
    "repo" "docs: add code comments" []
  = (Ok (false, "Error during commit process: No such file or directory: 'git'"),
     trace_after "repo" "docs: add code comments" [] 3).
Proof.
  apply (@commit_and_push_os_fault
           (scripted_env [] None
                         [Exit0 ""; Exit0 "main.py"; OSFault "No such file or directory: 'git'"])
           "repo" "docs: add code comments" [] 2 "No such file or directory: 'git'").
  - lia.
  - intros j Hj. destruct j as [|[|j]]; [reflexivity | reflexivity | lia].
  - reflexivity.
Defined.

(** ** What one run can cost *)

Lemma count_all (p : Event -> bool) (added : list Event) :
  forallb p added = true -> count p added = length added.
Proof.
  induction added as [|e rest IH]; intros H; [reflexivity|].
  simpl in H. apply andb_prop in H as [He Hrest].
  unfold count in *. simpl. rewrite He. simpl. rewrite IH by exact Hrest. reflexivity.
Qed.

Lemma trace_after_length (repo_path commit_message : string) (t : list Event) (k : nat) :
  exists added,
    trace_after repo_path commit_message t k = t ++ added
    /\ forallb is_git added = true
    /\ length added = k.
Proof.
  induction k as [|k (added & Heq & Hgit & Hlen)]; simpl.
  - exists []. rewrite app_nil_r. repeat split; reflexivity.
  - exists (added ++ [EvGit repo_path (nth k (git_steps commit_message) [])]).
    rewrite Heq, <- app_assoc. split; [reflexivity|].
    rewrite forallb_app, Hgit, length_app, Hlen. simpl. split; [reflexivity | lia].
Qed.

Lemma first_failure_below (env : Env) (repo_path commit_message : string)
      (t : list Event) (k : nat) :
  first_failure env repo_path commit_message t = Some k -> k < 4.
Proof.
  unfold first_failure.
  repeat match goal with
         | |- context [if ?c then _ else _] => destruct c
         end; intros H; inversion H; lia.
Qed.

(** The workflow: never raises, runs one to four git commands and nothing
    else, and answers [True] only after all four, with the message it got. *)
Lemma commit_and_push_profile (env : Env) (repo_path commit_message : string)
      (t : list Event) :
  exists r added,
    commit_and_push env repo_path commit_message t = (Ok r, t ++ added)
    /\ count is_mark added = 0
    /\ count is_provider added = 0
    /\ count is_write added = 0
    /\ count is_applied added = 0
    /\ 1 <= count is_git added <= 4
    /\ (fst r = true -> count is_git added = 4 /\ snd r = commit_message).
Proof.
  pose proof (commit_and_push_run env repo_path commit_message t) as H.
  destruct (first_failure env repo_path commit_message t) as [k|] eqn:Hff.
  - destruct H as [diagnostic H]. rewrite H.
    apply first_failure_below in Hff.
    destruct (trace_after_length repo_path commit_message t (S k))
      as (added & Heq & Hgit & Hlen).
    exists (false, diagnostic), added. rewrite Heq.
    split; [reflexivity|].
    do 4 (split; [apply count_git_only; auto|]).
    rewrite (count_all _ _ Hgit), Hlen.
    split; [lia | intros Hf; discriminate Hf].
  - rewrite H.
    destruct (trace_after_length repo_path commit_message t 4)
      as (added & Heq & Hgit & Hlen).
    eexists. eexists. rewrite Heq, <- app_assoc.
    split; [reflexivity|].
    rewrite !count_app.
    do 4 (split; [rewrite count_git_only; [reflexivity | auto | exact Hgit]|]).
    rewrite (count_all _ _ Hgit), Hlen. unfold count. simpl.
    split; [lia | intros _; split; reflexivity].
Qed.

(** The Applier: never raises, at most one write, nothing else. *)
Lemma apply_code_modification_profile (env : Env) (cs : CodeSection)
      (improved : string) (t : list Event) :
  exists ok added,
    apply_code_modification env cs improved t = (Ok ok, t ++ added)
    /\ count is_mark added = 0
    /\ count is_provider added = 0
    /\ count is_git added = 0
    /\ count is_write added <= 1
    /\ count is_applied added = (if ok then 1 else 0).
Proof.
  destruct (lines cs) as [|first rest] eqn:Hl.
  - rewrite (apply_code_modification_no_lines env cs improved t Hl).
    eexists. eexists. split; [reflexivity|].
    repeat split; try reflexivity. unfold count. simpl. lia.
  - rewrite (apply_code_modification_write env cs improved t Hl).
    destruct (write_fault env t (e_path (file_path cs))) as [m|];
      eexists; eexists; rewrite <- app_assoc; (split; [reflexivity|]);
      repeat split; try reflexivity; unfold count; simpl; lia.
Qed.

Lemma noise_no_provider (e : Event) : noise e = true -> is_provider e = false.
Proof. destruct e; simpl; intros H; congruence. Qed.

Lemma noise_counts (added : list Event) :
  forallb noise added = true ->
  count is_mark added = 0 /\ count is_provider added = 0 /\ count is_write added = 0
  /\ count is_applied added = 0 /\ count is_git added = 0.
Proof.
  intros H.
  split; [apply count_noise; [exact noise_not_mark | exact H]|].
  split; [apply count_noise; [exact noise_no_provider | exact H]|].
  split; [apply count_noise; [exact noise_not_write | exact H]|].
  split; [apply count_noise; [exact noise_not_applied | exact H]|].
  apply count_noise; [exact noise_not_git | exact H].
Qed.

Ltac sum_counts := rewrite ?count_app; lia.

(** One attempt, with everything it may touch. *)
Lemma attempt_profile (env : Env) (config : Config) (repo_path : string)
      (existing_files : list Entry) (x : Entry) (rest : list Entry) (t : list Event) :
  existing_files = x :: rest ->
  exists res added,
    attempt env config repo_path existing_files t = (res, t ++ added)
    /\ count is_mark added = 1
    /\ count is_provider added <= 1
    /\ count is_write added <= 1
    /\ count is_applied added <= 1
    /\ count is_git added <= 4
    /\ (modification_types config = [] ->
        count is_provider added = 0 /\ count is_write added = 0
        /\ count is_git added = 0)
    /\ match res with
       | Ok Continue => count is_applied added = 0 /\ count is_git added = 0
       | Raised msg =>
           count is_applied added = 0 /\ count is_git added = 0
           /\ count is_provider added = 0 /\ count is_write added = 0
           /\ modification_types config = []
           /\ msg = "Cannot choose from an empty sequence"
       | Ok (Return r) =>
           count is_applied added = 1 /\ count is_provider added = 1
           /\ 1 <= count is_git added
           /\ (fst r = true ->
               count is_git added = 4
               /\ exists mt f,
                   In mt (modification_types config) /\ In f existing_files
                   /\ snd r = generate_commit_message mt f)
       end.
Proof.
  intros Hex.
  remember (attempt env config repo_path existing_files t) as res eqn:Hres.
  unfold attempt in Hres. unfold bind at 1 in Hres.
  rewrite (choice_run env t Hex) in Hres.
  pose proof (choice_In env t Hex) as Hin.
  set (f := nth (entropy env t mod length existing_files) existing_files x) in *.
  set (e1 := EvRandom (length existing_files) (entropy env t mod length existing_files))
    in *.
  assert (M1 : count is_mark [e1] = 0) by reflexivity.
  assert (P1 : count is_provider [e1] = 0) by reflexivity.
  assert (W1 : count is_write [e1] = 0) by reflexivity.
  assert (A1 : count is_applied [e1] = 0) by reflexivity.
  assert (G1 : count is_git [e1] = 0) by reflexivity.
  unfold bind at 1 in Hres. unfold logger at 1 in Hres. unfold emit in Hres.
  set (e2 := EvLog "INFO" ("Attempting to modify existing file: " +++ e_path f)) in *.
  assert (M2 : count is_mark [e2] = 1) by apply mark_counts_once.
  assert (P2 : count is_provider [e2] = 0) by reflexivity.
  assert (W2 : count is_write [e2] = 0) by reflexivity.
  assert (A2 : count is_applied [e2] = 0) by reflexivity.
  assert (G2 : count is_git [e2] = 0) by reflexivity.
  unfold bind at 1 in Hres.
  destruct (select_random_code_section_trace env f ((t ++ [e1]) ++ [e2]))
    as (o & sel & Hsel & Hnoise).
  rewrite Hsel in Hres.
  destruct (noise_counts sel Hnoise) as (M3 & P3 & W3 & A3 & G3).
  set (t3 := ((t ++ [e1]) ++ [e2]) ++ sel) in *.
  assert (Ht3 : t3 = t ++ [e1] ++ [e2] ++ sel)
    by (unfold t3; rewrite <- !app_assoc; reflexivity).
  destruct o as [cs|].
  2:{ exists (Ok Continue), ([e1] ++ [e2] ++ sel). rewrite Hres, <- Ht3.
      split; [reflexivity|].
      repeat split; try intros _; sum_counts. }
  unfold bind at 1 in Hres.
  destruct (modification_types config) as [|mt0 mts] eqn:Hmts.
  { exists (Raised "Cannot choose from an empty sequence"), ([e1] ++ [e2] ++ sel).
    rewrite Hres, <- Ht3.
    split; [reflexivity|].
    repeat split; try intros _; try reflexivity; sum_counts. }
  rewrite (@choice_run env _ (mt0 :: mts) mt0 mts t3 eq_refl) in Hres.
  pose proof (@choice_In env _ (mt0 :: mts) mt0 mts t3 eq_refl) as Hmt.
  set (mt := nth (entropy env t3 mod length (mt0 :: mts)) (mt0 :: mts) mt0) in *.
  set (e4 := EvRandom (length (mt0 :: mts)) (entropy env t3 mod length (mt0 :: mts)))
    in *.
  assert (M4 : count is_mark [e4] = 0) by reflexivity.
  assert (P4 : count is_provider [e4] = 0) by reflexivity.
  assert (W4 : count is_write [e4] = 0) by reflexivity.
  assert (A4 : count is_applied [e4] = 0) by reflexivity.
  assert (G4 : count is_git [e4] = 0) by reflexivity.
  unfold bind at 1 in Hres. unfold call_openai in Hres.
  set (prompt := get_improvement_prompt cs mt) in *.
  set (e5 := EvProvider prompt) in *.
  assert (M5 : count is_mark [e5] = 0) by reflexivity.
  assert (P5 : count is_provider [e5] = 1) by reflexivity.
  assert (W5 : count is_write [e5] = 0) by reflexivity.
  assert (A5 : count is_applied [e5] = 0) by reflexivity.
  assert (G5 : count is_git [e5] = 0) by reflexivity.
  set (t5 := (t3 ++ [e4]) ++ [e5]) in *.
  assert (Ht5 : t5 = t ++ [e1] ++ [e2] ++ sel ++ [e4] ++ [e5])
    by (unfold t5; rewrite Ht3, <- !app_assoc; reflexivity).
  assert (Hskip : res = (Ok Continue, t5) ->
            exists res' added,
              res = (res', t ++ added)
              /\ count is_mark added = 1
              /\ count is_provider added <= 1
              /\ count is_write added <= 1
              /\ count is_applied added <= 1
              /\ count is_git added <= 4
              /\ (mt0 :: mts = [] ->
                  count is_provider added = 0 /\ count is_write added = 0
                  /\ count is_git added = 0)
              /\ match res' with
                 | Ok Continue => count is_applied added = 0 /\ count is_git added = 0
                 | Raised msg =>
                     count is_applied added = 0 /\ count is_git added = 0
                     /\ count is_provider added = 0 /\ count is_write added = 0
                     /\ mt0 :: mts = []
                     /\ msg = "Cannot choose from an empty sequence"
                 | Ok (Return r) =>
                     count is_applied added = 1 /\ count is_provider added = 1
                     /\ 1 <= count is_git added
                     /\ (fst r = true ->
                         count is_git added = 4
                         /\ exists mt f,
                             In mt (mt0 :: mts) /\ In f existing_files
                             /\ snd r = generate_commit_message mt f)
                 end).
  { intros Hc. exists (Ok Continue), ([e1] ++ [e2] ++ sel ++ [e4] ++ [e5]).
    rewrite Hc, Ht5. split; [reflexivity|].
    do 5 (split; [sum_counts|]).
    split; [intros H; discriminate H|]. split; sum_counts. }
  destruct (completion env (t3 ++ [e4]) prompt) as [improved|];
    [|apply Hskip; exact Hres].
  destruct (String.eqb improved EmptyString); [apply Hskip; exact Hres|].
  destruct (String.eqb (Text.strip improved)
                       (Text.strip (Text.join (map snd (lines cs)))));
    [apply Hskip; exact Hres|].
  clear Hskip.
  unfold bind at 1 in Hres.
  destruct (apply_code_modification_profile env cs improved t5)
    as (ok & app & Happ & M6 & P6 & G6 & W6 & A6).
  rewrite Happ in Hres.
  destruct ok.
  - unfold bind at 1 in Hres.
    destruct (commit_and_push_profile env repo_path (generate_commit_message mt f)
                (t5 ++ app))
      as (r & com & Hcom & M7 & P7 & W7 & A7 & G7 & Htrue).
    rewrite Hcom in Hres. cbn [ret] in Hres.
    assert (Htr : (t5 ++ app) ++ com
                  = t ++ [e1] ++ [e2] ++ sel ++ [e4] ++ [e5] ++ app ++ com)
      by (rewrite Ht5, <- !app_assoc; reflexivity).
    exists (Ok (Return r)), ([e1] ++ [e2] ++ sel ++ [e4] ++ [e5] ++ app ++ com).
    rewrite <- Htr. split; [exact Hres|].
    do 5 (split; [sum_counts|]).
    split; [intros H; discriminate H|].
    do 3 (split; [sum_counts|]).
    intros Hr. destruct (Htrue Hr) as [Hg4 Hmsg].
    split; [sum_counts|]. exists mt, f. auto.
  - cbn [ret] in Hres.
    assert (Htr : t5 ++ app = t ++ [e1] ++ [e2] ++ sel ++ [e4] ++ [e5] ++ app)
      by (rewrite Ht5, <- !app_assoc; reflexivity).
    exists (Ok Continue), ([e1] ++ [e2] ++ sel ++ [e4] ++ [e5] ++ app).
    rewrite <- Htr. split; [exact Hres|].
    do 5 (split; [sum_counts|]).
    split; [intros H; discriminate H|]. split; sum_counts.
Qed.

(** The loop, with everything it may touch. *)
Lemma loop_profile (env : Env) (config : Config) (repo_path : string)
      (existing_files : list Entry) (x : Entry) (rest : list Entry)
      (m0 : string) (n : nat) :
  existing_files = x :: rest ->
  forall t,
  exists res added,
    for_range n (attempt env config repo_path existing_files) (ret (false, m0)) t
    = (res, t ++ added)
    /\ count is_mark added <= n
    /\ count is_provider added <= n
    /\ count is_write added <= n
    /\ count is_applied added <= 1
    /\ count is_git added <= 4
    /\ (1 <= count is_git added -> count is_applied added = 1)
    /\ (modification_types config = [] ->
        count is_provider added = 0 /\ count is_write added = 0
        /\ count is_git added = 0)
    /\ match res with
       | Ok r =>
           fst r = true ->
           count is_applied added = 1 /\ count is_git added = 4
           /\ exists mt f,
               In mt (modification_types config) /\ In f existing_files
               /\ snd r = generate_commit_message mt f
       | Raised msg =>
           modification_types config = []
           /\ msg = "Cannot choose from an empty sequence"
       end.
Proof.
  intros Hex. induction n as [|n IH]; intros t.
  - exists (Ok (false, m0)), []. rewrite app_nil_r.
    split; [reflexivity|].
    unfold count. simpl.
    repeat split; try lia; try (intros H; discriminate H).
  - destruct (attempt_profile env config repo_path t Hex)
      as (res1 & a1 & Hrun & M1 & P1 & W1 & A1 & G1 & E1 & Hres1).
    destruct res1 as [[|r]|msg].
    + destruct Hres1 as [A1' G1'].
      destruct (IH (t ++ a1))
        as (res & a2 & Hloop & M2 & P2 & W2 & A2 & G2 & GA2 & E2 & Hres2).
      exists res, (a1 ++ a2).
      rewrite (@for_range_continue _ _ (ret (false, m0)) n _ _ Hrun).
      rewrite app_assoc. split; [exact Hloop|].
      do 5 (split; [sum_counts|]).
      split; [rewrite !count_app; lia|].
      split.
      { intros Hm. destruct (E1 Hm) as (? & ? & ?). destruct (E2 Hm) as (? & ? & ?).
        repeat split; sum_counts. }
      destruct res as [r|msg]; [|exact Hres2].
      intros Hr. destruct (Hres2 Hr) as (Ha & Hg & Hm).
      split; [sum_counts|]. split; [sum_counts | exact Hm].
    + destruct Hres1 as (A1' & P1' & G1' & Htrue).
      exists (Ok r), a1.
      rewrite (@for_range_return _ _ (ret (false, m0)) n _ _ _ Hrun).
      split; [reflexivity|].
      do 5 (split; [lia|]).
      split; [intros _; exact A1'|].
      split; [exact E1|].
      intros Hr. destruct (Htrue Hr) as [Hg Hm]. auto.
    + destruct Hres1 as (A1' & G1' & P1' & W1' & Hm & Hmsg).
      exists (Raised msg), a1.
      rewrite (@for_range_raise _ _ (ret (false, m0)) n _ _ _ Hrun).
      split; [reflexivity|].
      do 5 (split; [lia|]).
      split; [lia|].
      split; [exact E1|]. auto.
Qed.

(** The whole of [make_dynamic_commit], with everything it may touch. *)
Lemma make_dynamic_commit_profile (env : Env) (config : Config) (repo_path : string)
      (t : list Event) :
  exists r added,
    make_dynamic_commit env config repo_path t = (Ok r, t ++ added)
    /\ count is_mark added <= 5
    /\ count is_provider added <= 5
    /\ count is_write added <= 5
    /\ count is_applied added <= 1
    /\ count is_git added <= 4
    /\ (1 <= count is_git added -> count is_applied added = 1)
    /\ (modification_types config = [] ->
        count is_provider added = 0 /\ count is_write added = 0
        /\ count is_git added = 0)
    /\ (fst r = true ->
        count is_applied added = 1 /\ count is_git added = 4
        /\ exists mt f,
            In mt (modification_types config)
            /\ In f (filter eligible (find_code_files env config repo_path))
            /\ snd r = generate_commit_message mt f).
Proof.
  assert (Hquiet : forall m,
             exists r added,
               (Ok (false, m), t) = (Ok r, t ++ added)
               /\ count is_mark added <= 5
               /\ count is_provider added <= 5
               /\ count is_write added <= 5
               /\ count is_applied added <= 1
               /\ count is_git added <= 4
               /\ (1 <= count is_git added -> count is_applied added = 1)
               /\ (modification_types config = [] ->
                   count is_provider added = 0 /\ count is_write added = 0
                   /\ count is_git added = 0)
               /\ (fst r = true ->
                   count is_applied added = 1 /\ count is_git added = 4
                   /\ exists mt f,
                       In mt (modification_types config)
                       /\ In f (filter eligible (find_code_files env config repo_path))
                       /\ snd r = generate_commit_message mt f)).
  { intros m. exists (false, m), []. rewrite app_nil_r.
    split; [reflexivity|]. unfold count. simpl.
    repeat split; try lia; try (intros H; discriminate H). }
  destruct (filter eligible (find_code_files env config repo_path)) as [|x rest] eqn:Hel.
  - unfold make_dynamic_commit, catch.
    destruct (find_code_files env config repo_path) as [|y ys].
    + cbn [is_empty ret]. apply Hquiet.
    + cbn [is_empty]. rewrite Hel. cbn [is_empty ret]. apply Hquiet.
  - rewrite (make_dynamic_commit_loop env config repo_path t Hel).
    unfold catch, attempt_loop.
    destruct (@loop_profile env config repo_path (x :: rest) x rest
                "Could not generate suitable modifications after 5 attempts" 5 eq_refl t)
      as (res & added & Hloop & M & P & W & A & G & GA & E & Hres).
    rewrite Hloop.
    destruct res as [r|msg].
    + exists r, added. split; [reflexivity|].
      repeat (split; [assumption|]). exact Hres.
    + exists (false, "Error in dynamic commit: " +++ msg), added.
      split; [reflexivity|].
      repeat (split; [assumption|]). intros H. discriminate H.
Qed.

(** X11. [make_dynamic_commit] never raises, and it answers [True] only
    after a run in which exactly one write went through and all four git
    commands were run; the message it then returns is the commit message of
    one of the configured modification types, for an eligible file. *)
Theorem make_dynamic_commit_success (env : Env) (config : Config) (repo_path : string)
        (t : list Event) :
  exists r added,
    make_dynamic_commit env config repo_path t = (Ok r, t ++ added)
    /\ (fst r = true ->
        count is_applied added = 1
        /\ count is_git added = 4
        /\ exists mt f,
            In mt (modification_types config)
            /\ In f (filter eligible (find_code_files env config repo_path))
            /\ snd r = generate_commit_message mt f).
Proof.
  destruct (make_dynamic_commit_profile env config repo_path t)
    as (r & added & Hrun & _ & _ & _ & _ & _ & _ & _ & Htrue).
  exists r, added. split; assumption.
Qed.

(** X12. With an empty modification-type vocabulary [make_dynamic_commit]
    fails without ever calling the provider, writing a file or running git. *)
Theorem make_dynamic_commit_no_types (env : Env) (config : Config) (repo_path : string)
        (t : list Event) :
  modification_types config = [] ->
  exists msg added,
    make_dynamic_commit env config repo_path t = (Ok (false, msg), t ++ added)
    /\ count is_provider added = 0
    /\ count is_write added = 0
    /\ count is_git added = 0.
Proof.
  intros Hm.
  destruct (make_dynamic_commit_profile env config repo_path t)
    as (r & added & Hrun & _ & _ & _ & _ & _ & _ & E & Htrue).
  destruct (E Hm) as (P & W & G).
  destruct r as [[|] msg].
  - destruct (Htrue eq_refl) as (_ & G4 & _). lia.
  - exists msg, added. auto.
Qed.

(** X13. One call of [make_dynamic_commit] opens at most five attempts,
    calls the provider at most five times, tries at most five writes of which
    at most one goes through, and runs at most four git commands, none of
    them unless a write went through. *)
Theorem make_dynamic_commit_budget (env : Env) (config : Config) (repo_path : string)
        (t : list Event) :
  exists r added,
    make_dynamic_commit env config repo_path t = (Ok r, t ++ added)
    /\ count is_mark added <= 5
    /\ count is_provider added <= 5
    /\ count is_write added <= 5
    /\ count is_applied added <= 1
    /\ count is_git added <= 4
    /\ (1 <= count is_git added -> count is_applied added = 1).
Proof.
  destruct (make_dynamic_commit_profile env config repo_path t)
    as (r & added & Hrun & M & P & W & A & G & GA & _ & _).
  exists r, added. repeat (split; [assumption|]). exact GA.
Qed.

Lemma make_dynamic_commit_no_types_witness :
  exists msg added,
    make_dynamic_commit noop_env no_types_config "repo" [] = (Ok (false, msg), [] ++ added)
    /\ count is_provider added = 0
    /\ count is_write added = 0
    /\ count is_git added = 0.
Proof.
  apply (@make_dynamic_commit_no_types noop_env no_types_config "repo" []).
  reflexivity.
Defined.

(** With no modification type configured the first selectable section ends
    the run with the text of the [IndexError]. *)
Example make_dynamic_commit_no_types_sample :
  fst (make_dynamic_commit noop_env no_types_config "repo" [])
  = Ok (false, "Error in dynamic commit: Cannot choose from an empty sequence").
Proof. vm_compute. reflexivity. Qed.

(** ** Prompts and commit messages *)

(** X14. Whatever the modification type, the prompt names the section's
    language tag and ends with an empty line followed by the selected lines
    joined by newlines: the provider always sees exactly the selected code. *)
Theorem get_improvement_prompt_shape (cs : CodeSection) (modification_type : string) :
  exists before after,
    get_improvement_prompt cs modification_type
    = before +++ language cs +++ after +++ Text.NL +++ Text.NL
        +++ Text.join (map snd (lines cs)).
Proof.
  unfold get_improvement_prompt, prompts.
  rewrite dict_get_cons.
  destruct (String.eqb "improve_performance" modification_type).
  { eexists. eexists. reflexivity. }
  rewrite dict_get_cons.
  destruct (String.eqb "add_error_handling" modification_type).
  { eexists. eexists. reflexivity. }
  rewrite dict_get_cons.
  destruct (String.eqb "improve_readability" modification_type).
  { eexists. eexists. reflexivity. }
  rewrite dict_get_cons.
  destruct (String.eqb "optimize_code" modification_type).
  { eexists. eexists. reflexivity. }
  eexists. eexists. reflexivity.
Qed.

(** X15. For add_documentation, add_type_safety and refactor_logic the
    provider is asked for the readability improvement, yet the commit message
    is the one of the type drawn: neither the readability message nor the
    default. *)
Theorem commit_message_differs_from_prompt (cs : CodeSection) (f : Entry)
        (modification_type : string) :
  In modification_type ["add_documentation"; "add_type_safety"; "refactor_logic"] ->
  get_improvement_prompt cs modification_type
  = get_improvement_prompt cs "improve_readability"
  /\ generate_commit_message modification_type f
     <> generate_commit_message "improve_readability" f
  /\ generate_commit_message modification_type f <> "chore: improve code quality".
Proof.
  intros [<-|[<-|[<-|[]]]]; (split; [reflexivity|]); split; discriminate.
Qed.

Lemma commit_message_differs_from_prompt_witness :
  get_improvement_prompt sample_section "add_type_safety"
  = get_improvement_prompt sample_section "improve_readability"
  /\ generate_commit_message "add_type_safety" sample_file
     <> generate_commit_message "improve_readability" sample_file
  /\ generate_commit_message "add_type_safety" sample_file <> "chore: improve code quality".
Proof.
  apply (@commit_message_differs_from_prompt sample_section sample_file "add_type_safety").
  simpl. right. left. reflexivity.
Defined.

Lemma dict_get_entry (key : string) (d : list (string * string)) (default : string) :
  In (key, dict_get key d default) d
  \/ (dict_get key d default = default /\ ~ In key (map fst d)).
Proof.
  induction d as [|[k v] rest IH]; [right; split; [reflexivity | intros []]|].
  cbn [dict_get]. destruct (String.eqb k key) eqn:E.
  - apply String.eqb_eq in E. subst. left. left. reflexivity.
  - apply String.eqb_neq in E.
    destruct IH as [IH|[IH Hout]]; [left; right; exact IH|].
    right. split; [exact IH|]. simpl. intros [H|H]; [exact (E H) | exact (Hout H)].
Qed.

(** X16. The commit message never depends on the file. It is
    "chore: improve code quality" exactly for the modification types outside
    the seven of the message table, and two types with the same message are
    the same type as soon as one of them is in the table: the message of a
    commit tells which type was drawn. *)
Theorem generate_commit_message_default (modification_type other : string)
        (f f' : Entry) :
  generate_commit_message modification_type f
  = generate_commit_message modification_type f'
  /\ (generate_commit_message modification_type f = "chore: improve code quality"
      <-> ~ In modification_type (map fst messages))
  /\ (In modification_type (map fst messages) ->
      generate_commit_message modification_type f = generate_commit_message other f' ->
      other = modification_type).
Proof.
  split; [reflexivity|].
  unfold generate_commit_message.
  destruct (dict_get_entry modification_type messages "chore: improve code quality")
    as [Hin|[Hdef Hout]].
  - assert (Hkey : In modification_type (map fst messages))
      by (apply in_map_iff;
          exists (modification_type,
                  dict_get modification_type messages "chore: improve code quality");
          split; [reflexivity | exact Hin]).
    split.
    + split; [|intros H; contradiction].
      intros Hmsg. rewrite Hmsg in Hin. exfalso.
      simpl in Hin. repeat (destruct Hin as [Hin|Hin]; [discriminate Hin|]). exact Hin.
    + intros _ Hsame.
      destruct (dict_get_entry other messages "chore: improve code quality")
        as [Hin'|[Hdef' _]].
      * rewrite <- Hsame in Hin'.
        set (m := dict_get modification_type messages "chore: improve code quality")
          in *.
        clearbody m. clear Hsame Hkey.
        simpl in Hin, Hin'.
        repeat (destruct Hin as [Hin|Hin];
                [injection Hin as <- <-;
                 repeat (destruct Hin' as [Hin'|Hin'];
                         [first [injection Hin' as <-; reflexivity | discriminate Hin']|]);
                 destruct Hin'|]).
        destruct Hin.
      * rewrite Hdef' in Hsame. rewrite Hsame in Hin. exfalso.
        simpl in Hin. repeat (destruct Hin as [Hin|Hin]; [discriminate Hin|]). exact Hin.
  - split; [split; [intros _; exact Hout | intros _; exact Hdef]|].
    intros Hkey. contradiction.
Qed.

Lemma generate_commit_message_default_witness :
  ~ In "rewrite_everything" (map fst messages)
  /\ In "refactor_logic" (map fst messages)
  /\ generate_commit_message "rewrite_everything" long_file = "chore: improve code quality"
  /\ generate_commit_message "refactor_logic" long_file = "refactor: simplify logic"
  /\ (generate_commit_message "refactor_logic" long_file
      = generate_commit_message "improve_readability" tiny_file ->
      "improve_readability" = "refactor_logic").
Proof.
  assert (Hout : ~ In "rewrite_everything" (map fst messages)).
  { simpl. intros H. repeat (destruct H as [H|H]; [discriminate H|]). exact H. }
  assert (Hin : In "refactor_logic" (map fst messages)).
  { simpl. do 6 right. left. reflexivity. }
  split; [exact Hout|]. split; [exact Hin|].
  split.
  - apply (@generate_commit_message_default "rewrite_everything" "" long_file long_file).
    exact Hout.
  - split; [reflexivity|].
    apply (@generate_commit_message_default "refactor_logic" "improve_readability"
             long_file tiny_file).
    exact Hin.
Defined.

(** ** Run Orchestrator *)

Lemma dict_set_keys {V} (k k' : string) (v : V) (d : list (string * V)) :
  In k' (map fst (dict_set k v d)) <-> k' = k \/ In k' (map fst d).
Proof.
  induction d as [|[k0 v0] rest IH]; simpl.
  - intuition congruence.
  - destruct (String.eqb k0 k) eqn:E; simpl.
    + apply String.eqb_eq in E. subst. intuition congruence.
    + rewrite IH. intuition congruence.
Qed.

Lemma dict_set_NoDup {V} (k : string) (v : V) (d : list (string * V)) :
  NoDup (map fst d) -> NoDup (map fst (dict_set k v d)).
Proof.
  induction d as [|[k0 v0] rest IH]; simpl; intros H.
  - constructor; [intros [] | constructor].
  - inversion H as [|? ? Hnotin Hrest]; subst.
    destruct (String.eqb k0 k) eqn:E; simpl.
    + constructor; assumption.
    + constructor; [|apply IH; exact Hrest].
      intros Hin. apply dict_set_keys in Hin as [Hk|Hin]; [|contradiction].
      subst. rewrite String.eqb_refl in E. discriminate E.
Qed.

Lemma dict_set_Forall {V} (P : V -> Prop) (k : string) (v : V) (d : list (string * V)) :
  P v -> Forall (fun p => P (snd p)) d -> Forall (fun p => P (snd p)) (dict_set k v d).
Proof.
  intros Hv. induction d as [|[k0 v0] rest IH]; simpl; intros H.
  - constructor; [exact Hv | constructor].
  - inversion H; subst.
    destruct (String.eqb k0 k); constructor; auto.
Qed.

Lemma count_log (p : Event -> bool) (level msg : string) :
  (forall l m, p (EvLog l m) = false) -> count p [EvLog level msg] = 0.
Proof. intros H. unfold count. simpl. rewrite H. reflexivity. Qed.

Ltac sum_counts_log :=
  rewrite ?count_app;
  rewrite ?(@count_log is_provider), ?(@count_log is_applied), ?(@count_log is_git),
    ?(@count_log is_write) by reflexivity;
  lia.

Section OrchestratorFacts.

Variable env : Env.
Variable config : Config.
Variable now : list Event -> string.

Lemma run_repository_profile (repo_path : string) (results : list (string * RunResult))
      (t : list Event) :
  exists rr added,
    run_repository env config now repo_path results t
    = (Ok (dict_set repo_path rr results), t ++ added)
    /\ plain_result rr
    /\ count is_provider added <= 5
    /\ count is_applied added <= 1
    /\ count is_git added <= 4
    /\ (success rr = true -> count is_applied added = 1 /\ count is_git added = 4).
Proof.
  destruct (make_dynamic_commit_profile env config repo_path t)
    as (r & added & Hrun & _ & P & _ & A & G & _ & _ & Htrue).
  unfold run_repository, catch. unfold bind at 1. rewrite Hrun.
  unfold bind at 1. unfold stamp at 1. unfold bind, logger, emit, ret.
  destruct r as [[|] m]; cbn [fst snd].
  - eexists. eexists. rewrite <- app_assoc. split; [reflexivity|].
    split; [split; [reflexivity | eexists; reflexivity]|].
    destruct (Htrue eq_refl) as (A1 & G4 & _).
    repeat split; try intros _; sum_counts_log.
  - eexists. eexists. rewrite <- app_assoc. split; [reflexivity|].
    split; [split; [reflexivity | eexists; reflexivity]|].
    do 3 (split; [sum_counts_log|]). intros H. discriminate H.
Qed.

Lemma for_each_repository_profile (repositories : list string) :
  forall (results : list (string * RunResult)) (t : list Event),
  exists results' added,
    for_each_repository env config now repositories results t
    = (Ok results', t ++ added)
    /\ (forall k, In k (map fst results')
                  <-> In k repositories \/ In k (map fst results))
    /\ (NoDup (map fst results) -> NoDup (map fst results'))
    /\ (Forall (fun p => plain_result (snd p)) results ->
        Forall (fun p => plain_result (snd p)) results')
    /\ count is_provider added <= 5 * length repositories
    /\ count is_applied added <= length repositories
    /\ count is_git added <= 4 * length repositories.
Proof.
  induction repositories as [|repo rest IH]; intros results t.
  - exists results, []. rewrite app_nil_r. split; [reflexivity|].
    split; [intros k; simpl; tauto|].
    unfold count. simpl. repeat split; auto.
  - destruct (run_repository_profile repo results t)
      as (rr & a1 & Hrun & Hplain & P1 & A1 & G1 & _).
    destruct (IH (dict_set repo rr results) (t ++ a1))
      as (results' & a2 & Hrest & Hkeys & Hnd & Hall & P2 & A2 & G2).
    exists results', (a1 ++ a2).
    cbn [for_each_repository]. unfold bind at 1. rewrite Hrun, Hrest.
    rewrite app_assoc. split; [reflexivity|].
    split.
    { intros k. rewrite Hkeys, dict_set_keys. simpl. intuition congruence. }
    split; [intros H; apply Hnd, dict_set_NoDup; exact H|].
    split; [intros H; apply Hall, dict_set_Forall; assumption|].
    cbn [length]. repeat split; sum_counts.
Qed.

End OrchestratorFacts.

(** The orchestrator, with everything it may touch. *)
Lemma run_dynamic_commits_profile (env : Env) (config : Config)
        (now : list Event -> string) (repositories : list string) (t : list Event) :
  exists results added,
    run_dynamic_commits env config now repositories t = (Ok results, t ++ added)
    /\ (forall k, In k (map fst results) <-> In k repositories)
    /\ NoDup (map fst results)
    /\ Forall (fun p => plain_result (snd p)) results
    /\ count is_provider added <= 5 * length repositories
    /\ count is_applied added <= length repositories
    /\ count is_git added <= 4 * length repositories
    /\ (repositories = [] ->
        results = []
        /\ added = [EvLog "INFO" "Starting dynamic code modifier";
                    EvLog "WARNING" "No repositories configured"]).
Proof.
  unfold run_dynamic_commits. unfold bind at 1. unfold logger at 1. unfold emit at 1.
  destruct repositories as [|repo rest] eqn:Hrepos.
  - cbn [is_empty]. unfold bind, logger, emit, ret.
    eexists. eexists. rewrite <- app_assoc. split; [reflexivity|].
    split; [intros k; simpl; tauto|].
    split; [constructor|]. split; [constructor|].
    unfold count. simpl. repeat split; lia.
  - cbn [is_empty]. rewrite <- Hrepos.
    destruct (for_each_repository_profile env config now repositories []
                (t ++ [EvLog "INFO" "Starting dynamic code modifier"]))
      as (results & a & Hrun & Hkeys & Hnd & Hall & P & A & G).
    unfold bind at 1. rewrite Hrun. unfold bind, logger, emit, ret.
    eexists. eexists. rewrite <- !app_assoc. split; [reflexivity|].
    split; [intros k; rewrite Hkeys; simpl; tauto|].
    split; [apply Hnd; constructor|].
    split; [apply Hall; constructor|].
    do 3 (split; [sum_counts_log|]).
    intros H0. rewrite Hrepos in H0. discriminate H0.
Qed.

(** X17. [run_dynamic_commits] never raises and returns one entry for each
    configured repository and for no other path, whatever happened in the
    repositories before it. Every entry has the [message] key and none has
    the [error] key. Over the run the provider is called at most five times
    per configured repository and git is run at most four times per
    configured repository. With no repository configured the result is empty
    and only the two log lines are produced. *)
Theorem run_dynamic_commits_results (env : Env) (config : Config)
        (now : list Event -> string) (repositories : list string) (t : list Event) :
  exists results added,
    run_dynamic_commits env config now repositories t = (Ok results, t ++ added)
    /\ (forall k, In k (map fst results) <-> In k repositories)
    /\ NoDup (map fst results)
    /\ Forall (fun p => plain_result (snd p)) results
    /\ count is_provider added <= 5 * length repositories
    /\ count is_applied added <= length repositories
    /\ count is_git added <= 4 * length repositories
    /\ (repositories = [] ->
        results = []
        /\ added = [EvLog "INFO" "Starting dynamic code modifier";
                    EvLog "WARNING" "No repositories configured"]).
Proof. exact (run_dynamic_commits_profile env config now repositories t). Qed.

(** ** The scheduler's report *)

(** X18. The per-repository lines that [run_commits] of the scheduler logs
    from the orchestrator's results never show why a repository failed: a
    failed entry carries its diagnostic under [message], the report reads the
    key [error], which is never there, and prints "Failed". For a successful
    entry the line shows the commit message. *)
Theorem report_hides_failure_reason (env : Env) (config : Config)
        (now : list Event -> string) (repositories : list string)
        (t t' : list Event) (results : list (string * RunResult)) :
  run_dynamic_commits env config now repositories t = (Ok results, t') ->
  forall entry,
    In entry results ->
    exists m,
      message (snd entry) = Some m
      /\ detail_line entry
         = if success (snd entry)
           then EvLog "INFO" ("  ✅ " +++ basename (fst entry) +++ ": " +++ m)
           else EvLog "ERROR" ("  ❌ " +++ basename (fst entry) +++ ": Failed").
Proof.
  intros Hrun entry Hin.
  destruct (run_dynamic_commits_profile env config now repositories t)
    as (results' & added & Hrun' & _ & _ & Hall & _).
  rewrite Hrun in Hrun'. inversion Hrun'; subst results'.
  rewrite Forall_forall in Hall.
  destruct (Hall entry Hin) as [Herr (m & Hm)].
  exists m. split; [exact Hm|].
  unfold detail_line. rewrite Hm, Herr.
  destruct (success (snd entry)); reflexivity.
Qed.

Lemma report_hides_failure_reason_witness :
  exists m,
    message (snd empty_repo_entry) = Some m
    /\ detail_line empty_repo_entry
       = if success (snd empty_repo_entry)
         then EvLog "INFO" ("  ✅ " +++ basename (fst empty_repo_entry) +++ ": " +++ m)
         else EvLog "ERROR" ("  ❌ " +++ basename (fst empty_repo_entry) +++ ": Failed").
Proof.
  apply (@report_hides_failure_reason (calm_env [] None) default_config frozen_clock
           ["work/proj"] []
           (snd (run_dynamic_commits (calm_env [] None) default_config frozen_clock
                                     ["work/proj"] []))
           empty_repo_results).
  - vm_compute. reflexivity.
  - left. reflexivity.
Defined.

(** A run over one repository without candidates, and its report. *)
Example run_dynamic_commits_sample :
  run_dynamic_commits (calm_env [] None) default_config frozen_clock ["work/proj"] []
  = (Ok empty_repo_results,
     [EvLog "INFO" "Starting dynamic code modifier";
      EvLog "ERROR" "❌ Failed to commit to work/proj: No suitable code files found";
      EvLog "INFO" "Dynamic commit summary: 0 successful, 1 failed"])
  /\ report empty_repo_results []
     = (Ok tt,
        [EvLog "INFO" "✅ Summary: 0 successful commits, 1 failed";
         EvLog "ERROR" "  ❌ proj: Failed"]).
Proof. vm_compute. split; reflexivity. Qed.

(** ** Where a run may write and what it may run *)








(** ** Language detection *)

Lemma lower_char_dot (c : ascii) :
  Ascii.eqb (Text.lower_char c) "."%char = Ascii.eqb c "."%char.
Proof.
  destruct c as [[] [] [] [] [] [] [] []]; reflexivity.
Qed.

Lemma rfind_lower (s : string) : rfind "."%char (Text.lower s) = rfind "."%char s.
Proof.
  induction s as [|c s IH]; simpl; [reflexivity|].
  rewrite IH, lower_char_dot. reflexivity.
Qed.

Lemma length_lower (s : string) : String.length (Text.lower s) = String.length s.
Proof. induction s as [|c s IH]; simpl; [reflexivity | rewrite IH; reflexivity]. Qed.

(** Every key of the language table is a dot followed by letters. *)
Lemma language_map_keys (ext lang : string) :
  In (ext, lang) language_map ->
  rfind "."%char ext = Some 0
  /\ 2 <= String.length ext
  /\ dict_get ext language_map "unknown" = lang
  /\ lang <> "unknown".
Proof.
  unfold language_map. intros H.
  repeat (destruct H as [H|H];
          [inversion H; subst; repeat split; simpl; try lia; discriminate|]).
  destruct H.
Qed.

(** The language of a file read off its name. *)
Lemma detect_language_name (f : Entry) (stem ext lang : string) :
  basename (e_path f) = stem +++ ext ->
  stem <> EmptyString ->
  In (Text.lower ext, lang) language_map ->
  detect_language f = lang /\ lang <> "unknown".
Proof.
  intros Hname Hstem Hin.
  apply language_map_keys in Hin as (Hdot & Hlen & Hget & Hknown).
  rewrite rfind_lower in Hdot. rewrite length_lower in Hlen.
  split; [|exact Hknown].
  unfold detect_language, suffix. rewrite Hname.
  rewrite rfind_app, Hdot, Nat.add_0_r.
  rewrite length_append.
  assert (Hs : 0 < String.length stem)
    by (destruct stem; [congruence | simpl; lia]).
  replace ((0 <? String.length stem)
           && (String.length stem <? String.length stem + String.length ext - 1))
    with true
    by (symmetry; apply andb_true_iff; split; apply Nat.ltb_lt; lia).
  replace (String.length stem + String.length ext - String.length stem)
    with (String.length ext) by lia.
  rewrite substring_tail. exact Hget.
Qed.

(** X20. A file whose name is a non-empty stem followed by one of the eight
    extensions of the language table, in any mix of upper and lower case, is
    given the language of that extension. *)
Theorem detect_language_of_name (f : Entry) (stem ext lang : string) :
  basename (e_path f) = stem +++ ext ->
  stem <> EmptyString ->
  In (Text.lower ext, lang) language_map ->
  detect_language f = lang /\ lang <> "unknown".
Proof. exact (@detect_language_name f stem ext lang). Qed.

Lemma detect_language_of_name_witness :
  detect_language (text_entry "repo/src/Main.JAVA" 300 sample_text) = "java"
  /\ "java" <> "unknown".
Proof.
  apply (@detect_language_of_name (text_entry "repo/src/Main.JAVA" 300 sample_text)
           "Main" ".JAVA" "java").
  - reflexivity.
  - discriminate.
  - vm_compute. tauto.
Defined.

(** A file named by the extension alone has no suffix for [Path.suffix]:
    Discovery returns it and its language is unknown. *)
Example detect_language_hidden :
  find_code_files (calm_env [text_entry "repo/.py" 300 sample_text] None)
                  default_config "repo"
  = [text_entry "repo/.py" 300 sample_text]
  /\ detect_language (text_entry "repo/.py" 300 sample_text) = "unknown".
Proof. vm_compute. split; reflexivity. Qed.

(** X21. Under the default extension list every file that Discovery returns
    and whose name is not just an extension gets a known language from
    [detect_language]: the allowlist and the language table agree. *)
Theorem discovered_language_known (env : Env) (repo_path : string) (f : Entry) :
  In f (find_code_files env default_config repo_path) ->
  (forall ext, In ext (file_extensions default_config) -> basename (e_path f) <> ext) ->
  detect_language f <> "unknown".
Proof.
  unfold find_code_files, rglob. intros Hin Hname.
  apply in_flat_map in Hin as (ext & Hext & Hin).
  apply filter_In in Hin as [Hin _]. apply filter_In in Hin as [_ Hend].
  apply endswith_split in Hend as [stem Hstem].
  assert (Hne : stem <> EmptyString).
  { intros ->. apply (Hname ext Hext). exact Hstem. }
  assert (Hlang : exists lang, In (Text.lower ext, lang) language_map).
  { simpl in Hext.
    repeat (destruct Hext as [<-|Hext];
            [eexists; vm_compute; tauto|]).
    destruct Hext. }
  destruct Hlang as [lang Hlang].
  destruct (@detect_language_name f stem ext lang Hstem Hne Hlang) as [Hd Hk].
  rewrite Hd. exact Hk.
Qed.

Lemma discovered_language_known_witness :
  detect_language sample_file <> "unknown".
Proof.
  apply (@discovered_language_known (calm_env [sample_file] None) "repo" sample_file).
  - vm_compute. left. reflexivity.
  - intros ext Hext. simpl in Hext.
    repeat (destruct Hext as [<-|Hext]; [discriminate|]).
    destruct Hext.
Defined.

(** ** Cleaning the provider's answer *)

Lemma lstrip_pad (pre s : string) :
  all_space pre = true -> Text.lstrip (pre +++ s) = Text.lstrip s.
Proof.
  unfold all_space. induction pre as [|c pre IH]; simpl; intros H; [reflexivity|].
  apply andb_prop in H as [Hc Hpre]. rewrite Hc. apply IH. exact Hpre.
Qed.

Lemma rstrip_all_space (post : string) :
  all_space post = true -> Text.rstrip post = EmptyString.
Proof.
  unfold all_space. induction post as [|c post IH]; simpl; intros H; [reflexivity|].
  apply andb_prop in H as [Hc Hpost]. rewrite (IH Hpost), Hc. reflexivity.
Qed.

Lemma rstrip_pad (s post : string) :
  all_space post = true -> Text.rstrip (s +++ post) = Text.rstrip s.
Proof.
  intros H. induction s as [|c s IH]; simpl.
  - apply rstrip_all_space. exact H.
  - rewrite IH. reflexivity.
Qed.

Lemma rstrip_end_clean (s : string) (c : ascii) :
  Text.is_space c = false ->
  Text.rstrip (s +++ String c EmptyString) = s +++ String c EmptyString.
Proof.
  intros Hc. induction s as [|d s IH]; simpl.
  - rewrite Hc. reflexivity.
  - rewrite IH. destruct s; reflexivity.
Qed.

Lemma append_assoc (a b c : string) : (a +++ b) +++ c = a +++ b +++ c.
Proof. induction a as [|d a IH]; simpl; [reflexivity | rewrite IH; reflexivity]. Qed.

(** Trimming a fenced answer leaves the block, fences included. *)
Lemma strip_fenced (pre tag body post : string) :
  all_space pre = true -> all_space post = true ->
  Text.strip (fenced pre tag body post)
  = fence +++ tag +++ Text.NL +++ body +++ Text.NL +++ fence.
Proof.
  intros Hpre Hpost. unfold Text.strip, fenced.
  rewrite lstrip_pad by exact Hpre.
  change (Text.lstrip (fence +++ tag +++ Text.NL +++ body +++ Text.NL +++ fence +++ post))
    with (fence +++ tag +++ Text.NL +++ body +++ Text.NL +++ fence +++ post).
  replace (fence +++ tag +++ Text.NL +++ body +++ Text.NL +++ fence +++ post)
    with (((fence +++ tag +++ Text.NL +++ body +++ Text.NL +++ "``")
             +++ String "`"%char EmptyString) +++ post).
  - rewrite rstrip_pad by exact Hpost.
    rewrite rstrip_end_clean by reflexivity.
    rewrite !append_assoc. reflexivity.
  - rewrite !append_assoc. reflexivity.
Qed.

Lemma drop_word_tag (tag rest : string) :
  all_word tag = true ->
  drop_word (tag +++ Text.NL +++ rest) = Text.NL +++ rest.
Proof.
  unfold all_word. induction tag as [|c tag IH]; simpl; intros H; [reflexivity|].
  apply andb_prop in H as [Hc Htag]. rewrite Hc. apply IH. exact Htag.
Qed.

Lemma eqb_length (a b : string) :
  String.length a <> String.length b -> String.eqb a b = false.
Proof.
  intros H. destruct (String.eqb a b) eqn:E; [|reflexivity].
  apply String.eqb_eq in E. subst. congruence.
Qed.

Lemma strip_close_fence_body (body : string) :
  strip_close_fence (body +++ Text.NL +++ fence) = body.
Proof.
  induction body as [|c body IH]; [reflexivity|].
  change ((String c body) +++ Text.NL +++ fence)
    with (String c (body +++ Text.NL +++ fence)).
  cbn [strip_close_fence]. fold strip_close_fence.
  assert (Hlen : String.length (String c (body +++ Text.NL +++ fence))
                 = 5 + String.length body)
    by (simpl; rewrite length_append; simpl; lia).
  rewrite (@eqb_length _ (Text.NL +++ fence)) by (rewrite Hlen; simpl; lia).
  rewrite (@eqb_length _ fence) by (rewrite Hlen; simpl; lia).
  rewrite (@eqb_length _ (fence +++ Text.NL)) by (rewrite Hlen; simpl; lia).
  assert (H5 : String.eqb (String c (body +++ Text.NL +++ fence))
                          (Text.NL +++ fence +++ Text.NL) = false).
  { destruct body as [|d body].
    - simpl. destruct (Ascii.eqb c _); reflexivity.
    - apply eqb_length. rewrite Hlen. simpl. lia. }
  rewrite H5. cbn [orb]. rewrite IH. reflexivity.
Qed.

(** X22. An answer that comes wrapped in a fenced code block (an opening
    fence with a tag of word characters, the code, a closing fence), with
    any blank padding around the block, is returned by [call_openai] as the
    code alone, exactly as it stood between the fences. *)
Theorem call_openai_unwraps_fence
        (api : list Event -> string -> Outcome (option string))
        (prompt : string) (t : list Event) (pre tag body post : string) :
  all_space pre = true -> all_space post = true -> all_word tag = true ->
  api t prompt = Ok (Some (fenced pre tag body post)) ->
  call_openai_via api prompt t = (Ok (Some body), t ++ [EvProvider prompt]).
Proof.
  intros Hpre Hpost Htag Hapi.
  unfold call_openai_via, catch, bind. rewrite Hapi.
  assert (Hne : String.eqb (fenced pre tag body post) EmptyString = false)
    by (unfold fenced; destruct pre; reflexivity).
  rewrite Hne. cbn [ret].
  rewrite strip_fenced by assumption.
  unfold strip_open_fence.
  change (after_prefix fence (fence +++ tag +++ Text.NL +++ body +++ Text.NL +++ fence))
    with (Some (tag +++ Text.NL +++ body +++ Text.NL +++ fence)).
  cbv beta iota.
  rewrite drop_word_tag by exact Htag.
  change (drop_newline (Text.NL +++ body +++ Text.NL +++ fence))
    with (body +++ Text.NL +++ fence).
  rewrite strip_close_fence_body. reflexivity.
Qed.

Lemma call_openai_unwraps_fence_witness :
  call_openai_via
    (fixed_api (Some (fenced "  " "python" "x = 1" Text.NL))) "improve" []
  = (Ok (Some "x = 1"), [] ++ [EvProvider "improve"]).
Proof.
  apply (@call_openai_unwraps_fence
           (fixed_api (Some (fenced "  " "python" "x = 1" Text.NL)))
           "improve" [] "  " "python" "x = 1" Text.NL);
    reflexivity.
Defined.

Lemma lstrip_all_space (s : string) :
  all_space s = true -> Text.lstrip s = EmptyString.
Proof.
  unfold all_space. induction s as [|c s IH]; simpl; intros H; [reflexivity|].
  apply andb_prop in H as [Hc Hs]. rewrite Hc. apply IH. exact Hs.
Qed.

Lemma word_not_space (c : ascii) : is_word c = true -> Text.is_space c = false.
Proof.
  destruct c as [[] [] [] [] [] [] [] []]; vm_compute; intros H;
    first [reflexivity | discriminate H].
Qed.

Lemma rstrip_word (s : string) : all_word s = true -> Text.rstrip s = s.
Proof.
  unfold all_word. induction s as [|c s IH]; simpl; intros H; [reflexivity|].
  apply andb_prop in H as [Hc Hs]. rewrite (IH Hs).
  destruct s; [rewrite (word_not_space _ Hc)|]; reflexivity.
Qed.

Lemma drop_word_all (s : string) : all_word s = true -> drop_word s = EmptyString.
Proof.
  unfold all_word. induction s as [|c s IH]; simpl; intros H; [reflexivity|].
  apply andb_prop in H as [Hc Hs]. rewrite Hc. apply IH. exact Hs.
Qed.

(** X23. [call_openai] never raises. An exception of the completion request
    gives None with an error line naming it, and a missing or empty content
    gives None with the line "OpenAI response content was empty". An answer
    made of blanks only, or of a bare opening fence with its tag, is not
    None: it comes back as the empty string. *)
Theorem call_openai_via_edges
        (api : list Event -> string -> Outcome (option string))
        (prompt : string) (t : list Event) :
  (forall e,
      api t prompt = Raised e ->
      call_openai_via api prompt t
      = (Ok None, (t ++ [EvProvider prompt])
                    ++ [EvLog "ERROR" ("OpenAI API error: " +++ e)]))
  /\ (api t prompt = Ok None \/ api t prompt = Ok (Some EmptyString) ->
      call_openai_via api prompt t
      = (Ok None, (t ++ [EvProvider prompt])
                    ++ [EvLog "ERROR" "OpenAI response content was empty"]))
  /\ (forall text,
         api t prompt = Ok (Some text) -> text <> EmptyString ->
         all_space text = true ->
         call_openai_via api prompt t = (Ok (Some EmptyString), t ++ [EvProvider prompt]))
  /\ (forall tag,
         api t prompt = Ok (Some (fence +++ tag)) -> all_word tag = true ->
         call_openai_via api prompt t = (Ok (Some EmptyString), t ++ [EvProvider prompt])).
Proof.
  unfold call_openai_via, catch, bind, logger, emit, ret.
  split; [intros e H; rewrite H; reflexivity|].
  split; [intros [H|H]; rewrite H; reflexivity|].
  split.
  - intros text H Hne Hspace. rewrite H.
    apply String.eqb_neq in Hne. rewrite Hne.
    unfold Text.strip. rewrite (lstrip_all_space _ Hspace). reflexivity.
  - intros tag H Hword. rewrite H.
    change (String.eqb (fence +++ tag) EmptyString) with false. cbv iota.
    assert (Hstrip : Text.strip (fence +++ tag) = fence +++ tag).
    { unfold Text.strip.
      change (Text.lstrip (fence +++ tag)) with (fence +++ tag).
      change (fence +++ tag)
        with (String "`"%char (String "`"%char (String "`"%char tag))).
      cbn [Text.rstrip]. rewrite (rstrip_word _ Hword).
      destruct tag; reflexivity. }
    rewrite Hstrip. unfold strip_open_fence.
    change (after_prefix fence (fence +++ tag)) with (Some tag). cbv beta iota.
    rewrite (drop_word_all _ Hword). reflexivity.
Qed.

(** X24. In an attempt, an answer that is the empty string is treated like
    no answer at all: the attempt ends in [continue] right after the provider
    call, and the loop goes on with the attempts that remain. *)
Theorem attempt_skips_empty_answer (env : Env) (config : Config) (repo_path : string)
        (existing_files : list Entry) (t t1 t2 t3 : list Event)
        (f : Entry) (cs : CodeSection) (mt : string) :
  choice env existing_files t = (Ok f, t1) ->
  select_random_code_section env f
    (t1 ++ [EvLog "INFO" ("Attempting to modify existing file: " +++ e_path f)])
  = (Ok (Some cs), t2) ->
  choice env (modification_types config) t2 = (Ok mt, t3) ->
  completion env t3 (get_improvement_prompt cs mt) = None
  \/ completion env t3 (get_improvement_prompt cs mt) = Some EmptyString ->
  attempt env config repo_path existing_files t
  = (Ok Continue, t3 ++ [EvProvider (get_improvement_prompt cs mt)])
  /\ forall n after,
      for_range (S n) (attempt env config repo_path existing_files) after t
      = for_range n (attempt env config repo_path existing_files) after
                  (t3 ++ [EvProvider (get_improvement_prompt cs mt)]).
Proof.
  intros Hfile Hsel Htype Hanswer.
  assert (Hrun : attempt env config repo_path existing_files t
                 = (Ok Continue, t3 ++ [EvProvider (get_improvement_prompt cs mt)])).
  { unfold attempt. unfold bind at 1. rewrite Hfile.
    unfold bind at 1. unfold logger, emit.
    unfold bind at 1. rewrite Hsel.
    unfold bind at 1. rewrite Htype.
    unfold bind at 1. unfold call_openai.
    destruct Hanswer as [H|H]; rewrite H; reflexivity. }
  split; [exact Hrun|].
  intros n after. apply for_range_continue. exact Hrun.
Qed.

Lemma attempt_skips_empty_answer_witness :
  attempt empty_answer_env default_config "repo" [sample_file] []
  = (Ok Continue,
     noop_t3 ++ [EvProvider (get_improvement_prompt sample_section "improve_performance")])
  /\ forall n after,
      for_range (S n) (attempt empty_answer_env default_config "repo" [sample_file]) after []
      = for_range n (attempt empty_answer_env default_config "repo" [sample_file]) after
                  (noop_t3 ++ [EvProvider (get_improvement_prompt sample_section
                                                                  "improve_performance")]).
Proof.
  apply (@attempt_skips_empty_answer empty_answer_env default_config "repo" [sample_file]
           [] noop_t1 noop_t2 noop_t3 sample_file sample_section "improve_performance").
  - vm_compute. reflexivity.
  - vm_compute. reflexivity.
  - vm_compute. reflexivity.
  - right. reflexivity.
Defined.

Lemma rstrip_is_prefix (s : string) : exists tail, s = Text.rstrip s +++ tail.
Proof.
  induction s as [|c s (tail & IH)]; [exists EmptyString; reflexivity|].
  simpl. destruct (Text.rstrip s) as [|d r] eqn:E.
  - destruct (Text.is_space c).
    + exists (String c s). reflexivity.
    + exists s. reflexivity.
  - exists tail. simpl. simpl in IH. rewrite <- IH. reflexivity.
Qed.

Lemma lstrip_is_suffix (s : string) : exists head, s = head +++ Text.lstrip s.
Proof.
  induction s as [|c s (head & IH)]; [exists EmptyString; reflexivity|].
  simpl. destruct (Text.is_space c).
  - exists (String c head). simpl. rewrite <- IH. reflexivity.
  - exists EmptyString. reflexivity.
Qed.

Lemma prefix_append (p a b : string) :
  String.prefix p a = true -> String.prefix p (a +++ b) = true.
Proof.
  revert a. induction p as [|c p IH]; intros a H;
    [destruct (a +++ b); reflexivity|].
  destruct a as [|d a]; simpl in *; [discriminate H|].
  destruct (Ascii.ascii_dec c d); [apply IH; exact H | discriminate H].
Qed.

Lemma contains_append_r (p a b : string) :
  Text.contains p a = true -> Text.contains p (a +++ b) = true.
Proof.
  induction a as [|d a IH]; intros H.
  - simpl in H. rewrite orb_false_r in H.
    destruct p; [|discriminate H]. destruct b; reflexivity.
  - cbn [Text.contains] in H. apply orb_prop in H as [H|H].
    + change (String d a +++ b) with (String d (a +++ b)).
      cbn [Text.contains].
      pose proof (@prefix_append p (String d a) b H) as Hp.
      change (String d a +++ b) with (String d (a +++ b)) in Hp.
      rewrite Hp. reflexivity.
    + change (String d a +++ b) with (String d (a +++ b)).
      cbn [Text.contains]. rewrite (IH H). apply orb_true_r.
Qed.

Lemma contains_append_l (p a b : string) :
  Text.contains p b = true -> Text.contains p (a +++ b) = true.
Proof.
  intros H. induction a as [|d a IH]; [exact H|].
  change (String d a +++ b) with (String d (a +++ b)).
  cbn [Text.contains]. rewrite IH. apply orb_true_r.
Qed.

Lemma contains_strip (p s : string) :
  Text.contains p s = false -> Text.contains p (Text.strip s) = false.
Proof.
  intros H. destruct (Text.contains p (Text.strip s)) eqn:E; [|reflexivity].
  unfold Text.strip in E.
  destruct (rstrip_is_prefix (Text.lstrip s)) as [tail Ht].
  destruct (lstrip_is_suffix s) as [head Hh].
  apply (contains_append_r _ _ tail) in E. rewrite <- Ht in E.
  apply (contains_append_l _ head) in E. rewrite <- Hh in E.
  congruence.
Qed.

Lemma after_prefix_some (p s rest : string) :
  after_prefix p s = Some rest -> String.prefix p s = true.
Proof.
  revert s. induction p as [|c p IH]; intros s H; [destruct s; reflexivity|].
  destruct s as [|d s]; simpl in *; [discriminate H|].
  destruct (Ascii.eqb c d) eqn:E; [|discriminate H].
  apply Ascii.eqb_eq in E. subst.
  destruct (Ascii.ascii_dec d d); [apply (IH s H) | congruence].
Qed.

Lemma strip_open_fence_none (s : string) :
  Text.contains fence s = false -> strip_open_fence s = s.
Proof.
  intros H. unfold strip_open_fence.
  destruct (after_prefix fence s) as [rest|] eqn:E; [|reflexivity].
  apply after_prefix_some in E.
  destruct s; cbn [Text.contains] in H; rewrite E in H; discriminate H.
Qed.

Lemma strip_close_fence_none (s : string) :
  Text.contains fence s = false -> strip_close_fence s = s.
Proof.
  induction s as [|c s IH]; intros H; [reflexivity|].
  assert (Hno : forall pat, Text.contains fence pat = true ->
                            String.eqb (String c s) pat = false).
  { intros pat Hpat. destruct (String.eqb (String c s) pat) eqn:E; [|reflexivity].
    apply String.eqb_eq in E. rewrite E in H. congruence. }
  cbn [strip_close_fence]. fold strip_close_fence.
  rewrite !Hno by reflexivity. cbn [orb].
  cbn [Text.contains] in H. apply orb_false_iff in H as [_ H].
  rewrite (IH H). reflexivity.
Qed.

(** X25. An answer that holds no fence at all comes back from [call_openai]
    trimmed of the blanks around it and otherwise untouched. *)
Theorem call_openai_plain_answer
        (api : list Event -> string -> Outcome (option string))
        (prompt : string) (t : list Event) (text : string) :
  api t prompt = Ok (Some text) ->
  text <> EmptyString ->
  Text.contains fence text = false ->
  call_openai_via api prompt t = (Ok (Some (Text.strip text)), t ++ [EvProvider prompt]).
Proof.
  intros Hapi Hne Hplain.
  unfold call_openai_via, catch, bind. rewrite Hapi.
  apply String.eqb_neq in Hne. rewrite Hne. cbn [ret].
  pose proof (contains_strip _ _ Hplain) as Hs.
  rewrite (strip_open_fence_none _ Hs), (strip_close_fence_none _ Hs). reflexivity.
Qed.

Lemma call_openai_plain_answer_witness :
  call_openai_via (fixed_api (Some " x = 1 ")) "improve" []
  = (Ok (Some (Text.strip " x = 1 ")), [] ++ [EvProvider "improve"]).
Proof.
  apply (@call_openai_plain_answer (fixed_api (Some " x = 1 ")) "improve" [] " x = 1 ").
  - reflexivity.
  - discriminate.
  - reflexivity.
Defined.
